(** * Version-consistency check of [scripts/validate-versions.js]

    A shallow embedding of the script's single function [validateVersions]
    and of the pieces of the JavaScript runtime it touches: the files it
    reads, the values [JSON.parse] yields, property access, template
    literals, the two regular expressions, [console.log] and
    [process.exit]. *)

From Stdlib Require Import Ascii String.
From stdpp Require Import base option list strings gmap pretty.

Set Warnings "-register-all".

(** ** Characters that have no spelling inside a string literal *)

Definition LF : string := String (ascii_of_nat 10) "".
Definition DQUOTE : string := String (ascii_of_nat 34) "".

(** ** JavaScript values

    The values that flow through the script are those produced by
    [JSON.parse], plus [undefined] (the result of reading a property that
    is not there).  No arithmetic is ever done on a number, so numbers are
    kept abstract: the host says how they print. *)

Inductive value (number : Type) : Type :=
  | Undefined
  | Null
  | Bool (b : bool)
  | Num (n : number)
  | Str (s : string)
  | Arr (elements : list (value number))
  | Obj (properties : gmap string (value number)).

Arguments Undefined {number}.
Arguments Null {number}.
Arguments Bool {number} b.
Arguments Num {number} n.
Arguments Str {number} s.
Arguments Arr {number} elements.
Arguments Obj {number} properties.

(** What the script takes from its host and does not define itself: the
    number type with [Number.prototype.toString], and [JSON.parse], which
    answers [None] where the real one throws a [SyntaxError]. *)

Class Host : Type := {
  number : Type;
  Number_toString : number → string;
  JSON_parse : string → option (value number)
}.

(** ** The two regular expressions *)

(** [/^[\^~>=<]/]: one of the five range operators, at the start. *)
Definition is_range_operator (c : ascii) : bool :=
  match String.index 0 (String c "") "^~>=<" with
  | Some _ => true
  | None => false
  end.

(** [s.replace(/^[\^~>=<]/, '')]: the pattern is anchored and not global, so
    at most the first character goes. *)
Definition strip_range_operator (s : string) : string :=
  match s with
  | String c rest => if is_range_operator c then rest else s
  | EmptyString => s
  end.

(** [\d] *)
Definition is_digit (c : ascii) : bool :=
  let n := nat_of_ascii c in (48 <=? n)%nat && (n <=? 57)%nat.

(** [\d*], greedy: the longest run of digits in front of [s], and what is
    left after it. *)
Fixpoint span_digits (s : string) : string * string :=
  match s with
  | String c rest =>
      if is_digit c
      then let '(ds, tl) := span_digits rest in (String c ds, tl)
      else ("", s)
  | EmptyString => ("", "")
  end.

(** [\d+\.]: a non-empty run of digits and a dot. *)
Definition digits_dot (s : string) : option (string * string) :=
  match span_digits s with
  | (String d ds, String "." tl) => Some (String d ds, tl)
  | _ => None
  end.

(** [\d+\.\d+\.\d+] anchored at the start of [s]; the text it matched.
    A digit run is followed by a dot or by the end of the match, neither
    of which is a digit, so giving back digits never helps and the greedy
    runs are the only ones to try. *)
Definition semver_prefix (s : string) : option string :=
  match digits_dot s with
  | Some (d1, s1) =>
      match digits_dot s1 with
      | Some (d2, s2) =>
          match span_digits s2 with
          | (String d ds, _) => Some (d1 +:+ "." +:+ d2 +:+ "." +:+ String d ds)
          | _ => None
          end
      | None => None
      end
  | None => None
  end.

(** [line.match(/v(\d+\.\d+\.\d+)/)], reduced to what the script uses of
    it: [None] for a [null] result, otherwise capture group 1 of the
    leftmost match. *)
Fixpoint match_version (line : string) : option string :=
  match line with
  | String c rest =>
      if Ascii.eqb c "v"
      then match semver_prefix rest with
           | Some ver => Some ver
           | None => match_version rest
           end
      else match_version rest
  | EmptyString => None
  end.

(** [content.split('\n')[0]] *)
Fixpoint first_line (content : string) : string :=
  match content with
  | String c rest =>
      if Ascii.eqb c (ascii_of_nat 10) then "" else String c (first_line rest)
  | EmptyString => ""
  end.

(** ** The file system

    Paths are taken relative to [rootDir], the directory above the
    script.  [existsSync] answers [true] for a directory as well, while
    [readFileSync] can only read a file. *)

Inductive node : Type :=
  | File (content : string)
  | Directory.

Definition existsSync (fs : gmap string node) (path : string) : bool :=
  bool_decide (is_Some (fs !! path)).

(** ** The process: what a run changes, and how it can end *)

Inductive exn : Type :=
  | ENOENT (path : string)
  | EISDIR (path : string)
  | SyntaxError
  | TypeError.

(** The two arrays of [validateVersions] and the lines written by
    [console.log], oldest first. *)
Record state : Type := State {
  errors : list string;
  warnings : list string;
  stdout : list string
}.

Inductive outcome (A : Type) : Type :=
  | Returned (a : A)
  | Thrown (e : exn)
  | Exited (code : nat).

Arguments Returned {A} a.
Arguments Thrown {A} e.
Arguments Exited {A} code.

Definition M (A : Type) : Type := state → outcome A * state.

#[export] Instance M_ret : MRet M := λ A a st, (Returned a, st).

#[export] Instance M_bind : MBind M := λ A B f m st,
  match m st with
  | (Returned a, st') => f a st'
  | (Thrown e, st') => (Thrown e, st')
  | (Exited code, st') => (Exited code, st')
  end.

#[export] Instance M_throw : MThrow exn M := λ A e st, (Thrown e, st).

Definition process_exit {A : Type} (code : nat) : M A :=
  λ st, (Exited code, st).

Definition console_log (line : string) : M unit :=
  λ st, (Returned (), State (errors st) (warnings st) (stdout st ++ [line])).

Definition errors_new : M unit :=
  λ st, (Returned (), State [] (warnings st) (stdout st)).

Definition warnings_new : M unit :=
  λ st, (Returned (), State (errors st) [] (stdout st)).

Definition errors_push (msg : string) : M unit :=
  λ st, (Returned (), State (errors st ++ [msg]) (warnings st) (stdout st)).

Definition warnings_push (msg : string) : M unit :=
  λ st, (Returned (), State (errors st) (warnings st ++ [msg]) (stdout st)).

Definition errors_get : M (list string) := λ st, (Returned (errors st), st).

Definition warnings_get : M (list string) := λ st, (Returned (warnings st), st).

(** [xs.forEach(x => f(x))] *)
Fixpoint forEach {A : Type} (f : A → M unit) (xs : list A) : M unit :=
  match xs with
  | [] => mret ()
  | x :: rest => f x;; forEach f rest
  end.

(** [for (const x of xs) { acc = body(acc, x) }] *)
Fixpoint for_of {A B : Type} (body : B → A → M B) (xs : list A) (acc : B) : M B :=
  match xs with
  | [] => mret acc
  | x :: rest => acc' ← body acc x; for_of body rest acc'
  end.

Definition readFileSync (fs : gmap string node) (path : string) : M string :=
  match fs !! path with
  | Some (File content) => mret content
  | Some Directory => mthrow (EISDIR path)
  | None => mthrow (ENOENT path)
  end.

(** The process exit code: the argument of [process.exit], and 1 when an
    exception reaches the top level, as Node does. *)
Definition exit_status {A : Type} (o : outcome A) : nat :=
  match o with
  | Returned _ => 0
  | Thrown _ => 1
  | Exited code => code
  end.

(** [s.repeat(n)] *)
Fixpoint String_repeat (s : string) (n : nat) : string :=
  match n with
  | O => ""
  | S n' => s +:+ String_repeat s n'
  end.

Section Script.
Context `{Host}.

#[local] Abbreviation value := (value number).

(** ** Runtime operations on values *)

(** [ToString], as a template literal applies it.  An object prints as
    [[object Object]] through [Object.prototype.toString], unless an own
    property [toString] hides that method: a parsed property is never a
    function, and [valueOf] (its own or the inherited one) gives no
    primitive either, so the conversion throws.  An array prints through
    [join]: elements separated by commas, [undefined] and [null] as
    nothing. *)
Fixpoint ToString (v : value) : option string :=
  match v with
  | Undefined => Some "undefined"
  | Null => Some "null"
  | Bool true => Some "true"
  | Bool false => Some "false"
  | Num n => Some (Number_toString n)
  | Str s => Some s
  | Arr elements =>
      (fix join (l : list value) : option string :=
         match l with
         | [] => Some ""
         | x :: rest =>
             match match x with
                   | Undefined | Null => Some ""
                   | _ => ToString x
                   end with
             | Some s =>
                 match rest with
                 | [] => Some s
                 | _ :: _ =>
                     match join rest with
                     | Some r => Some (s +:+ "," +:+ r)
                     | None => None
                     end
                 end
             | None => None
             end
         end) elements
  | Obj properties =>
      match properties !! "toString" with
      | Some _ => None
      | None => Some "[object Object]"
      end
  end.

(** [`${v}`] *)
Definition template (v : value) : M string :=
  match ToString v with
  | Some s => mret s
  | None => mthrow TypeError
  end.

(** [v.key], for the four names the script reads ([version],
    [devDependencies], [react], [react-dom]): none of them is an index or
    a name found on a built-in prototype, so only an object's own
    property can answer. *)
Definition Get (v : value) (key : string) : M value :=
  match v with
  | Undefined | Null => mthrow TypeError
  | Obj properties => mret (default Undefined (properties !! key))
  | _ => mret Undefined
  end.

(** [v.replace(/^[\^~>=<]/, '')]: only a string has a [replace] to call. *)
Definition replace_range_operator (v : value) : M string :=
  match v with
  | Str s => mret (strip_range_operator s)
  | _ => mthrow TypeError
  end.

(** [s !== v] with a string on the left. *)
Definition strict_neq (s : string) (v : value) : bool :=
  match v with
  | Str t => negb (String.eqb s t)
  | _ => true
  end.

(** [JSON.parse(text)] *)
Definition parse (text : string) : M value :=
  match JSON_parse text with
  | Some v => mret v
  | None => mthrow SyntaxError
  end.

(** ** The script *)

(** Step 1 (lines 24-32): read the manifest; the declared version and the
    two constraints without their range operator. *)
Definition load_manifest (fs : gmap string node) : M (value * string * string) :=
  text ← readFileSync fs "package.json";
  pkg ← parse text;
  packageVersion ← Get pkg "version";
  devDependencies ← Get pkg "devDependencies";
  react ← Get devDependencies "react";
  reactDevDep ← replace_range_operator react;
  devDependencies' ← Get pkg "devDependencies";
  react_dom ← Get devDependencies' "react-dom";
  reactDomDevDep ← replace_range_operator react_dom;
  shown ← template packageVersion;
  console_log ("📦 package.json version: " +:+ shown);;
  console_log ("📦 devDependencies.react: " +:+ reactDevDep);;
  console_log ("📦 devDependencies.react-dom: " +:+ reactDomDevDep +:+ LF);;
  mret (packageVersion, reactDevDep, reactDomDevDep).

(** The Error of step 2 for the dependency [name]. *)
Definition devDependency_mismatch (name devDep shown : string) : string :=
  "❌ devDependencies." +:+ name +:+ " (" +:+ devDep
    +:+ ") doesn't match package version (" +:+ shown +:+ ")".

(** Step 2 (lines 35-39 with [name] = [react], lines 41-45 with [name] =
    [react-dom]). *)
Definition check_devDependency (name devDep : string) (packageVersion : value) : M unit :=
  if strict_neq devDep packageVersion then
    shown ← template packageVersion;
    errors_push (devDependency_mismatch name devDep shown)
  else
    console_log ("✅ devDependencies." +:+ name +:+ " matches package version").

Definition installed_mismatch (shown reactDevDep : string) : string :=
  "❌ Installed React (" +:+ shown +:+ ") doesn't match devDependencies ("
    +:+ reactDevDep +:+ ")".

Definition npm_install_hint : string := "   💡 Run: npm install".

(** Step 3 (lines 48-61). *)
Definition check_installed (fs : gmap string node) (reactDevDep : string) : M unit :=
  let nodeModulesReactPath := "node_modules/react/package.json" in
  if existsSync fs nodeModulesReactPath then
    text ← readFileSync fs nodeModulesReactPath;
    installedReact ← parse text;
    installedVersion ← Get installedReact "version";
    shown ← template installedVersion;
    console_log (LF +:+ "📦 node_modules/react version: " +:+ shown);;
    if strict_neq reactDevDep installedVersion then
      shown' ← template installedVersion;
      errors_push (installed_mismatch shown' reactDevDep);;
      errors_push npm_install_hint
    else
      console_log "✅ Installed React matches devDependencies"
  else mret ().

Definition distFiles : list string :=
  [ "dist/react.production.min.js";
    "dist/react.development.js";
    "dist/react-dom.production.min.js";
    "dist/react-dom.development.js" ].

Definition dist_mismatch (distFile embeddedVersion shown : string) : string :=
  "❌ " +:+ distFile +:+ " has v" +:+ embeddedVersion +:+ ", expected v" +:+ shown.

Definition npm_build_hint : string := "   💡 Run: npm run build".

Definition no_version_warning (distFile : string) : string :=
  "⚠️  Could not extract version from " +:+ distFile.

(** Step 4, the body of the loop (lines 75-95); the result is the new
    value of [distFilesChecked]. *)
Definition check_distFile (fs : gmap string node) (packageVersion : value)
    (distFilesChecked : nat) (distFile : string) : M nat :=
  if existsSync fs distFile then
    content ← readFileSync fs distFile;
    let firstLine := first_line content in
    match match_version firstLine with
    | Some embeddedVersion =>
        console_log ("   " +:+ distFile +:+ ": v" +:+ embeddedVersion);;
        (if strict_neq embeddedVersion packageVersion then
           shown ← template packageVersion;
           errors_push (dist_mismatch distFile embeddedVersion shown);;
           errors_push npm_build_hint
         else mret ());;
        mret (S distFilesChecked)
    | None =>
        warnings_push (no_version_warning distFile);;
        mret distFilesChecked
    end
  else mret distFilesChecked.

Definition no_dist_warning : string :=
  "⚠️  No dist files found - run " +:+ DQUOTE +:+ "npm run build" +:+ DQUOTE
    +:+ " first".

(** Lines 98-102. *)
Definition dist_summary (distFilesChecked : nat) : M unit :=
  if Nat.eqb distFilesChecked (length distFiles) then
    console_log "✅ All dist files have correct versions"
  else if Nat.eqb distFilesChecked 0 then
    warnings_push no_dist_warning
  else mret ().

(** Step 4 (lines 71-102). *)
Definition check_dist (fs : gmap string node) (packageVersion : value) : M unit :=
  console_log (LF +:+ "📦 Checking built dist files...");;
  distFilesChecked ← for_of (check_distFile fs packageVersion) distFiles 0;
  dist_summary distFilesChecked.

Definition separator : string := LF +:+ String_repeat "=" 60.
Definition failed_header : string := LF +:+ "❌ VALIDATION FAILED:" +:+ LF.
Definition warnings_header : string := LF +:+ "⚠️  WARNINGS:" +:+ LF.
Definition passed_line : string := LF +:+ "✅ All version validations passed!" +:+ LF.

(** Step 5 (lines 105-119). *)
Definition report : M unit :=
  console_log separator;;
  errs ← errors_get;
  (if Nat.ltb 0 (length errs) then
     console_log failed_header;;
     forEach console_log errs;;
     process_exit 1
   else mret ());;
  warns ← warnings_get;
  (if Nat.ltb 0 (length warns) then
     console_log warnings_header;;
     forEach console_log warns
   else mret ());;
  console_log passed_line;;
  process_exit 0.

Definition banner : string := "🔍 Validating version consistency..." +:+ LF.

(** Lines 17-120. *)
Definition validateVersions (fs : gmap string node) : M unit :=
  console_log banner;;
  errors_new;;
  warnings_new;;
  '(packageVersion, reactDevDep, reactDomDevDep) ← load_manifest fs;
  check_devDependency "react" reactDevDep packageVersion;;
  check_devDependency "react-dom" reactDomDevDep packageVersion;;
  check_installed fs reactDevDep;;
  check_dist fs packageVersion;;
  report.

(** Line 122: the script, run in a fresh process. *)
Definition run (fs : gmap string node) : outcome unit * state :=
  validateVersions fs (State [] [] []).

End Script.

(** ** A host to run the script on concrete files

    Numbers are the integers of at most fifteen digits, printed in
    decimal.  The parser reads the JSON texts built from objects, arrays,
    strings without escape sequences, such integers, [true], [false] and
    [null]; it answers [None] everywhere else. *)

Module Fragment.

Definition is_space (c : ascii) : bool :=
  let n := nat_of_ascii c in
  Nat.eqb n 32 || Nat.eqb n 10 || Nat.eqb n 13 || Nat.eqb n 9.

Fixpoint skip_space (s : string) : string :=
  match s with
  | String c rest => if is_space c then skip_space rest else s
  | EmptyString => s
  end.

(** [s] without the prefix [p], when it starts with it. *)
Fixpoint after (p s : string) : option string :=
  match p, s with
  | EmptyString, _ => Some s
  | String a p', String b s' => if Ascii.eqb a b then after p' s' else None
  | String _ _, EmptyString => None
  end.

(** The characters of a string up to its closing quote, and what follows
    the quote. *)
Fixpoint string_body (s : string) : option (string * string) :=
  match s with
  | String c rest =>
      let n := nat_of_ascii c in
      if Nat.eqb n 34 then Some ("", rest)
      else if Nat.eqb n 92 || (n <? 32)%nat then None
      else match string_body rest with
           | Some (body, tl) => Some (String c body, tl)
           | None => None
           end
  | EmptyString => None
  end.

Definition digit_value (c : ascii) : Z := Z.of_nat (nat_of_ascii c - 48).

Fixpoint decimal (acc : Z) (digits : string) : Z :=
  match digits with
  | String c rest => decimal (10 * acc + digit_value c)%Z rest
  | EmptyString => acc
  end.

(** [0] or a run of digits that does not start with [0]. *)
Definition natural (s : string) : option (Z * string) :=
  match span_digits s with
  | (String d ds, tl) =>
      if Ascii.eqb d "0"
      then Some (0%Z, String.append ds tl)
      else if (String.length ds <? 15)%nat
           then Some (decimal 0 (String d ds), tl)
           else None
  | _ => None
  end.

Definition integer (s : string) : option (Z * string) :=
  match after "-" s with
  | Some rest =>
      match natural rest with
      | Some (n, tl) => Some ((- n)%Z, tl)
      | None => None
      end
  | None => natural s
  end.

Definition starts_with (c : nat) (s : string) : option string :=
  match s with
  | String a rest => if Nat.eqb (nat_of_ascii a) c then Some rest else None
  | EmptyString => None
  end.

Fixpoint json_value (fuel : nat) (s : string) : option (value Z * string) :=
  match fuel with
  | O => None
  | S fuel' =>
      let s := skip_space s in
      match after "null" s, after "true" s, after "false" s with
      | Some tl, _, _ => Some (Null, tl)
      | _, Some tl, _ => Some (Bool true, tl)
      | _, _, Some tl => Some (Bool false, tl)
      | None, None, None =>
          match starts_with 34 s, starts_with 91 s, starts_with 123 s with
          | Some rest, _, _ =>
              match string_body rest with
              | Some (body, tl) => Some (Str body, tl)
              | None => None
              end
          | _, Some rest, _ =>
              match starts_with 93 (skip_space rest) with
              | Some tl => Some (Arr [], tl)
              | None =>
                  match json_elements fuel' rest with
                  | Some (l, tl) => Some (Arr l, tl)
                  | None => None
                  end
              end
          | _, _, Some rest =>
              match starts_with 125 (skip_space rest) with
              | Some tl => Some (Obj ∅, tl)
              | None =>
                  match json_members fuel' ∅ rest with
                  | Some (m, tl) => Some (Obj m, tl)
                  | None => None
                  end
              end
          | None, None, None =>
              match integer s with
              | Some (n, tl) => Some (Num n, tl)
              | None => None
              end
          end
      end
  end
with json_elements (fuel : nat) (s : string) : option (list (value Z) * string) :=
  match fuel with
  | O => None
  | S fuel' =>
      match json_value fuel' s with
      | Some (v, tl) =>
          let tl := skip_space tl in
          match starts_with 93 tl, starts_with 44 tl with
          | Some tl', _ => Some ([v], tl')
          | _, Some tl' =>
              match json_elements fuel' tl' with
              | Some (l, tl'') => Some (v :: l, tl'')
              | None => None
              end
          | None, None => None
          end
      | None => None
      end
  end
with json_members (fuel : nat) (m : gmap string (value Z)) (s : string)
    : option (gmap string (value Z) * string) :=
  match fuel with
  | O => None
  | S fuel' =>
      match starts_with 34 (skip_space s) with
      | Some rest =>
          match string_body rest with
          | Some (key, tl) =>
              match starts_with 58 (skip_space tl) with
              | Some tl' =>
                  match json_value fuel' tl' with
                  | Some (v, tl'') =>
                      let m' := <[key := v]> m in
                      let tl'' := skip_space tl'' in
                      match starts_with 125 tl'', starts_with 44 tl'' with
                      | Some r, _ => Some (m', r)
                      | _, Some r => json_members fuel' m' r
                      | None, None => None
                      end
                  | None => None
                  end
              | None => None
              end
          | None => None
          end
      | None => None
      end
  end.

Definition parse_text (text : string) : option (value Z) :=
  match json_value (S (String.length text)) text with
  | Some (v, tl) =>
      match skip_space tl with
      | EmptyString => Some v
      | String _ _ => None
      end
  | None => None
  end.

#[export] Instance host : Host := {|
  number := Z;
  Number_toString := pretty;
  JSON_parse := parse_text
|}.

End Fragment.

(** ** Sample files *)

Module Sample.
Import Fragment.

Definition quoted (s : string) : string := DQUOTE +:+ s +:+ DQUOTE.

(** [{"devDependencies": {"react": ..., "react-dom": ...}}] *)
Definition devDependencies_only (react react_dom : string) : string :=
  "{" +:+ quoted "devDependencies" +:+ ": {" +:+ quoted "react" +:+ ": "
    +:+ quoted react +:+ ", " +:+ quoted "react-dom" +:+ ": "
    +:+ quoted react_dom +:+ "}}".

(** [{"version": ..., "devDependencies": {"react": ..., "react-dom": ...}}] *)
Definition manifest (version react react_dom : string) : string :=
  "{" +:+ quoted "version" +:+ ": " +:+ quoted version +:+ ", "
    +:+ quoted "devDependencies" +:+ ": {" +:+ quoted "react" +:+ ": "
    +:+ quoted react +:+ ", " +:+ quoted "react-dom" +:+ ": "
    +:+ quoted react_dom +:+ "}}".

(** [{"name": "react", "version": ...}] *)
Definition descriptor (version : string) : string :=
  "{" +:+ quoted "name" +:+ ": " +:+ quoted "react" +:+ ", "
    +:+ quoted "version" +:+ ": " +:+ quoted version +:+ "}".

Definition banner_line (name version : string) : string :=
  "/*! " +:+ name +:+ " v" +:+ version +:+ " */" +:+ LF +:+ "(function(){})();".

(** The manifest alone. *)
Definition project (version react react_dom : string) : gmap string node :=
  {[ "package.json" := File (manifest version react react_dom) ]}.

(** Everything at 19.2.0, nothing installed, nothing built. *)
Definition consistent : gmap string node :=
  project "19.2.0" "^19.2.0" "^19.2.0".

(** The same with a file the script does not look at. *)
Definition with_readme : gmap string node :=
  <["README.md" := File "# umd-react"]> consistent.

(** [react-dom] constrained with a two-character operator. *)
Definition loose_react_dom : gmap string node :=
  project "19.2.0" "^19.2.0" ">=19.2.0".

(** An older [react] left in [node_modules]. *)
Definition stale_install : gmap string node :=
  <["node_modules/react/package.json" := File (descriptor "19.1.0")]> consistent.

(** One built file, from another version. *)
Definition stale_build : gmap string node :=
  <["dist/react.development.js" :=
      File (banner_line "react.development.js" "19.2.1")]> consistent.

(** One built file, without a version in its first line. *)
Definition unversioned_build : gmap string node :=
  <["dist/react.development.js" := File "(function(){})();"]> consistent.

(** A manifest without [version]. *)
Definition versionless : gmap string node :=
  {[ "package.json" := File (devDependencies_only "^19.2.0" "^19.2.0") ]}.

(** A manifest cut off after its first character. *)
Definition garbled : gmap string node :=
  {[ "package.json" := File "{" ]}.

(** A manifest without the [react-dom] entry:
    [{"version": "19.2.0", "devDependencies": {"react": "^19.2.0"}}] *)
Definition without_react_dom : gmap string node :=
  {[ "package.json" :=
       File ("{" +:+ quoted "version" +:+ ": " +:+ quoted "19.2.0" +:+ ", "
               +:+ quoted "devDependencies" +:+ ": {" +:+ quoted "react"
               +:+ ": " +:+ quoted "^19.2.0" +:+ "}}") ]}.

(** Everything at 19.2.0: the manifest, the installed package and the
    four built files. *)
Definition built : gmap string node :=
  <["node_modules/react/package.json" := File (descriptor "19.2.0")]>
  (<["dist/react.production.min.js" :=
       File (banner_line "react.production.min.js" "19.2.0")]>
  (<["dist/react.development.js" :=
       File (banner_line "react.development.js" "19.2.0")]>
  (<["dist/react-dom.production.min.js" :=
       File (banner_line "react-dom.production.min.js" "19.2.0")]>
  (<["dist/react-dom.development.js" :=
       File (banner_line "react-dom.development.js" "19.2.0")]> consistent)))).

(** The same with one built file left from 19.2.1. *)
Definition built_stale : gmap string node :=
  <["dist/react.development.js" :=
      File (banner_line "react.development.js" "19.2.1")]> built.

(** A descriptor cut off after its first character, next to a manifest
    with a mismatch. *)
Definition broken_install : gmap string node :=
  <["node_modules/react/package.json" := File "{"]> loose_react_dom.

(** A directory where a built file is expected. *)
Definition dist_directory : gmap string node :=
  <["dist/react.development.js" := Directory]> consistent.

(** A manifest whose version is the number 19:
    [{"version": 19, "devDependencies": {"react": "^19.2.0", "react-dom": "^19.2.0"}}] *)
Definition numeric_version : gmap string node :=
  {[ "package.json" :=
       File ("{" +:+ quoted "version" +:+ ": 19, "
               +:+ quoted "devDependencies" +:+ ": {" +:+ quoted "react"
               +:+ ": " +:+ quoted "^19.2.0" +:+ ", " +:+ quoted "react-dom"
               +:+ ": " +:+ quoted "^19.2.0" +:+ "}}") ]}.

(** A manifest whose version is an object with a [toString] of its own:
    [{"version": {"toString": 1}, "devDependencies": {"react": "^19.2.0", "react-dom": "^19.2.0"}}] *)
Definition object_version : gmap string node :=
  {[ "package.json" :=
       File ("{" +:+ quoted "version" +:+ ": {" +:+ quoted "toString" +:+ ": 1}, "
               +:+ quoted "devDependencies" +:+ ": {" +:+ quoted "react"
               +:+ ": " +:+ quoted "^19.2.0" +:+ ", " +:+ quoted "react-dom"
               +:+ ": " +:+ quoted "^19.2.0" +:+ "}}") ]}.

(** No file at all. *)
Definition empty_project : gmap string node := ∅.

End Sample.

(** ** Vocabulary of the statements *)

Section Vocabulary.
Context `{Host}.

#[local] Abbreviation value := (value number).

(** The own property [key] of [v], [undefined] when there is none. *)
Definition own (v : value) (key : string) : value :=
  match v with
  | Obj properties => default Undefined (properties !! key)
  | _ => Undefined
  end.

(** The manifest is there, parses to an object, and has the two
    development dependencies as strings; [packageVersion] is whatever its
    [version] is, [undefined] when it has none. *)
Definition manifest_declares (fs : gmap string node)
    (packageVersion : value) (react react_dom : string) : Prop :=
  ∃ text pkg,
    fs !! "package.json" = Some (File text) ∧
    JSON_parse text = Some pkg ∧
    pkg ≠ Undefined ∧ pkg ≠ Null ∧
    own pkg "version" = packageVersion ∧
    own (own pkg "devDependencies") "react" = Str react ∧
    own (own pkg "devDependencies") "react-dom" = Str react_dom.

(** The ways the manifest can be unusable, each with the exception it
    raises. *)
Inductive manifest_fault (fs : gmap string node) : exn → Prop :=
  | manifest_absent :
      fs !! "package.json" = None →
      manifest_fault fs (ENOENT "package.json")
  | manifest_unreadable :
      fs !! "package.json" = Some Directory →
      manifest_fault fs (EISDIR "package.json")
  | manifest_unparsable text :
      fs !! "package.json" = Some (File text) →
      JSON_parse text = None →
      manifest_fault fs SyntaxError
  | manifest_without_react text pkg :
      fs !! "package.json" = Some (File text) →
      JSON_parse text = Some pkg →
      own (own pkg "devDependencies") "react" = Undefined →
      manifest_fault fs TypeError
  | manifest_without_react_dom text pkg :
      fs !! "package.json" = Some (File text) →
      JSON_parse text = Some pkg →
      own (own pkg "devDependencies") "react-dom" = Undefined →
      manifest_fault fs TypeError.

(** A fresh state, and a state with the additions of another one. *)
Definition fresh : state := State [] [] [].

Definition extend (st d : state) : state :=
  State (errors st ++ errors d) (warnings st ++ warnings d) (stdout st ++ stdout d).

(** What a step adds to the state when it runs on its own. *)
Definition collected {A : Type} (step : M A) : state := (step fresh).2.

(** A step that only appends to the two arrays and to the output, does the
    same whatever they hold, and does not end the process. *)
Definition logs {A : Type} (step : M A) : Prop :=
  (∀ st, step st = ((step fresh).1, extend st (collected step))) ∧
  (∀ code, (step fresh).1 ≠ Exited code).

(** A step that, besides, adds only Errors, Warnings and output lines of
    a given kind. *)
Definition emits (Pe Pw Po : string → Prop) {A : Type} (step : M A) : Prop :=
  logs step ∧
  Forall Pe (errors (collected step)) ∧
  Forall Pw (warnings (collected step)) ∧
  Forall Po (stdout (collected step)).

(** Lines 24-102 in one piece: what [validateVersions] does between the
    initialisation of its arrays and the report. *)
Definition scan (fs : gmap string node) : M value :=
  '(packageVersion, reactDevDep, reactDomDevDep) ← load_manifest fs;
  check_devDependency "react" reactDevDep packageVersion;;
  check_devDependency "react-dom" reactDomDevDep packageVersion;;
  check_installed fs reactDevDep;;
  check_dist fs packageVersion;;
  mret packageVersion.

(** The files a run looks at. *)
Definition input_paths : list string :=
  "package.json" :: "node_modules/react/package.json" :: distFiles.

End Vocabulary.

(** [line] starts with [p]. *)
Fixpoint has_prefix (p line : string) : bool :=
  match p with
  | EmptyString => true
  | String a p' =>
      match line with
      | String b line' => Ascii.eqb a b && has_prefix p' line'
      | EmptyString => false
      end
  end.

(** A line that starts with the warning sign. *)
Definition warning_line (line : string) : bool := has_prefix "⚠️" line.

(** The Errors of the dependency checks start with this. *)
Definition names_devDependency (name msg : string) : bool :=
  has_prefix ("❌ devDependencies." +:+ name +:+ " (") msg.

(** [\d+] and [\d+\.\d+\.\d+], said without the matcher. *)
Fixpoint all_digits (s : string) : bool :=
  match s with
  | String c rest => is_digit c && all_digits rest
  | EmptyString => true
  end.

Definition digit_group (s : string) : Prop := s ≠ "" ∧ all_digits s = true.

Definition semver (ver : string) : Prop :=
  ∃ d1 d2 d3, ver = d1 +:+ "." +:+ d2 +:+ "." +:+ d3 ∧
    digit_group d1 ∧ digit_group d2 ∧ digit_group d3.


(** ** Vocabulary of faults, agreement and diagnostics *)

Section Outcomes.
Context `{Host}.

#[local] Abbreviation value := (value number).

(** The ways the installed-package descriptor can be there and unusable,
    each with the exception it raises. *)
Inductive installed_fault (fs : gmap string node) : exn → Prop :=
  | installed_unreadable :
      fs !! "node_modules/react/package.json" = Some Directory →
      installed_fault fs (EISDIR "node_modules/react/package.json")
  | installed_unparsable text :
      fs !! "node_modules/react/package.json" = Some (File text) →
      JSON_parse text = None →
      installed_fault fs SyntaxError
  | installed_null text installedReact :
      fs !! "node_modules/react/package.json" = Some (File text) →
      JSON_parse text = Some installedReact →
      installedReact = Undefined ∨ installedReact = Null →
      installed_fault fs TypeError
  | installed_unprintable text installedReact :
      fs !! "node_modules/react/package.json" = Some (File text) →
      JSON_parse text = Some installedReact →
      installedReact ≠ Undefined → installedReact ≠ Null →
      ToString (own installedReact "version") = None →
      installed_fault fs TypeError.

(** The installed package agrees with the bare constraint [devDep]: there
    is no descriptor, or its version is that string. *)
Definition installed_agrees (fs : gmap string node) (devDep : string) : Prop :=
  fs !! "node_modules/react/package.json" = None ∨
  ∃ text installedReact,
    fs !! "node_modules/react/package.json" = Some (File text) ∧
    JSON_parse text = Some installedReact ∧
    installedReact ≠ Undefined ∧ installedReact ≠ Null ∧
    own installedReact "version" = Str devDep.

(** What can still raise [e] once the manifest is loaded: an unusable
    installed-package descriptor, or, with a usable one or none, the first
    built-file path in the order of the loop that is a directory. *)
Definition later_fault (fs : gmap string node) (e : exn) : Prop :=
  installed_fault fs e ∨
  ((∀ e', ¬ installed_fault fs e') ∧
   ∃ before distFile after,
     distFiles = before ++ distFile :: after ∧
     (∀ f, f ∈ before → fs !! f ≠ Some Directory) ∧
     fs !! distFile = Some Directory ∧
     e = EISDIR distFile).

End Outcomes.

(** The version in the first line of a built file; [None] when the path
    is not a file or the line carries none. *)
Definition embedded_version (fs : gmap string node) (distFile : string)
    : option string :=
  match fs !! distFile with
  | Some (File content) => match_version (first_line content)
  | _ => None
  end.

(** A built file that is there without a version in its first line. *)
Definition unversioned (fs : gmap string node) (distFile : string) : bool :=
  match fs !! distFile with
  | Some (File content) =>
      match match_version (first_line content) with
      | Some _ => false
      | None => true
      end
  | _ => false
  end.

(** The built files a version was taken from. *)
Definition versioned_files (fs : gmap string node) (files : list string)
    : list string :=
  filter (λ f, is_Some (embedded_version fs f)) files.

(** The three kinds of mismatch among the Errors, told apart by how the
    line starts. *)
Definition devDependency_line (msg : string) : bool :=
  has_prefix "❌ devDependencies." msg.

Definition installed_line (msg : string) : bool :=
  has_prefix "❌ Installed React (" msg.

Definition dist_line (msg : string) : bool := has_prefix "❌ dist/" msg.

(** Errors in which every hint comes right after the mismatch it belongs
    to: a list made of dependency mismatches standing alone, of
    installed-package mismatches each followed by the hint to reinstall,
    and of built-file mismatches each followed by the hint to rebuild. *)
Inductive well_paired : list string → Prop :=
  | paired_nil : well_paired []
  | paired_devDependency msg rest :
      devDependency_line msg = true →
      well_paired rest →
      well_paired (msg :: rest)
  | paired_installed msg rest :
      installed_line msg = true →
      well_paired rest →
      well_paired (msg :: "   💡 Run: npm install" :: rest)
  | paired_dist msg rest :
      dist_line msg = true →
      well_paired rest →
      well_paired (msg :: "   💡 Run: npm run build" :: rest).

(** The same said by position: [hint] stands only right behind a line of
    the kind [mismatch], and every such line has it right behind. *)
Definition hint_follows (hint : string) (mismatch : string → bool)
    (es : list string) : Prop :=
  (∀ i, es !! i = Some hint →
     ∃ j m, i = S j ∧ es !! j = Some m ∧ mismatch m = true) ∧
  (∀ j m, es !! j = Some m → mismatch m = true → es !! S j = Some hint).

(** A step that only appends, keeps every hint behind its mismatch, and
    adds at most [ke] Errors and [kw] Warnings. *)
Definition bounded (ke kw : nat) {A : Type} (step : M A) : Prop :=
  logs step ∧
  well_paired (errors (collected step)) ∧
  length (errors (collected step)) ≤ ke ∧
  length (warnings (collected step)) ≤ kw.

(** The line that confirms the built files, and lines that cannot be
    mistaken for it. *)
Definition dist_confirmation : string := "✅ All dist files have correct versions".

Definition other_line (line : string) : Prop := has_prefix "✅ All d" line = false.

(** [\d+\.\d+\.\d+] stands at the very start of [s]. *)
Definition semver_at (s : string) : Prop :=
  ∃ ver post, semver ver ∧ s = ver +:+ post.

(** [line] does not begin with a digit. *)
Definition no_digit_ahead (line : string) : Prop :=
  match line with
  | String c _ => is_digit c = false
  | EmptyString => True
  end.

(** ** Vocabulary independent of the script's own functions *)


Definition shows_both (a b msg : string) : Prop :=
  ∃ pre mid post, msg = pre +:+ a +:+ mid +:+ b +:+ post.

(** The five characters of the class [[\^~>=<]]. *)
Definition range_operators : list ascii :=
  [ "^"%char; "~"%char; ">"%char; "="%char; "<"%char ].



(** [ver] is the version of the leftmost place in [line] where [v] is
    followed by three dot-separated groups of digits, the last group taken
    as long as it can be. *)
Definition leftmost_version (line ver : string) : Prop :=
  ∃ pre post,
    line = pre +:+ "v" +:+ ver +:+ post ∧
    semver ver ∧
    no_digit_ahead post ∧
    ∀ pre' rest,
      line = pre' +:+ "v" +:+ rest →
      String.length pre' < String.length pre →
      ¬ semver_at rest.

(** * Properties *)

(** ** The regular expressions *)

Lemma strip_range_operator_cases (s : string) :
  strip_range_operator s = s ∨
  ∃ c, is_range_operator c = true ∧ s = String c (strip_range_operator s).
Proof.
  destruct s as [|c rest]; simpl; [by left|].
  destruct (is_range_operator c) eqn:Hc; [right|by left].
  by exists c.
Qed.

Lemma append_nil (s : string) : "" +:+ s = s.
Proof. reflexivity. Qed.

Lemma append_cons (c : ascii) (s t : string) :
  String c s +:+ t = String c (s +:+ t).
Proof. reflexivity. Qed.

Lemma append_assoc (s t u : string) : (s +:+ t) +:+ u = s +:+ t +:+ u.
Proof.
  induction s as [|c s IH]; [done|]. by rewrite !append_cons, IH.
Qed.


Lemma has_prefix_append (p s : string) : has_prefix p (p +:+ s) = true.
Proof.
  induction p as [|c p IH]; [done|]. rewrite append_cons. cbn [has_prefix].
  by rewrite Ascii.eqb_refl, IH.
Qed.

(** Two beginnings of one line: one of them begins the other. *)
Lemma has_prefix_comparable (p q line : string) :
  has_prefix p line = true → has_prefix q line = true →
  has_prefix p q = true ∨ has_prefix q p = true.
Proof.
  revert q line. induction p as [|a p IH]; intros q line; [by left|].
  destruct q as [|b q]; [by right|]. destruct line as [|c line]; [done|].
  cbn [has_prefix]. rewrite !andb_true_iff, !Ascii.eqb_eq.
  intros [-> Hp] [-> Hq]. destruct (IH q line Hp Hq); auto.
Qed.

Lemma span_digits_group (d tl : string) :
  all_digits d = true →
  (∀ c tl', tl = String c tl' → is_digit c = false) →
  span_digits (d +:+ tl) = (d, tl).
Proof.
  intros Hd Htl.
  induction d as [|c d IH];
    rewrite ?append_nil, ?append_cons; cbn [span_digits all_digits] in *.
  - destruct tl as [|c tl']; [done|].
    cbn [span_digits]. by rewrite (Htl c tl').
  - apply andb_true_iff in Hd as [Hc Hd]. by rewrite Hc, (IH Hd).
Qed.

Lemma span_digits_sound (s d tl : string) :
  span_digits s = (d, tl) → s = d +:+ tl ∧ all_digits d = true.
Proof.
  revert d tl. induction s as [|c s IH]; cbn [span_digits]; intros d tl Hs.
  - by inversion Hs.
  - destruct (is_digit c) eqn:Hc.
    + destruct (span_digits s) as [ds tl0]. inversion Hs; subst.
      destruct (IH ds tl eq_refl) as [-> Hds].
      rewrite append_cons. cbn [all_digits]. by rewrite Hc.
    + by inversion Hs.
Qed.

Lemma span_digits_prefix (d tl : string) :
  all_digits d = true → d ≠ "" →
  ∃ c ds tl', span_digits (d +:+ tl) = (String c ds, tl').
Proof.
  intros Hd Hne. destruct d as [|c d]; [done|].
  rewrite append_cons. cbn [span_digits all_digits] in *.
  apply andb_true_iff in Hd as [Hc _]. rewrite Hc.
  destruct (span_digits (d +:+ tl)) as [ds tl']. by exists c, ds, tl'.
Qed.

Lemma digits_dot_group (d tl : string) :
  digit_group d → digits_dot (d +:+ "." +:+ tl) = Some (d, tl).
Proof.
  intros [Hne Hd]. unfold digits_dot.
  change ("." +:+ tl) with (String "." tl).
  rewrite (span_digits_group d (String "." tl) Hd).
  - destruct d; [done|reflexivity].
  - intros c tl' [= <- _]. reflexivity.
Qed.

Lemma digits_dot_sound (s d tl : string) :
  digits_dot s = Some (d, tl) → s = d +:+ "." +:+ tl ∧ digit_group d.
Proof.
  unfold digits_dot. destruct (span_digits s) as [ds r] eqn:Hs.
  apply span_digits_sound in Hs as [-> Hds].
  destruct ds as [|c ds]; [done|]. destruct r as [|a r]; [done|].
  destruct (decide (a = "."%char)) as [->|Hne].
  - intros [= <- <-]. split; [done|]. by split.
  - intros Hm. exfalso. revert Hm.
    destruct a as [[] [] [] [] [] [] [] []]; try done.
Qed.

Lemma semver_prefix_sound (s ver : string) :
  semver_prefix s = Some ver → semver ver ∧ ∃ post, s = ver +:+ post.
Proof.
  unfold semver_prefix.
  destruct (digits_dot s) as [[d1 s1]|] eqn:H1; [|done].
  destruct (digits_dot s1) as [[d2 s2]|] eqn:H2; [|done].
  destruct (span_digits s2) as [d3 post] eqn:H3.
  destruct d3 as [|c d3]; [done|]. intros [= <-].
  apply digits_dot_sound in H1 as [-> G1].
  apply digits_dot_sound in H2 as [-> G2].
  apply span_digits_sound in H3 as [-> G3].
  split.
  - exists d1, d2, (String c d3). split; [done|]. split; [done|].
    split; [done|]. by split.
  - exists post. by rewrite !append_assoc.
Qed.

Lemma semver_prefix_complete (ver post : string) :
  semver ver → ∃ ver', semver_prefix (ver +:+ post) = Some ver'.
Proof.
  intros (d1 & d2 & d3 & -> & G1 & G2 & G3). unfold semver_prefix.
  rewrite !append_assoc.
  rewrite (digits_dot_group d1 _ G1), (digits_dot_group d2 _ G2).
  destruct G3 as [Hne Hd].
  destruct (span_digits_prefix d3 post Hd Hne) as (c & ds & tl & ->).
  eauto.
Qed.



(** *** The leftmost, longest match *)

Lemma span_digits_rest (s d tl : string) :
  span_digits s = (d, tl) → no_digit_ahead tl.
Proof.
  revert d tl. induction s as [|c s IH]; cbn [span_digits]; intros d tl Hs.
  - by injection Hs as <- <-.
  - destruct (is_digit c) eqn:Hc.
    + destruct (span_digits s) as [ds tl0] eqn:Hs0.
      injection Hs as <- <-. by apply (IH ds).
    + by injection Hs as <- <-.
Qed.

Lemma no_digit_ahead_spec (tl : string) :
  no_digit_ahead tl ↔ ∀ c tl', tl = String c tl' → is_digit c = false.
Proof.
  destruct tl as [|a tl]; cbn [no_digit_ahead].
  - split; [by intros _ ? ? ?|done].
  - split; [by intros ? ? ? [= <- <-]|eauto].
Qed.

Lemma semver_prefix_greedy (s ver : string) :
  semver_prefix s = Some ver →
  ∃ post, s = ver +:+ post ∧ no_digit_ahead post.
Proof.
  unfold semver_prefix.
  destruct (digits_dot s) as [[d1 s1]|] eqn:H1; [|done].
  destruct (digits_dot s1) as [[d2 s2]|] eqn:H2; [|done].
  destruct (span_digits s2) as [d3 post] eqn:H3.
  destruct d3 as [|c d3]; [done|]. intros [= <-].
  apply digits_dot_sound in H1 as [-> _].
  apply digits_dot_sound in H2 as [-> _].
  pose proof (span_digits_rest _ _ _ H3) as Hpost.
  apply span_digits_sound in H3 as [-> _].
  exists post. by rewrite !append_assoc.
Qed.

Lemma semver_prefix_exact (ver post : string) :
  semver ver → no_digit_ahead post →
  semver_prefix (ver +:+ post) = Some ver.
Proof.
  intros (d1 & d2 & d3 & -> & G1 & G2 & [Hne Hd]) Hpost.
  unfold semver_prefix. rewrite !append_assoc.
  rewrite (digits_dot_group d1 _ G1), (digits_dot_group d2 _ G2).
  rewrite (span_digits_group d3 post Hd) by by apply no_digit_ahead_spec.
  by destruct d3.
Qed.

Lemma semver_at_prefix (s : string) :
  semver_at s ↔ ∃ ver, semver_prefix s = Some ver.
Proof.
  split.
  - intros (ver & post & Hver & ->). by apply semver_prefix_complete.
  - intros [ver Hver]. apply semver_prefix_sound in Hver as [Hsem [post ->]].
    by exists ver, post.
Qed.

Lemma match_version_first (line ver : string) :
  match_version line = Some ver → leftmost_version line ver.
Proof.
  unfold leftmost_version.
  revert ver. induction line as [|c line IH]; intros ver; [done|].
  cbn [match_version].
  assert (match_version line = Some ver →
    (Ascii.eqb c "v" = false ∨ semver_prefix line = None) →
    ∃ pre post,
      String c line = pre +:+ "v" +:+ ver +:+ post ∧ semver ver ∧
      no_digit_ahead post ∧
      ∀ pre' rest, String c line = pre' +:+ "v" +:+ rest →
        String.length pre' < String.length pre → ¬ semver_at rest) as Hlater.
  { intros Hm Hhead.
    destruct (IH ver Hm) as (pre & post & -> & Hver & Hpost & Hleft).
    exists (String c pre), post. split; [done|]. split; [done|].
    split; [done|]. intros [|a pre'] rest Heq Hlen.
    - change ("" +:+ "v" +:+ rest) with (String "v" rest) in Heq.
      injection Heq as -> <-. destruct Hhead as [Hc|Hnone]; [done|].
      intros Hat%semver_at_prefix. destruct Hat as [? ?]. congruence.
    - rewrite append_cons in Heq. injection Heq as _ Heq.
      apply (Hleft pre' rest Heq). cbn [String.length] in Hlen. lia. }
  destruct (Ascii.eqb c "v") eqn:Hc; [|by auto].
  destruct (semver_prefix line) as [ver'|] eqn:Hp; [|by auto].
  intros [= ->]. apply Ascii.eqb_eq in Hc as ->.
  destruct (semver_prefix_greedy _ _ Hp) as (post & -> & Hpost).
  apply semver_prefix_sound in Hp as [Hver _].
  exists "", post. split; [done|]. split; [done|]. split; [done|].
  intros pre' rest _ Hlen. cbn [String.length] in Hlen. lia.
Qed.

Lemma match_version_of_leftmost (line ver : string) :
  leftmost_version line ver → match_version line = Some ver.
Proof.
  intros (pre & post & -> & Hver & Hpost & Hleft).
  induction pre as [|c pre IH].
  + change ("" +:+ "v" +:+ ver +:+ post) with (String "v" (ver +:+ post)).
    cbn [match_version]. change (Ascii.eqb "v" "v") with true. cbn match.
    by rewrite (semver_prefix_exact ver post Hver Hpost).
  + rewrite (append_cons c pre). cbn [match_version].
    assert (match_version (pre +:+ "v" +:+ ver +:+ post) = Some ver) as ->.
    { apply IH. intros pre' rest Heq Hlen.
      apply (Hleft (String c pre') rest).
      - by rewrite (append_cons c pre), (append_cons c pre'), Heq.
      - cbn [String.length]. lia. }
    destruct (Ascii.eqb c "v") eqn:Hc; [|done].
    apply Ascii.eqb_eq in Hc as ->.
    destruct (semver_prefix (pre +:+ "v" +:+ ver +:+ post)) as [ver'|] eqn:Hp;
      [|done].
    destruct (Hleft "" (pre +:+ "v" +:+ ver +:+ post)).
    * done.
    * cbn [String.length]. lia.
    * apply semver_at_prefix. by exists ver'.
Qed.


(** ** The first line *)




(** ** Steps that only append *)

Section Steps.
Context `{Host}.

#[local] Abbreviation value := (value number).

Lemma extend_assoc (st d1 d2 : state) :
  extend (extend st d1) d2 = extend st (extend d1 d2).
Proof. unfold extend. simpl. by rewrite !app_assoc. Qed.

Lemma extend_fresh (st : state) : extend st fresh = st.
Proof. destruct st. unfold extend. simpl. by rewrite !app_nil_r. Qed.

Lemma fresh_extend (d : state) : extend fresh d = d.
Proof. by destruct d. Qed.

Lemma logs_intro {A : Type} (step : M A) (o : outcome A) (d : state) :
  (∀ st, step st = (o, extend st d)) → (∀ code, o ≠ Exited code) → logs step.
Proof.
  intros Hstep Hexit. unfold logs, collected.
  rewrite (Hstep fresh), fresh_extend. simpl. by split.
Qed.

Lemma logs_ret {A : Type} (a : A) : logs (mret a : M A).
Proof.
  apply (logs_intro _ (Returned a) fresh); [|done].
  intros st. by rewrite extend_fresh.
Qed.

Lemma logs_throw {A : Type} (e : exn) : logs (mthrow e : M A).
Proof.
  apply (logs_intro _ (Thrown e) fresh); [|done].
  intros st. by rewrite extend_fresh.
Qed.

Lemma logs_console_log (line : string) : logs (console_log line).
Proof.
  apply (logs_intro _ (Returned ()) (State [] [] [line])); [|done].
  intros st. unfold console_log, extend. simpl. by rewrite !app_nil_r.
Qed.

Lemma logs_errors_push (msg : string) : logs (errors_push msg).
Proof.
  apply (logs_intro _ (Returned ()) (State [msg] [] [])); [|done].
  intros st. unfold errors_push, extend. simpl. by rewrite !app_nil_r.
Qed.

Lemma logs_warnings_push (msg : string) : logs (warnings_push msg).
Proof.
  apply (logs_intro _ (Returned ()) (State [] [msg] [])); [|done].
  intros st. unfold warnings_push, extend. simpl. by rewrite !app_nil_r.
Qed.

Lemma logs_bind {A B : Type} (step : M A) (next : A → M B) :
  logs step → (∀ a, logs (next a)) → logs (step ≫= next).
Proof.
  intros [Hstep Hexit] Hnext. unfold logs, collected, mbind, M_bind in *.
  destruct (step fresh) as [[a|e|code] d] eqn:Hfresh; simpl in *.
  - destruct (Hnext a) as [Ha Hexit']. split.
    + intros st. rewrite (Hstep st), (Ha (extend st d)), (Ha d).
      simpl. by rewrite extend_assoc.
    + intros code. rewrite (Ha d). apply Hexit'.
  - split; [|done]. intros st. by rewrite (Hstep st).
  - by destruct (Hexit code).
Qed.

Lemma logs_for_of {A B : Type} (body : B → A → M B) (xs : list A) (acc : B) :
  (∀ b x, logs (body b x)) → logs (for_of body xs acc).
Proof.
  intros Hbody. revert acc. induction xs as [|x xs IH]; intros acc; simpl.
  - apply logs_ret.
  - apply logs_bind; [apply Hbody|apply IH].
Qed.

Ltac logs_step :=
  first
    [ apply logs_bind
    | apply logs_ret
    | apply logs_throw
    | apply logs_console_log
    | apply logs_errors_push
    | apply logs_warnings_push
    | apply logs_for_of
    | match goal with
      | |- logs (if ?b then _ else _) => destruct b
      | |- logs (match ?x with _ => _ end) => destruct x
      | |- logs (let _ := _ in _) => cbv zeta
      end
    | progress intros ].

Ltac logs := repeat logs_step.

Lemma logs_readFileSync (fs : gmap string node) (path : string) :
  logs (readFileSync fs path).
Proof. unfold readFileSync. logs. Qed.

Lemma logs_parse (text : string) : logs (parse text).
Proof. unfold parse. logs. Qed.

Lemma logs_template (v : value) : logs (template v).
Proof. unfold template. logs. Qed.

Lemma logs_Get (v : value) (key : string) : logs (Get v key).
Proof. unfold Get. logs. Qed.

Lemma logs_replace_range_operator (v : value) : logs (replace_range_operator v).
Proof. unfold replace_range_operator. logs. Qed.

Ltac logs_script :=
  repeat first
    [ apply logs_readFileSync
    | apply logs_parse
    | apply logs_template
    | apply logs_Get
    | apply logs_replace_range_operator
    | logs_step ].

Lemma logs_load_manifest (fs : gmap string node) : logs (load_manifest fs).
Proof. unfold load_manifest. logs_script. Qed.

Lemma logs_check_devDependency (name devDep : string) (packageVersion : value) :
  logs (check_devDependency name devDep packageVersion).
Proof. unfold check_devDependency. logs_script. Qed.

Lemma logs_check_installed (fs : gmap string node) (reactDevDep : string) :
  logs (check_installed fs reactDevDep).
Proof. unfold check_installed. logs_script. Qed.

Lemma logs_check_distFile (fs : gmap string node) (packageVersion : value)
    (distFilesChecked : nat) (distFile : string) :
  logs (check_distFile fs packageVersion distFilesChecked distFile).
Proof. unfold check_distFile. logs_script. Qed.

Lemma logs_dist_summary (distFilesChecked : nat) : logs (dist_summary distFilesChecked).
Proof. unfold dist_summary. logs_script. Qed.

Lemma logs_check_dist (fs : gmap string node) (packageVersion : value) :
  logs (check_dist fs packageVersion).
Proof.
  unfold check_dist. apply logs_bind; [apply logs_console_log|intros _].
  apply logs_bind; [|apply logs_dist_summary].
  apply logs_for_of. apply logs_check_distFile.
Qed.

End Steps.

(** ** The steps of a run, one by one *)

Section Run.
Context `{Host}.

#[local] Abbreviation value := (value number).

Lemma strict_neq_true (s : string) (v : value) :
  strict_neq s v = true ↔ v ≠ Str s.
Proof.
  destruct v as [| |b|n|t|l|m]; simpl; try (split; [discriminate|done]).
  destruct (String.eqb_spec s t) as [->|Hne]; simpl.
  - split; [discriminate|]. intros Hv. by destruct Hv.
  - split; [|done]. intros _ [= ->]. by destruct Hne.
Qed.

Lemma strict_neq_false (s : string) (v : value) :
  strict_neq s v = false ↔ v = Str s.
Proof.
  destruct (strict_neq s v) eqn:Hneq.
  - apply strict_neq_true in Hneq. split; [discriminate|done].
  - split; [intros _|done].
    destruct v as [| |b|n|t|l|m]; simpl in Hneq; try discriminate.
    destruct (String.eqb_spec s t) as [->|]; [done|discriminate].
Qed.

Lemma Get_own (v : value) (key : string) (st : state) :
  v ≠ Undefined → v ≠ Null → Get v key st = (Returned (own v key), st).
Proof. by destruct v. Qed.

Lemma Get_absent (v : value) (key : string) (st : state) :
  own v key = Undefined →
  (Get v key ≫= replace_range_operator) st = (Thrown TypeError, st).
Proof.
  unfold mbind, M_bind. destruct v; simpl; try done. by intros ->.
Qed.

Lemma load_manifest_declared (fs : gmap string node) (packageVersion : value)
    (react react_dom shown : string) (st : state) :
  manifest_declares fs packageVersion react react_dom →
  ToString packageVersion = Some shown →
  load_manifest fs st =
    (Returned (packageVersion, strip_range_operator react,
               strip_range_operator react_dom),
     extend st (State [] []
       [ "📦 package.json version: " +:+ shown;
         "📦 devDependencies.react: " +:+ strip_range_operator react;
         "📦 devDependencies.react-dom: " +:+ strip_range_operator react_dom +:+ LF ])).
Proof.
  intros (text & pkg & Hfs & Hparse & Hu & Hn & Hv & Hr & Hd) Hshown.
  assert (own pkg "devDependencies" ≠ Undefined ∧
          own pkg "devDependencies" ≠ Null) as [Hdu Hdn].
  { split; intros Heq; by rewrite Heq in Hr. }
  unfold load_manifest, readFileSync, parse, template, mbind, M_bind.
  rewrite Hfs. simpl. rewrite Hparse. simpl.
  rewrite !(Get_own pkg) by done. rewrite Hv.
  rewrite (Get_own (own pkg "devDependencies")) by done.
  rewrite Hr. cbn [replace_range_operator mret M_ret].
  rewrite (Get_own pkg), (Get_own (own pkg "devDependencies")) by done.
  rewrite Hd. cbn [replace_range_operator mret M_ret]. rewrite Hshown.
  unfold console_log, extend, mret, M_ret. simpl.
  by rewrite !app_nil_r, <- !app_assoc.
Qed.

Lemma load_manifest_fault (fs : gmap string node) (e : exn) (st : state) :
  manifest_fault fs e → load_manifest fs st = (Thrown e, st).
Proof.
  intros Hfault.
  destruct Hfault as [Hfs|Hfs|text Hfs Hparse|text pkg Hfs Hparse Hr|text pkg Hfs Hparse Hd];
    unfold load_manifest, readFileSync, parse, mbind, M_bind;
    rewrite Hfs; simpl; try done; rewrite Hparse; simpl; try done.
  - destruct pkg as [| |b|n|s|l|m]; simpl in *; try done.
    destruct (default Undefined (m !! "devDependencies")); simpl in *; try done.
    by rewrite Hr.
  - destruct pkg as [| |b|n|s|l|m]; simpl in *; try done.
    destruct (default Undefined (m !! "devDependencies")) as [| |b|n|s|l|deps];
      simpl in *; try done.
    rewrite Hd. simpl.
    by destruct (default Undefined (deps !! "react")).
Qed.

Lemma check_devDependency_mismatch (name devDep shown : string)
    (packageVersion : value) (st : state) :
  ToString packageVersion = Some shown →
  packageVersion ≠ Str devDep →
  check_devDependency name devDep packageVersion st =
    (Returned (),
     extend st (State [devDependency_mismatch name devDep shown] [] [])).
Proof.
  intros Hshown Hneq%strict_neq_true.
  unfold check_devDependency, template, mbind, M_bind.
  rewrite Hneq, Hshown. simpl. unfold errors_push, extend. simpl.
  by rewrite !app_nil_r.
Qed.

Lemma check_devDependency_match (name devDep : string) (st : state) :
  check_devDependency name devDep (Str devDep) st =
    (Returned (),
     extend st (State [] []
       ["✅ devDependencies." +:+ name +:+ " matches package version"])).
Proof.
  unfold check_devDependency.
  assert (strict_neq devDep (Str devDep : value) = false) as ->
    by by apply strict_neq_false.
  unfold console_log, extend. simpl. by rewrite !app_nil_r.
Qed.

Lemma forEach_console_log (lines : list string) (st : state) :
  forEach console_log lines st =
    (Returned (), State (errors st) (warnings st) (stdout st ++ lines)).
Proof.
  revert st. induction lines as [|l lines IH]; intros st; simpl.
  - destruct st. unfold mret, M_ret. simpl. by rewrite app_nil_r.
  - unfold mbind, M_bind, console_log. rewrite IH. simpl.
    by rewrite <- app_assoc.
Qed.

(** What the report prints after the separator, and the exit code. *)
Lemma report_failed (st : state) :
  errors st ≠ [] →
  report st =
    (Exited 1,
     State (errors st) (warnings st)
       (stdout st ++ separator :: failed_header :: errors st)).
Proof.
  intros Hne. unfold report, mbind, M_bind, console_log, errors_get.
  cbn -[forEach]. destruct (errors st) as [|e es] eqn:He; [done|].
  cbn -[forEach]. rewrite forEach_console_log. cbn. unfold process_exit.
  by rewrite <- !app_assoc.
Qed.

Lemma report_passed (st : state) :
  errors st = [] →
  report st =
    (Exited 0,
     State [] (warnings st)
       (stdout st ++ separator ::
          match warnings st with
          | [] => []
          | _ :: _ => warnings_header :: warnings st
          end ++ [passed_line])).
Proof.
  intros He.
  unfold report, mbind, M_bind, console_log, errors_get, warnings_get.
  cbn -[forEach]. rewrite He. cbn -[forEach].
  destruct (warnings st) as [|w ws] eqn:Hw; cbn -[forEach].
  - unfold process_exit. by rewrite <- !app_assoc.
  - rewrite forEach_console_log. cbn. unfold process_exit.
    by rewrite <- !app_assoc.
Qed.

(** A step that only appends, followed by the rest of the script. *)
Lemma logs_then {A B : Type} (step : M A) (next : A → M B) (st : state) :
  logs step →
  (step ≫= next) st =
    match (step fresh).1 with
    | Returned a => next a (extend st (collected step))
    | Thrown e => (Thrown e, extend st (collected step))
    | Exited code => (Exited code, extend st (collected step))
    end.
Proof.
  intros [Hstep _]. unfold mbind, M_bind. rewrite (Hstep st).
  by destruct (step fresh).1.
Qed.

Lemma collected_bind {A B : Type} (step : M A) (next : A → M B) :
  logs step → (∀ a, logs (next a)) →
  collected (step ≫= next) =
    match (step fresh).1 with
    | Returned a => extend (collected step) (collected (next a))
    | _ => collected step
    end.
Proof.
  intros Hstep Hnext. unfold collected at 1. rewrite logs_then by done.
  destruct (step fresh).1 as [a| |] eqn:Ho; simpl; try by rewrite fresh_extend.
  destruct (Hnext a) as [Ha _]. rewrite Ha. simpl. by rewrite fresh_extend.
Qed.

End Run.

(** ** The run as a scan followed by the report *)

Section Scan.
Context `{Host}.

#[local] Abbreviation value := (value number).

Lemma bind_assoc {A B C : Type} (m : M A) (f : A → M B) (g : B → M C) (st : state) :
  ((m ≫= f) ≫= g) st = (m ≫= (λ a, f a ≫= g)) st.
Proof. unfold mbind, M_bind. by destruct (m st) as [[a|e|code] st']. Qed.

Lemma bind_ext {A B : Type} (m : M A) (f g : A → M B) (st : state) :
  (∀ a st', f a st' = g a st') → (m ≫= f) st = (m ≫= g) st.
Proof.
  intros Hfg. unfold mbind, M_bind. destruct (m st) as [[a|e|code] st']; auto.
Qed.

Lemma logs_scan (fs : gmap string node) : logs (scan fs).
Proof.
  unfold scan. apply logs_bind; [apply logs_load_manifest|].
  intros [[pv r] d].
  apply logs_bind; [apply logs_check_devDependency|intros _].
  apply logs_bind; [apply logs_check_devDependency|intros _].
  apply logs_bind; [apply logs_check_installed|intros _].
  apply logs_bind; [apply logs_check_dist|intros _].
  apply logs_ret.
Qed.

Lemma run_scan_report (fs : gmap string node) :
  run fs = (scan fs ≫= λ _, report) (State [] [] [banner]).
Proof.
  unfold run, validateVersions, scan.
  unfold mbind at 1 2 3, M_bind at 1 2 3. simpl.
  rewrite bind_assoc. apply bind_ext. intros [[pv r] d] st.
  rewrite !bind_assoc. repeat (apply bind_ext; intros [] ?).
  rewrite !bind_assoc. apply bind_ext; intros [] ?.
  rewrite !bind_assoc. apply bind_ext; intros [] ?.
  rewrite !bind_assoc. apply bind_ext; intros [] ?.
  reflexivity.
Qed.

Lemma run_cases (fs : gmap string node) :
  (∃ e, (scan fs fresh).1 = Thrown e ∧
        run fs = (Thrown e, extend (State [] [] [banner]) (collected (scan fs)))) ∨
  (∃ pv, (scan fs fresh).1 = Returned pv ∧
         run fs = report (extend (State [] [] [banner]) (collected (scan fs)))).
Proof.
  rewrite run_scan_report, (logs_then _ _ _ (logs_scan fs)).
  destruct (logs_scan fs) as [_ Hexit].
  destruct (scan fs fresh).1 as [pv|e|code] eqn:Ho.
  - right. by exists pv.
  - left. by exists e.
  - by destruct (Hexit code).
Qed.

(** *** Kinds of lines *)

Section Emits.
Variables Pe Pw Po : string → Prop.

Lemma emits_ret {A : Type} (a : A) : emits Pe Pw Po (mret a : M A).
Proof. split; [apply logs_ret|]. by repeat split. Qed.

Lemma emits_throw {A : Type} (e : exn) : emits Pe Pw Po (mthrow e : M A).
Proof. split; [apply logs_throw|]. by repeat split. Qed.

Lemma emits_console_log (line : string) :
  Po line → emits Pe Pw Po (console_log line).
Proof.
  intros Hline. split; [apply logs_console_log|].
  repeat split; try done. by apply Forall_singleton.
Qed.

Lemma emits_errors_push (msg : string) :
  Pe msg → emits Pe Pw Po (errors_push msg).
Proof.
  intros Hmsg. split; [apply logs_errors_push|].
  repeat split; try done. by apply Forall_singleton.
Qed.

Lemma emits_warnings_push (msg : string) :
  Pw msg → emits Pe Pw Po (warnings_push msg).
Proof.
  intros Hmsg. split; [apply logs_warnings_push|].
  repeat split; try done. by apply Forall_singleton.
Qed.

Lemma emits_bind {A B : Type} (step : M A) (next : A → M B) :
  emits Pe Pw Po step → (∀ a, emits Pe Pw Po (next a)) →
  emits Pe Pw Po (step ≫= next).
Proof.
  intros (Hlogs & He & Hw & Ho) Hnext.
  assert (∀ a, logs (next a)) as Hlogs' by (intros a; apply Hnext).
  split; [by apply logs_bind|]. rewrite collected_bind by done.
  destruct (step fresh).1 as [a| |]; try done.
  destruct (Hnext a) as (_ & He' & Hw' & Ho'). unfold extend. simpl.
  by rewrite !Forall_app.
Qed.

Lemma emits_for_of {A B : Type} (body : B → A → M B) (xs : list A) (acc : B) :
  (∀ b x, x ∈ xs → emits Pe Pw Po (body b x)) →
  emits Pe Pw Po (for_of body xs acc).
Proof.
  revert acc. induction xs as [|x xs IH]; intros acc Hbody; simpl.
  - apply emits_ret.
  - apply emits_bind; [apply Hbody; by left|].
    intros b. apply IH. intros b' x' Hx'. apply Hbody. by right.
Qed.

End Emits.

End Scan.

Ltac emits_step :=
  first
    [ apply emits_bind
    | apply emits_ret
    | apply emits_throw
    | apply emits_console_log
    | apply emits_errors_push
    | apply emits_warnings_push
    | match goal with
      | |- emits _ _ _ (if ?b then _ else _) => destruct b
      | |- emits _ _ _ (match ?x with _ => _ end) => destruct x
      | |- emits _ _ _ (let _ := _ in _) => cbv zeta
      end
    | progress intros ].

Ltac emits_script :=
  unfold readFileSync, parse, template, Get, replace_range_operator;
  repeat emits_step.

(** ** What a run collects, and how it ends *)

Section Verdict.
Context `{Host}.

#[local] Abbreviation value := (value number).

Lemma report_keeps (st : state) :
  errors (report st).2 = errors st ∧ warnings (report st).2 = warnings st.
Proof.
  destruct (errors st) as [|e es] eqn:He.
  - by rewrite (report_passed st He).
  - rewrite (report_failed st); [by rewrite He|]. by rewrite He.
Qed.

Lemma run_errors (fs : gmap string node) :
  errors (run fs).2 = errors (collected (scan fs)).
Proof.
  destruct (run_cases fs) as [(e & _ & ->)|(pv & _ & ->)]; [done|].
  by rewrite (proj1 (report_keeps _)).
Qed.

Lemma run_warnings (fs : gmap string node) :
  warnings (run fs).2 = warnings (collected (scan fs)).
Proof.
  destruct (run_cases fs) as [(e & _ & ->)|(pv & _ & ->)]; [done|].
  by rewrite (proj2 (report_keeps _)).
Qed.

Lemma run_exit_status (fs : gmap string node) :
  exit_status (run fs).1 =
    match (scan fs fresh).1, errors (run fs).2 with
    | Returned _, [] => 0
    | _, _ => 1
    end.
Proof.
  rewrite run_errors.
  destruct (run_cases fs) as [(e & -> & ->)|(pv & -> & ->)]; [done|].
  destruct (errors (collected (scan fs))) as [|m ms] eqn:He.
  - rewrite report_passed; [done|]. exact He.
  - rewrite report_failed; [done|]. simpl. by rewrite He.
Qed.

Lemma run_failure (fs : gmap string node) :
  errors (run fs).2 ≠ [] → exit_status (run fs).1 = 1.
Proof.
  intros Hne. rewrite run_exit_status.
  destruct (scan fs fresh).1; try done. by destruct (errors (run fs).2).
Qed.

Lemma collected_check_devDependency (name devDep shown : string) (pv : value) :
  ToString pv = Some shown →
  (check_devDependency name devDep pv fresh).1 = Returned () ∧
  warnings (collected (check_devDependency name devDep pv)) = [] ∧
  (pv ≠ Str devDep →
   collected (check_devDependency name devDep pv) =
     State [devDependency_mismatch name devDep shown] [] []) ∧
  (pv = Str devDep →
   collected (check_devDependency name devDep pv) =
     State [] [] ["✅ devDependencies." +:+ name +:+ " matches package version"]).
Proof.
  intros Hshown. unfold collected.
  destruct (strict_neq devDep pv) eqn:Hneq.
  - apply strict_neq_true in Hneq.
    rewrite (check_devDependency_mismatch _ _ _ _ _ Hshown Hneq).
    by repeat split.
  - apply strict_neq_false in Hneq as ->.
    rewrite check_devDependency_match. by repeat split.
Qed.

(** The rest of the scan once the manifest is loaded and the two
    constraints are compared. *)
Lemma scan_declared (fs : gmap string node) (pv : value)
    (react react_dom shown : string) :
  manifest_declares fs pv react react_dom →
  ToString pv = Some shown →
  let r := strip_range_operator react in
  let d := strip_range_operator react_dom in
  let rest := check_installed fs r;; check_dist fs pv;; mret pv in
  logs rest ∧
  (scan fs fresh).1 = (rest fresh).1 ∧
  errors (collected (scan fs)) =
    errors (collected (check_devDependency "react" r pv)) ++
    errors (collected (check_devDependency "react-dom" d pv)) ++
    errors (collected rest) ∧
  warnings (collected (scan fs)) = warnings (collected rest).
Proof.
  intros Hdecl Hshown r d rest.
  assert (logs rest) as Hrest.
  { apply logs_bind; [apply logs_check_installed|intros _].
    apply logs_bind; [apply logs_check_dist|intros _]. apply logs_ret. }
  split; [done|].
  destruct (collected_check_devDependency "react" r shown pv Hshown)
    as (Ho1 & Hw1 & _).
  destruct (collected_check_devDependency "react-dom" d shown pv Hshown)
    as (Ho2 & Hw2 & _).
  assert (∀ st, scan fs st =
    (check_devDependency "react" r pv ≫= λ _,
     check_devDependency "react-dom" d pv ≫= λ _, rest)
      (extend st (State [] []
         [ "📦 package.json version: " +:+ shown;
           "📦 devDependencies.react: " +:+ r;
           "📦 devDependencies.react-dom: " +:+ d +:+ LF ]))) as Hscan.
  { intros st. unfold scan. unfold mbind at 1, M_bind at 1.
    by rewrite (load_manifest_declared fs pv react react_dom shown st). }
  assert (∃ loaded, errors loaded = [] ∧ warnings loaded = [] ∧
    scan fs fresh =
      ((rest fresh).1,
       extend loaded
         (extend (collected (check_devDependency "react" r pv))
            (extend (collected (check_devDependency "react-dom" d pv))
               (collected rest))))) as (loaded & He & Hw & Hfresh).
  { eexists (State [] [] _). split; [done|]. split; [done|]. rewrite Hscan.
    rewrite (logs_then _ _ _ (logs_check_devDependency "react" r pv)), Ho1.
    rewrite (logs_then _ _ _ (logs_check_devDependency "react-dom" d pv)), Ho2.
    destruct Hrest as [Hr _]. etrans; [apply Hr|]. f_equal.
    by rewrite !extend_assoc, !fresh_extend. }
  assert (collected (scan fs) = (scan fs fresh).2) as Hcol by done.
  rewrite Hcol, Hfresh. simpl. by rewrite He, Hw, Hw1, Hw2.
Qed.

End Verdict.

(** ** Constraints against the declared version *)

Lemma String_neq_tail (c : ascii) (s : string) : String c s ≠ s.
Proof.
  revert c. induction s as [|a s IH]; intros c; [done|].
  intros [= _ Heq]. by apply (IH a).
Qed.

Section Constraints.
Context `{Host}.

#[local] Abbreviation value := (value number).

Lemma run_devDependency_errors (fs : gmap string node) (pv : value)
    (react react_dom shown : string) :
  manifest_declares fs pv react react_dom →
  ToString pv = Some shown →
  let r := strip_range_operator react in
  let d := strip_range_operator react_dom in
  (pv ≠ Str r →
   devDependency_mismatch "react" r shown ∈ errors (run fs).2 ∧
   exit_status (run fs).1 = 1) ∧
  (pv ≠ Str d →
   devDependency_mismatch "react-dom" d shown ∈ errors (run fs).2 ∧
   exit_status (run fs).1 = 1).
Proof.
  intros Hdecl Hshown r d.
  destruct (scan_declared fs pv react react_dom shown Hdecl Hshown)
    as (_ & _ & He & _). fold r d in He.
  destruct (collected_check_devDependency "react" r shown pv Hshown)
    as (_ & _ & Hr & _).
  destruct (collected_check_devDependency "react-dom" d shown pv Hshown)
    as (_ & _ & Hd & _).
  assert (∀ m, m ∈ errors (run fs).2 →
    m ∈ errors (run fs).2 ∧ exit_status (run fs).1 = 1) as Hfail.
  { intros m Hm. split; [done|]. apply run_failure.
    intros Hnil. rewrite Hnil in Hm. by apply elem_of_nil in Hm. }
  split; intros Hneq; apply Hfail; rewrite run_errors, He.
  - rewrite (Hr Hneq). simpl. by left.
  - rewrite (Hd Hneq). apply elem_of_app. right. apply elem_of_app. left.
    simpl. by left.
Qed.

End Constraints.

(** C8. Normalising a constraint strips a leading range operator: a first
    character that is one of [^], [~], [>], [=], [<] is removed, whatever
    follows it, and a constraint that starts with any other character, or
    is empty, is left as it is.  So ["^19.2.0"], ["~19.2.0"] and
    ["19.2.0"] all become ["19.2.0"]. *)
Theorem strip_range_operator_leading :
  (∀ c rest, c ∈ range_operators → strip_range_operator (String c rest) = rest) ∧
  (∀ c rest,
     c ∉ range_operators → strip_range_operator (String c rest) = String c rest) ∧
  strip_range_operator "" = "" ∧
  strip_range_operator "^19.2.0" = "19.2.0" ∧
  strip_range_operator "~19.2.0" = "19.2.0" ∧
  strip_range_operator "19.2.0" = "19.2.0".
Proof.
  split; [|split; [|by repeat split]].
  - intros c rest Hc. unfold range_operators in Hc.
    repeat (apply elem_of_cons in Hc as [->|Hc]; [done|]).
    by apply elem_of_nil in Hc.
  - intros c rest Hc.
    assert (is_range_operator c = false) as Hno.
    { destruct c as [[] [] [] [] [] [] [] []]; try reflexivity;
        destruct Hc; unfold range_operators;
        repeat first [apply list_elem_of_here | apply list_elem_of_further]. }
    cbn [strip_range_operator]. by rewrite Hno.
Qed.

(** C10. Normalisation removes at most one leading character. [">=19.2.0"]
    becomes ["=19.2.0"], and more generally a constraint that starts with
    two operator characters keeps the second one; it then differs from any
    declared version that has no operator in front, and the run collects
    the mismatch Error of that dependency. *)
Theorem strip_range_operator_once :
  (∀ s, strip_range_operator s = s ∨ ∃ c, s = String c (strip_range_operator s)) ∧
  strip_range_operator ">=19.2.0" = "=19.2.0" ∧
  (∀ (host : Host) (fs : gmap string node) (c1 c2 : ascii)
     (tail other version : string),
     is_range_operator c1 = true →
     is_range_operator c2 = true →
     strip_range_operator version = version →
     let constraint := String c1 (String c2 tail) in
     strip_range_operator constraint = String c2 tail ∧
     strip_range_operator constraint ≠ version ∧
     (manifest_declares fs (Str version) constraint other →
      devDependency_mismatch "react" (String c2 tail) version
        ∈ errors (run fs).2) ∧
     (manifest_declares fs (Str version) other constraint →
      devDependency_mismatch "react-dom" (String c2 tail) version
        ∈ errors (run fs).2)).
Proof.
  split; [|split; [done|]].
  { intros s. destruct (strip_range_operator_cases s) as [?|(c & _ & ?)]; eauto. }
  intros host fs c1 c2 tail other version Hc1 Hc2 Hbare constraint.
  assert (strip_range_operator constraint = String c2 tail) as Hstrip.
  { unfold constraint. simpl. by rewrite Hc1. }
  assert (String c2 tail ≠ version) as Hneq.
  { intros <-. simpl in Hbare. rewrite Hc2 in Hbare.
    by apply (String_neq_tail c2 tail). }
  assert (Str version ≠ (Str (String c2 tail) : value number)) as Hneq'.
  { intros [= ->]. by apply Hneq. }
  split; [done|]. split; [by rewrite Hstrip|].
  split; intros Hdecl;
    destruct (run_devDependency_errors fs (Str version) _ _ version Hdecl eq_refl)
      as [Hr Hd]; rewrite Hstrip in *.
  - by apply Hr.
  - by apply Hd.
Qed.

(** ** The lines each part of the scan can add *)

Section Lines.
Context `{Host}.
Variables Pe Pw Po : string → Prop.

#[local] Abbreviation value := (value number).

Lemma emits_check_devDependency (name devDep : string) (pv : value) :
  (∀ shown, Pe (devDependency_mismatch name devDep shown)) →
  Po ("✅ devDependencies." +:+ name +:+ " matches package version") →
  emits Pe Pw Po (check_devDependency name devDep pv).
Proof. intros He Ho. unfold check_devDependency. emits_script; auto. Qed.

Lemma emits_check_installed (fs : gmap string node) (reactDevDep : string) :
  (∀ shown, Pe (installed_mismatch shown reactDevDep)) →
  Pe npm_install_hint →
  (∀ shown, Po (LF +:+ "📦 node_modules/react version: " +:+ shown)) →
  Po "✅ Installed React matches devDependencies" →
  emits Pe Pw Po (check_installed fs reactDevDep).
Proof. intros He Hh Ho Hc. unfold check_installed. emits_script; auto. Qed.

Lemma emits_check_distFile (fs : gmap string node) (pv : value)
    (distFilesChecked : nat) (distFile : string) :
  (∀ ev shown, Pe (dist_mismatch distFile ev shown)) →
  Pe npm_build_hint →
  Pw (no_version_warning distFile) →
  (∀ ev, Po ("   " +:+ distFile +:+ ": v" +:+ ev)) →
  emits Pe Pw Po (check_distFile fs pv distFilesChecked distFile).
Proof. intros He Hh Hw Ho. unfold check_distFile. emits_script; auto. Qed.

Lemma emits_check_dist (fs : gmap string node) (pv : value) :
  (∀ distFile ev shown, distFile ∈ distFiles → Pe (dist_mismatch distFile ev shown)) →
  Pe npm_build_hint →
  (∀ distFile, distFile ∈ distFiles → Pw (no_version_warning distFile)) →
  Pw no_dist_warning →
  Po (LF +:+ "📦 Checking built dist files...") →
  (∀ distFile ev, distFile ∈ distFiles → Po ("   " +:+ distFile +:+ ": v" +:+ ev)) →
  Po "✅ All dist files have correct versions" →
  emits Pe Pw Po (check_dist fs pv).
Proof.
  intros He Hh Hw Hn Hc Ho Ha. unfold check_dist.
  apply emits_bind; [by apply emits_console_log|intros _].
  apply emits_bind.
  - apply emits_for_of. intros n distFile Hin.
    apply emits_check_distFile; auto.
  - intros n. unfold dist_summary. emits_script; auto.
Qed.

End Lines.

Section Dependencies.
Context `{Host}.

#[local] Abbreviation value := (value number).

Lemma elem_of_distFiles (P : string → Prop) :
  P "dist/react.production.min.js" →
  P "dist/react.development.js" →
  P "dist/react-dom.production.min.js" →
  P "dist/react-dom.development.js" →
  ∀ distFile, distFile ∈ distFiles → P distFile.
Proof.
  intros H1 H2 H3 H4 distFile Hin. unfold distFiles in Hin.
  repeat (apply elem_of_cons in Hin as [->|Hin]; [done|]).
  by apply elem_of_nil in Hin.
Qed.

(** After the two dependency checks, no Error is about a dependency. *)
Lemma rest_errors_anonymous (fs : gmap string node) (r : string) (pv : value) :
  Forall (λ m, names_devDependency "react" m = false ∧
               names_devDependency "react-dom" m = false)
    (errors (collected (check_installed fs r;; check_dist fs pv;; mret pv))).
Proof.
  set (Pe := λ m, names_devDependency "react" m = false ∧
                  names_devDependency "react-dom" m = false).
  assert (emits Pe (λ _, True) (λ _, True)
            (check_installed fs r;; check_dist fs pv;; mret pv)) as (_ & He & _).
  { apply emits_bind; [by apply emits_check_installed|intros _].
    apply emits_bind; [|intros _; apply emits_ret].
    apply emits_check_dist; try done.
    intros distFile ev shown Hin. revert ev shown. revert distFile Hin.
    by apply (elem_of_distFiles
      (λ f, ∀ ev shown, Pe (dist_mismatch f ev shown))). }
  done.
Qed.

Lemma run_errors_kinds (fs : gmap string node) (pv : value)
    (react react_dom shown : string) :
  manifest_declares fs pv react react_dom →
  ToString pv = Some shown →
  let r := strip_range_operator react in
  let d := strip_range_operator react_dom in
  ∀ m, m ∈ errors (run fs).2 →
    (pv ≠ Str r ∧ m = devDependency_mismatch "react" r shown) ∨
    (pv ≠ Str d ∧ m = devDependency_mismatch "react-dom" d shown) ∨
    (names_devDependency "react" m = false ∧
     names_devDependency "react-dom" m = false).
Proof.
  intros Hdecl Hshown r d m.
  destruct (scan_declared fs pv react react_dom shown Hdecl Hshown)
    as (_ & _ & He & _). fold r d in He.
  rewrite run_errors, He, !elem_of_app.
  destruct (collected_check_devDependency "react" r shown pv Hshown)
    as (_ & _ & Hr & Hr').
  destruct (collected_check_devDependency "react-dom" d shown pv Hshown)
    as (_ & _ & Hd & Hd').
  intros [Hm|[Hm|Hm]].
  - left. destruct (strict_neq r pv) eqn:Hneq.
    + apply strict_neq_true in Hneq. rewrite (Hr Hneq) in Hm.
      apply list_elem_of_singleton in Hm. done.
    + apply strict_neq_false in Hneq. rewrite (Hr' Hneq) in Hm.
      by apply elem_of_nil in Hm.
  - right; left. destruct (strict_neq d pv) eqn:Hneq.
    + apply strict_neq_true in Hneq. rewrite (Hd Hneq) in Hm.
      apply list_elem_of_singleton in Hm. done.
    + apply strict_neq_false in Hneq. rewrite (Hd' Hneq) in Hm.
      by apply elem_of_nil in Hm.
  - right; right. revert m Hm. apply Forall_forall, rest_errors_anonymous.
Qed.

End Dependencies.

Lemma devDependency_mismatch_shows (name devDep shown : string) :
  names_devDependency name (devDependency_mismatch name devDep shown) = true ∧
  shows_both devDep shown (devDependency_mismatch name devDep shown).
Proof.
  unfold names_devDependency, devDependency_mismatch. split.
  - replace ("❌ devDependencies." +:+ name +:+ " (" +:+ devDep
               +:+ ") doesn't match package version (" +:+ shown +:+ ")")
      with (("❌ devDependencies." +:+ name +:+ " (") +:+ devDep
               +:+ ") doesn't match package version (" +:+ shown +:+ ")")
      by (by rewrite !append_assoc).
    apply has_prefix_append.
  - exists ("❌ devDependencies." +:+ name +:+ " ("),
      ") doesn't match package version (", ")".
    by rewrite !append_assoc.
Qed.

(** C3. When the bare version of one of the two constraints differs from
    the declared version, the run is a Failure and its Errors contain the
    line that starts by naming this dependency and then shows the bare
    constraint and, after it, the declared version; when they are equal,
    the check adds no Warning and no Error of the run names that
    dependency. *)
Theorem devDependency_compared `{Host} (fs : gmap string node)
    (packageVersion : value number) (react react_dom shown : string) :
  manifest_declares fs packageVersion react react_dom →
  ToString packageVersion = Some shown →
  let reactDevDep := strip_range_operator react in
  let reactDomDevDep := strip_range_operator react_dom in
  (packageVersion ≠ Str reactDevDep →
   exit_status (run fs).1 = 1 ∧
   ∃ msg,
     msg ∈ errors (run fs).2 ∧
     msg = "❌ devDependencies.react (" +:+ reactDevDep
             +:+ ") doesn't match package version (" +:+ shown +:+ ")" ∧
     names_devDependency "react" msg = true ∧
     shows_both reactDevDep shown msg) ∧
  (packageVersion ≠ Str reactDomDevDep →
   exit_status (run fs).1 = 1 ∧
   ∃ msg,
     msg ∈ errors (run fs).2 ∧
     msg = "❌ devDependencies.react-dom (" +:+ reactDomDevDep
             +:+ ") doesn't match package version (" +:+ shown +:+ ")" ∧
     names_devDependency "react-dom" msg = true ∧
     shows_both reactDomDevDep shown msg) ∧
  (packageVersion = Str reactDevDep →
   warnings (collected (check_devDependency "react" reactDevDep packageVersion)) = [] ∧
   (∀ devDep declared,
      devDependency_mismatch "react" devDep declared ∉ errors (run fs).2) ∧
   (∀ msg, msg ∈ errors (run fs).2 → names_devDependency "react" msg = false)) ∧
  (packageVersion = Str reactDomDevDep →
   warnings (collected (check_devDependency "react-dom" reactDomDevDep packageVersion)) = [] ∧
   (∀ devDep declared,
      devDependency_mismatch "react-dom" devDep declared ∉ errors (run fs).2) ∧
   (∀ msg, msg ∈ errors (run fs).2 → names_devDependency "react-dom" msg = false)).
Proof.
  intros Hdecl Hshown r d.
  destruct (run_devDependency_errors fs packageVersion react react_dom shown
              Hdecl Hshown) as [Hr Hd].
  pose proof (run_errors_kinds fs packageVersion react react_dom shown
                Hdecl Hshown) as Hkinds.
  cbv zeta in Hkinds, Hr, Hd. fold r d in Hkinds, Hr, Hd.
  assert (∀ name devDep,
    warnings (collected (check_devDependency name devDep packageVersion)) = [])
    as Hquiet.
  { intros name devDep.
    by destruct (collected_check_devDependency name devDep shown
                   packageVersion Hshown) as (_ & ? & _). }
  split; [|split].
  - intros Hneq. destruct (Hr Hneq) as [Hin Hexit]. split; [done|].
    exists (devDependency_mismatch "react" r shown).
    split; [done|]. split; [done|]. apply devDependency_mismatch_shows.
  - intros Hneq. destruct (Hd Hneq) as [Hin Hexit]. split; [done|].
    exists (devDependency_mismatch "react-dom" d shown).
    split; [done|]. split; [done|]. apply devDependency_mismatch_shows.
  - split; intros Heq; (split; [apply Hquiet|]).
    + assert (∀ msg, msg ∈ errors (run fs).2 →
                names_devDependency "react" msg = false) as Hnone.
      { intros msg Hin.
        destruct (Hkinds _ Hin) as [[Hneq _]|[[_ ->]|[Hm _]]];
          [by destruct Hneq|reflexivity|exact Hm]. }
      split; [|exact Hnone]. intros devDep declared Hin.
      pose proof (Hnone _ Hin) as Hno.
      by rewrite (proj1 (devDependency_mismatch_shows _ _ _)) in Hno.
    + assert (∀ msg, msg ∈ errors (run fs).2 →
                names_devDependency "react-dom" msg = false) as Hnone.
      { intros msg Hin.
        destruct (Hkinds _ Hin) as [[_ ->]|[[Hneq _]|[_ Hm]]];
          [reflexivity|by destruct Hneq|exact Hm]. }
      split; [|exact Hnone]. intros devDep declared Hin.
      pose proof (Hnone _ Hin) as Hno.
      by rewrite (proj1 (devDependency_mismatch_shows _ _ _)) in Hno.
Qed.

(** ** The installed package *)

Section Installed.
Context `{Host}.

#[local] Abbreviation value := (value number).

Lemma check_installed_absent (fs : gmap string node) (reactDevDep : string)
    (st : state) :
  fs !! "node_modules/react/package.json" = None →
  check_installed fs reactDevDep st = (Returned (), st).
Proof.
  intros Hfs. unfold check_installed, existsSync. rewrite Hfs.
  rewrite bool_decide_eq_false_2; [done|]. by intros [? ?].
Qed.

Lemma check_installed_present (fs : gmap string node) (reactDevDep : string)
    (text shown : string) (installedReact : value) (st : state) :
  fs !! "node_modules/react/package.json" = Some (File text) →
  JSON_parse text = Some installedReact →
  installedReact ≠ Undefined → installedReact ≠ Null →
  ToString (own installedReact "version") = Some shown →
  check_installed fs reactDevDep st =
    (Returned (),
     extend st
       (if strict_neq reactDevDep (own installedReact "version")
        then State [installed_mismatch shown reactDevDep; npm_install_hint] []
               [LF +:+ "📦 node_modules/react version: " +:+ shown]
        else State [] []
               [LF +:+ "📦 node_modules/react version: " +:+ shown;
                "✅ Installed React matches devDependencies"])).
Proof.
  intros Hfs Hparse Hu Hn Hshown.
  unfold check_installed, existsSync, readFileSync, parse, template.
  rewrite Hfs. rewrite bool_decide_eq_true_2 by eauto.
  unfold mbind, M_bind. cbn [mret M_ret]. rewrite Hparse. cbn [mret M_ret].
  rewrite (Get_own installedReact) by done. rewrite Hshown.
  cbn [mret M_ret console_log].
  destruct (strict_neq reactDevDep (own installedReact "version"));
    unfold errors_push, console_log, extend; simpl;
    by rewrite ?app_nil_r, <- ?app_assoc.
Qed.

End Installed.


(** ** The built files *)

Section Dist.
Context `{Host}.

#[local] Abbreviation value := (value number).

Lemma check_distFile_absent (fs : gmap string node) (pv : value) (n : nat)
    (distFile : string) (st : state) :
  fs !! distFile = None →
  check_distFile fs pv n distFile st = (Returned n, st).
Proof.
  intros Hfs. unfold check_distFile, existsSync. rewrite Hfs.
  rewrite bool_decide_eq_false_2; [done|]. by intros [? ?].
Qed.

Lemma check_distFile_present (fs : gmap string node) (pv : value) (n : nat)
    (distFile content shown : string) (st : state) :
  fs !! distFile = Some (File content) →
  ToString pv = Some shown →
  check_distFile fs pv n distFile st =
    match match_version (first_line content) with
    | Some embeddedVersion =>
        (Returned (S n),
         extend st
           (State
              (if strict_neq embeddedVersion pv
               then [dist_mismatch distFile embeddedVersion shown; npm_build_hint]
               else [])
              []
              ["   " +:+ distFile +:+ ": v" +:+ embeddedVersion]))
    | None =>
        (Returned n, extend st (State [] [no_version_warning distFile] []))
    end.
Proof.
  intros Hfs Hshown.
  unfold check_distFile, existsSync, readFileSync, template.
  rewrite Hfs. rewrite bool_decide_eq_true_2 by eauto.
  unfold mbind, M_bind. cbn [mret M_ret]. cbv zeta.
  destruct (match_version (first_line content)) as [ev|].
  - cbn [console_log]. destruct (strict_neq ev pv).
    + rewrite Hshown. unfold errors_push, extend, mret, M_ret. simpl.
      by rewrite ?app_nil_r, <- ?app_assoc.
    + unfold extend, mret, M_ret. simpl. by rewrite ?app_nil_r.
  - unfold warnings_push, extend, mret, M_ret. simpl. by rewrite ?app_nil_r.
Qed.

End Dist.



(** ** The files a run depends on *)

Section Inputs.
Context `{Host}.

#[local] Abbreviation value := (value number).

Variables fs1 fs2 : gmap string node.
Hypothesis same_inputs : ∀ path, path ∈ input_paths → fs1 !! path = fs2 !! path.

Lemma load_manifest_inputs : load_manifest fs1 = load_manifest fs2.
Proof.
  unfold load_manifest, readFileSync.
  rewrite (same_inputs "package.json"); [done|]. by left.
Qed.

Lemma check_installed_inputs (reactDevDep : string) :
  check_installed fs1 reactDevDep = check_installed fs2 reactDevDep.
Proof.
  unfold check_installed, existsSync, readFileSync.
  rewrite (same_inputs "node_modules/react/package.json"); [done|].
  right. by left.
Qed.

Lemma check_distFile_inputs (pv : value) (n : nat) (distFile : string) :
  distFile ∈ distFiles →
  check_distFile fs1 pv n distFile = check_distFile fs2 pv n distFile.
Proof.
  intros Hin. unfold check_distFile, existsSync, readFileSync.
  rewrite (same_inputs distFile); [done|]. right. by right.
Qed.

Lemma for_of_inputs (pv : value) (files : list string) (n : nat) (st : state) :
  (∀ distFile, distFile ∈ files → distFile ∈ distFiles) →
  for_of (check_distFile fs1 pv) files n st =
  for_of (check_distFile fs2 pv) files n st.
Proof.
  revert n st. induction files as [|f files IH]; intros n st Hsub; [done|].
  simpl. rewrite (check_distFile_inputs pv n f) by (apply Hsub; by left).
  apply bind_ext. intros n' st'. apply IH. intros f' Hf'. apply Hsub. by right.
Qed.

Lemma check_dist_inputs (pv : value) (st : state) :
  check_dist fs1 pv st = check_dist fs2 pv st.
Proof.
  unfold check_dist. apply bind_ext. intros _ st'.
  unfold mbind at 1 2, M_bind at 1 2. by rewrite for_of_inputs.
Qed.

Lemma validateVersions_inputs (st : state) :
  validateVersions fs1 st = validateVersions fs2 st.
Proof.
  unfold validateVersions. rewrite load_manifest_inputs.
  do 3 (apply bind_ext; intros _ ?). apply bind_ext. intros [[pv r] d] ?.
  do 2 (apply bind_ext; intros _ ?). rewrite check_installed_inputs.
  apply bind_ext; intros _ ?.
  unfold mbind at 1 2, M_bind at 1 2. by rewrite check_dist_inputs.
Qed.

End Inputs.

(** C9. The check is deterministic: the outcome of a run is a function of
    the contents of the six files it looks at, so two runs on file sets
    that agree on them collect the same Errors and the same Warnings,
    print the same lines and end with the same exit status. *)
Theorem run_deterministic `{Host} (fs1 fs2 : gmap string node) :
  (∀ path, path ∈ input_paths → fs1 !! path = fs2 !! path) →
  errors (run fs1).2 = errors (run fs2).2 ∧
  warnings (run fs1).2 = warnings (run fs2).2 ∧
  exit_status (run fs1).1 = exit_status (run fs2).1 ∧
  run fs1 = run fs2.
Proof.
  intros Hsame.
  assert (run fs1 = run fs2) as Hrun
    by apply (validateVersions_inputs fs1 fs2 Hsame).
  by rewrite Hrun.
Qed.

(** ** Exit status *)

(** C2, amended. The exit status is 0 exactly when no exception cut the
    run short and no Error was collected; it is 1 as soon as an Error was
    collected, and also when an exception ends the run, whatever was
    collected.  The Warnings have no part in it. *)
Theorem exit_status_verdict `{Host} (fs : gmap string node) :
  (exit_status (run fs).1 = 0 ↔
   errors (run fs).2 = [] ∧ ∀ e, (run fs).1 ≠ Thrown e) ∧
  (errors (run fs).2 ≠ [] → exit_status (run fs).1 = 1) ∧
  (∀ e, (run fs).1 = Thrown e → exit_status (run fs).1 = 1) ∧
  (exit_status (run fs).1 = 0 ∨ exit_status (run fs).1 = 1) ∧
  (∀ errs warns warns' out out',
     exit_status (report (State errs warns out)).1 =
     exit_status (report (State errs warns' out')).1).
Proof.
  split; [|split; [apply run_failure|split; [by intros e ->|split]]].
  - rewrite run_exit_status.
    destruct (run_cases fs) as [(e & Ho & Hrun)|(pv & Ho & Hrun)]; rewrite Ho.
    + split; [done|]. intros [_ Hne]. destruct (Hne e). by rewrite Hrun.
    + destruct (errors (run fs).2) as [|m ms]; [|by split; [|intros [? _]]].
      split; [intros _|done]. split; [done|]. intros e. rewrite Hrun.
      destruct (errors (extend (State [] [] [banner]) (collected (scan fs))))
        as [|m ms] eqn:He.
      * by rewrite report_passed.
      * rewrite report_failed; [done|]. by rewrite He.
  - rewrite run_exit_status.
    destruct (scan fs fresh).1; [|by right..].
    destruct (errors (run fs).2); [by left|by right].
  - intros errs warns warns' out out'. destruct errs as [|m ms].
    + by rewrite !report_passed.
    + by rewrite !report_failed.
Qed.

(** ** The report *)

Section Report.
Context `{Host}.

#[local] Abbreviation value := (value number).

(** The counter has no part in what a file adds to the arrays. *)
Lemma check_distFile_counter (fs : gmap string node) (pv : value) (n : nat)
    (distFile : string) :
  errors (collected (check_distFile fs pv n distFile)) =
    errors (collected (check_distFile fs pv 0 distFile)) ∧
  warnings (collected (check_distFile fs pv n distFile)) =
    warnings (collected (check_distFile fs pv 0 distFile)) ∧
  ((∃ m, (check_distFile fs pv n distFile fresh).1 = Returned m) →
   ∃ m, (check_distFile fs pv 0 distFile fresh).1 = Returned m).
Proof.
  unfold collected, check_distFile, readFileSync, template, mbind, M_bind.
  destruct (existsSync fs distFile); [|by eauto].
  destruct (fs !! distFile) as [[content|]|]; try by (repeat split; eauto).
  cbn [mret M_ret]. cbv zeta.
  destruct (match_version (first_line content)) as [ev|]; [|by eauto].
  cbn [console_log]. destruct (strict_neq ev pv); [|by eauto].
  destruct (ToString pv) as [shown|]; [by eauto|].
  repeat split; done.
Qed.

Lemma for_of_collected (fs : gmap string node) (pv : value)
    (files : list string) (n : nat) :
  (∃ m, (for_of (check_distFile fs pv) files n fresh).1 = Returned m) →
  errors (collected (for_of (check_distFile fs pv) files n)) =
    concat (map (λ f, errors (collected (check_distFile fs pv 0 f))) files) ∧
  warnings (collected (for_of (check_distFile fs pv) files n)) =
    concat (map (λ f, warnings (collected (check_distFile fs pv 0 f))) files).
Proof.
  revert n. induction files as [|f files IH]; intros n [m Hm]; [done|].
  cbn [for_of map concat] in *.
  assert (∀ b, logs (for_of (check_distFile fs pv) files b)) as Hloop.
  { intros b. apply logs_for_of. intros. apply logs_check_distFile. }
  rewrite collected_bind by (done || apply logs_check_distFile).
  rewrite (logs_then _ _ fresh (logs_check_distFile fs pv n f)) in Hm.
  destruct (check_distFile fs pv n f fresh).1 as [n'| |] eqn:Ho; try done.
  destruct (Hloop n') as [Hn' _]. rewrite Hn' in Hm. simpl in Hm.
  destruct (IH n' (ex_intro _ m Hm)) as [He Hw].
  destruct (check_distFile_counter fs pv n f) as (He' & Hw' & _).
  simpl. by rewrite He, Hw, He', Hw'.
Qed.

(** The lines of a scan: no Error and no printed line starts with the
    warning sign, every Warning does. *)
Lemma emits_scan (fs : gmap string node) :
  emits (λ m, warning_line m = false) (λ m, warning_line m = true)
    (λ l, warning_line l = false) (scan fs).
Proof.
  unfold scan. apply emits_bind.
  { unfold load_manifest. emits_script; done. }
  intros [[pv r] d].
  apply emits_bind; [by apply emits_check_devDependency|intros _].
  apply emits_bind; [by apply emits_check_devDependency|intros _].
  apply emits_bind; [by apply emits_check_installed|intros _].
  apply emits_bind; [|intros _; apply emits_ret].
  by apply emits_check_dist.
Qed.

End Report.

Section Scanned.
Context `{Host}.

#[local] Abbreviation value := (value number).

Lemma load_manifest_unprintable (fs : gmap string node) (pv : value)
    (react react_dom : string) (st : state) :
  manifest_declares fs pv react react_dom →
  ToString pv = None →
  load_manifest fs st = (Thrown TypeError, st).
Proof.
  intros (text & pkg & Hfs & Hparse & Hu & Hn & Hv & Hr & Hd) Hshown.
  assert (own pkg "devDependencies" ≠ Undefined ∧
          own pkg "devDependencies" ≠ Null) as [Hdu Hdn].
  { split; intros Heq; by rewrite Heq in Hr. }
  unfold load_manifest, readFileSync, parse, template, mbind, M_bind.
  rewrite Hfs. simpl. rewrite Hparse. simpl.
  rewrite !(Get_own pkg) by done. rewrite Hv.
  rewrite (Get_own (own pkg "devDependencies")) by done.
  rewrite Hr. cbn [replace_range_operator mret M_ret].
  rewrite (Get_own pkg), (Get_own (own pkg "devDependencies")) by done.
  rewrite Hd. cbn [replace_range_operator mret M_ret]. by rewrite Hshown.
Qed.

Lemma check_installed_no_warning (fs : gmap string node) (r : string) :
  warnings (collected (check_installed fs r)) = [].
Proof.
  assert (emits (λ _, True) (λ _, False) (λ _, True) (check_installed fs r))
    as (_ & _ & Hw & _) by by apply emits_check_installed.
  destruct (warnings (collected (check_installed fs r))) as [|w ws]; [done|].
  by apply Forall_cons in Hw as [[] _].
Qed.

Lemma dist_summary_collected (n : nat) :
  (dist_summary n fresh).1 = Returned () ∧
  errors (collected (dist_summary n)) = [] ∧
  (warnings (collected (dist_summary n)) = [] ∨
   warnings (collected (dist_summary n)) = [no_dist_warning]).
Proof.
  unfold collected, dist_summary.
  destruct (Nat.eqb n (length distFiles)); [split; [done|split; [done|by left]]|].
  destruct (Nat.eqb n 0); (split; [done|split; [done|]]); [by right|by left].
Qed.

(** What the checks behind the two constraints add when none of them
    throws. *)
Lemma rest_collected (fs : gmap string node) (r : string) (pv v : value) :
  ((check_installed fs r;; check_dist fs pv;; mret pv) fresh).1 = Returned v →
  errors (collected (check_installed fs r;; check_dist fs pv;; mret pv)) =
    errors (collected (check_installed fs r)) ++
    concat (map (λ f, errors (collected (check_distFile fs pv 0 f))) distFiles) ∧
  ∃ summary,
    (summary = [] ∨ summary = [no_dist_warning]) ∧
    warnings (collected (check_installed fs r;; check_dist fs pv;; mret pv)) =
      concat (map (λ f, warnings (collected (check_distFile fs pv 0 f))) distFiles)
        ++ summary.
Proof.
  intros Ho.
  assert (∀ n, logs (for_of (check_distFile fs pv) distFiles n)) as Hloop.
  { intros n. apply logs_for_of. intros. apply logs_check_distFile. }
  assert (logs (check_dist fs pv ≫= λ _, mret pv)) as Hdist.
  { apply logs_bind; [apply logs_check_dist|intros; apply logs_ret]. }
  rewrite (logs_then _ _ fresh (logs_check_installed fs r)) in Ho.
  rewrite collected_bind by (done || apply logs_check_installed).
  destruct (check_installed fs r fresh).1 as [[]| |] eqn:Ho3; try done.
  destruct Hdist as [Hdist' _]. rewrite Hdist' in Ho. simpl in Ho.
  rewrite (logs_then _ _ fresh (logs_check_dist fs pv)) in Ho.
  rewrite collected_bind
    by (apply logs_check_dist || (intros; apply logs_ret)).
  destruct (check_dist fs pv fresh).1 as [[]| |] eqn:Ho4; try done.
  unfold check_dist in Ho4 |- *.
  rewrite (logs_then _ _ fresh (logs_console_log _)) in Ho4. simpl in Ho4.
  rewrite (logs_then _ _ _ (Hloop 0)) in Ho4.
  rewrite collected_bind
    by (apply logs_console_log ||
        (intros; apply logs_bind; [apply Hloop|apply logs_dist_summary])).
  cbn [fst console_log].
  rewrite collected_bind by (apply Hloop || apply logs_dist_summary).
  destruct (for_of (check_distFile fs pv) distFiles 0 fresh).1
    as [n| |] eqn:Ho5; try done.
  destruct (for_of_collected fs pv distFiles 0 (ex_intro _ n Ho5)) as [He Hw].
  destruct (dist_summary_collected n) as (_ & Hse & Hsw).
  unfold extend. cbn [errors warnings].
  rewrite He, Hw, Hse, check_installed_no_warning.
  change (errors (collected (mret pv))) with ([] : list string).
  change (warnings (collected (mret pv))) with ([] : list string).
  cbn [app collected console_log errors warnings snd]. rewrite !app_nil_r.
  split; [done|]. exists (warnings (collected (dist_summary n))). by split.
Qed.

End Scanned.

(** ** What can end a run once the manifest is loaded *)

Section Faults.
Context `{Host}.

#[local] Abbreviation value := (value number).

(** The scan of a manifest that loads: the outcome is that of the checks
    behind the two constraints, the state what each part adds in turn. *)
Lemma scan_declared_state (fs : gmap string node) (pv : value)
    (react react_dom shown : string) :
  manifest_declares fs pv react react_dom →
  ToString pv = Some shown →
  let r := strip_range_operator react in
  let d := strip_range_operator react_dom in
  let rest := check_installed fs r;; check_dist fs pv;; mret pv in
  scan fs fresh =
    ((rest fresh).1,
     extend
       (State [] []
          [ "📦 package.json version: " +:+ shown;
            "📦 devDependencies.react: " +:+ r;
            "📦 devDependencies.react-dom: " +:+ d +:+ LF ])
       (extend (collected (check_devDependency "react" r pv))
          (extend (collected (check_devDependency "react-dom" d pv))
             (collected rest)))).
Proof.
  intros Hdecl Hshown r d rest.
  assert (logs rest) as [Hrest _].
  { apply logs_bind; [apply logs_check_installed|intros _].
    apply logs_bind; [apply logs_check_dist|intros _]. apply logs_ret. }
  destruct (collected_check_devDependency "react" r shown pv Hshown)
    as (Ho1 & _).
  destruct (collected_check_devDependency "react-dom" d shown pv Hshown)
    as (Ho2 & _).
  unfold scan. unfold mbind at 1, M_bind at 1.
  rewrite (load_manifest_declared fs pv react react_dom shown fresh Hdecl Hshown).
  fold r d.
  rewrite (logs_then _ _ _ (logs_check_devDependency "react" r pv)), Ho1.
  rewrite (logs_then _ _ _ (logs_check_devDependency "react-dom" d pv)), Ho2.
  etrans; [apply Hrest|]. f_equal.
  by rewrite !extend_assoc, !fresh_extend.
Qed.

Lemma run_scan (fs : gmap string node) :
  run fs =
    match (scan fs fresh).1 with
    | Returned _ => report (extend (State [] [] [banner]) (collected (scan fs)))
    | Thrown e => (Thrown e, extend (State [] [] [banner]) (collected (scan fs)))
    | Exited code =>
        (Exited code, extend (State [] [] [banner]) (collected (scan fs)))
    end.
Proof. by rewrite run_scan_report, (logs_then _ _ _ (logs_scan fs)). Qed.

Lemma check_installed_fault (fs : gmap string node) (r : string) (e : exn)
    (st : state) :
  installed_fault fs e → check_installed fs r st = (Thrown e, st).
Proof.
  intros Hfault.
  destruct Hfault as [Hfs|text Hfs Hparse|text pkg Hfs Hparse Hnull
                     |text pkg Hfs Hparse Hu Hn Hshown];
    unfold check_installed, existsSync, readFileSync, parse, template;
    rewrite Hfs, bool_decide_eq_true_2 by eauto;
    unfold mbind, M_bind; cbn [mret M_ret]; try done;
    rewrite Hparse; cbn [mret M_ret]; try done.
  - by destruct Hnull as [-> | ->].
  - rewrite (Get_own pkg) by done. by rewrite Hshown.
Qed.

Lemma check_installed_outcome (fs : gmap string node) (r : string) :
  (∃ e, installed_fault fs e) ∨ (check_installed fs r fresh).1 = Returned ().
Proof.
  destruct (fs !! "node_modules/react/package.json") as [[text|]|] eqn:Hfs.
  - destruct (JSON_parse text) as [pkg|] eqn:Hparse;
      [|left; eexists; by eapply installed_unparsable].
    assert (pkg = Undefined ∨ pkg = Null ∨ (pkg ≠ Undefined ∧ pkg ≠ Null))
      as [Hu|[Hn|[Hu Hn]]] by (destruct pkg; auto).
    + left. eexists. eapply installed_null; eauto.
    + left. eexists. eapply installed_null; eauto.
    + destruct (ToString (own pkg "version")) as [shown|] eqn:Hshown.
      * right.
        by rewrite (check_installed_present fs r text shown pkg fresh).
      * left. eexists. by eapply installed_unprintable.
  - left. eexists. by apply installed_unreadable.
  - right. by rewrite check_installed_absent.
Qed.

Lemma check_distFile_directory (fs : gmap string node) (pv : value) (n : nat)
    (distFile : string) (st : state) :
  fs !! distFile = Some Directory →
  check_distFile fs pv n distFile st = (Thrown (EISDIR distFile), st).
Proof.
  intros Hfs. unfold check_distFile, existsSync, readFileSync.
  by rewrite Hfs, bool_decide_eq_true_2 by eauto.
Qed.

Lemma check_distFile_returns (fs : gmap string node) (pv : value) (n : nat)
    (distFile shown : string) :
  ToString pv = Some shown →
  fs !! distFile ≠ Some Directory →
  ∃ k, (check_distFile fs pv n distFile fresh).1 = Returned k.
Proof.
  intros Hshown Hdir.
  destruct (fs !! distFile) as [[content|]|] eqn:Hfs; [|done|].
  - rewrite (check_distFile_present fs pv n distFile content shown fresh Hfs Hshown).
    destruct (match_version (first_line content)); by eexists.
  - rewrite check_distFile_absent by done. by eexists.
Qed.

(** The loop stops at the first path that is a directory. *)
Lemma for_of_outcome (fs : gmap string node) (pv : value) (shown : string)
    (files : list string) (n : nat) :
  ToString pv = Some shown →
  (∃ before f after,
     files = before ++ f :: after ∧
     (∀ f', f' ∈ before → fs !! f' ≠ Some Directory) ∧
     fs !! f = Some Directory ∧
     (for_of (check_distFile fs pv) files n fresh).1 = Thrown (EISDIR f)) ∨
  ((∀ f, f ∈ files → fs !! f ≠ Some Directory) ∧
   ∃ m, (for_of (check_distFile fs pv) files n fresh).1 = Returned m).
Proof.
  intros Hshown. revert n. induction files as [|f files IH]; intros n.
  { right. split; [|by exists n]. intros f Hf. by apply elem_of_nil in Hf. }
  cbn [for_of].
  rewrite (logs_then _ _ fresh (logs_check_distFile fs pv n f)).
  assert (fs !! f = Some Directory ∨ fs !! f ≠ Some Directory) as [Hdir|Hdir].
  { destruct (fs !! f) as [[|]|]; auto. }
  - left. exists [], f, files. split; [done|]. split.
    { intros f' Hf'. by apply elem_of_nil in Hf'. }
    split; [done|]. by rewrite check_distFile_directory.
  - destruct (check_distFile_returns fs pv n f shown Hshown Hdir) as [k ->].
    assert (logs (for_of (check_distFile fs pv) files k)) as [Hloop _].
    { apply logs_for_of. intros. apply logs_check_distFile. }
    rewrite Hloop. cbn [fst].
    destruct (IH k) as [(before & f0 & after & -> & Hbefore & Hf0 & Ho)
                       |[Hnone [m Hm]]].
    + left. exists (f :: before), f0, after. split; [done|]. split; [|done].
      intros f' [->|Hf']%elem_of_cons; auto.
    + right. split; [|by exists m].
      intros f' [->|Hf']%elem_of_cons; auto.
Qed.

Lemma rest_outcome (fs : gmap string node) (r : string) (pv : value) :
  (check_installed fs r fresh).1 = Returned () →
  ((check_installed fs r;; check_dist fs pv;; mret pv) fresh).1 =
    match (for_of (check_distFile fs pv) distFiles 0 fresh).1 with
    | Returned _ => Returned pv
    | Thrown e => Thrown e
    | Exited code => Exited code
    end.
Proof.
  intros Ho3.
  assert (∀ n, logs (for_of (check_distFile fs pv) distFiles n)) as Hloop.
  { intros n. apply logs_for_of. intros. apply logs_check_distFile. }
  assert (logs (check_dist fs pv ≫= λ _, mret pv)) as [Hdist _].
  { apply logs_bind; [apply logs_check_dist|intros; apply logs_ret]. }
  rewrite (logs_then _ _ fresh (logs_check_installed fs r)), Ho3.
  rewrite Hdist. cbn [fst].
  rewrite (logs_then _ _ fresh (logs_check_dist fs pv)).
  unfold check_dist at 1.
  rewrite (logs_then _ _ fresh (logs_console_log _)). cbn [fst console_log].
  rewrite (logs_then _ _ _ (Hloop 0)).
  destruct (for_of (check_distFile fs pv) distFiles 0 fresh).1 as [n| |];
    try done.
  destruct (logs_dist_summary n) as [Hsum _]. rewrite Hsum. cbn [fst].
  by destruct (dist_summary_collected n) as (-> & _).
Qed.

Lemma first_directory_unique (fs : gmap string node)
    (before before' after after' : list string) (f f' : string) :
  before ++ f :: after = before' ++ f' :: after' →
  (∀ g, g ∈ before → fs !! g ≠ Some Directory) →
  (∀ g, g ∈ before' → fs !! g ≠ Some Directory) →
  fs !! f = Some Directory → fs !! f' = Some Directory →
  f = f'.
Proof.
  revert before'. induction before as [|b before IH];
    intros [|b' before'] Heq Hbefore Hbefore' Hf Hf'; cbn [app] in Heq.
  - by injection Heq.
  - injection Heq as -> _. destruct (Hbefore' b'); [by left|done].
  - injection Heq as <- _. destruct (Hbefore b); [by left|done].
  - injection Heq as -> Heq. apply (IH before'); try done.
    + intros g Hg. apply Hbefore. by right.
    + intros g Hg. apply Hbefore'. by right.
Qed.

(** What cuts a run short once the manifest is loaded. *)
Lemma thrown_after_manifest (fs : gmap string node) (packageVersion : value)
    (react react_dom shown : string) (e : exn) :
  manifest_declares fs packageVersion react react_dom →
  ToString packageVersion = Some shown →
  ((run fs).1 = Thrown e ↔ later_fault fs e) ∧
  ((∀ e', ¬ installed_fault fs e') →
   (∀ f, f ∈ distFiles → fs !! f ≠ Some Directory) →
   ∃ code, (run fs).1 = Exited code).
Proof.
  unfold later_fault. intros Hdecl Hshown.
  set (r := strip_range_operator react).
  set (rest := check_installed fs r;; check_dist fs packageVersion;;
               mret packageVersion).
  assert ((scan fs fresh).1 = (rest fresh).1) as Hscan.
  { by rewrite (scan_declared_state fs packageVersion react react_dom shown
                  Hdecl Hshown). }
  assert (∀ st, ∃ code, (report st).1 = Exited code) as Hreport.
  { intros st. destruct (errors st) as [|m ms] eqn:He.
    - exists 0. by rewrite report_passed.
    - exists 1. rewrite report_failed; [done|]. by rewrite He. }
  assert (((run fs).1 = Thrown e ↔ (rest fresh).1 = Thrown e) ∧
          ((∃ v, (rest fresh).1 = Returned v) → ∃ code, (run fs).1 = Exited code))
    as [Hthrown Hexited].
  { rewrite run_scan, Hscan.
    destruct (rest fresh).1 as [v|e'|code] eqn:Ho; cbn [fst].
    - destruct (Hreport (extend (State [] [] [banner]) (collected (scan fs))))
        as [code Hcode].
      rewrite Hcode. split; [by split|]. intros _. by exists code.
    - split; [by split; intros [= ->]|]. by intros [v ?].
    - split; [by split|]. by intros [v ?]. }
  assert ((∀ e', ¬ installed_fault fs e') →
          (check_installed fs r fresh).1 = Returned ()) as Hinstalled.
  { intros Hnone. destruct (check_installed_outcome fs r) as [[e' He']|Ho]; [|done].
    by destruct (Hnone e'). }
  split; [split|].
  - rewrite Hthrown. intros Ho.
    destruct (check_installed_outcome fs r) as [[e' He']|Ho3].
    + left. unfold rest in Ho. unfold mbind at 1, M_bind at 1 in Ho.
      rewrite (check_installed_fault fs r e' fresh He') in Ho.
      by injection Ho as <-.
    + right. split.
      { intros e' He'.
        by rewrite (check_installed_fault fs r e' fresh He') in Ho3. }
      unfold rest in Ho. rewrite (rest_outcome fs r packageVersion Ho3) in Ho.
      destruct (for_of_outcome fs packageVersion shown distFiles 0 Hshown)
        as [(before & f & after & Hsplit & Hbefore & Hf & Ho5)|[_ [m Hm]]].
      * rewrite Ho5 in Ho. injection Ho as <-. by exists before, f, after.
      * by rewrite Hm in Ho.
  - rewrite Hthrown.
    intros [Hfault|(Hnone & before & f & after & Hsplit & Hbefore & Hf & ->)].
    + unfold rest. unfold mbind at 1, M_bind at 1.
      by rewrite (check_installed_fault fs r e fresh Hfault).
    + unfold rest. rewrite (rest_outcome fs r packageVersion (Hinstalled Hnone)).
      destruct (for_of_outcome fs packageVersion shown distFiles 0 Hshown)
        as [(before' & f' & after' & Hsplit' & Hbefore' & Hf' & Ho5)|[Hclean _]].
      * rewrite Ho5. f_equal. f_equal. symmetry.
        apply (first_directory_unique fs before before' after after'); try done.
        by rewrite <- Hsplit, <- Hsplit'.
      * destruct (Hclean f); [|done]. rewrite Hsplit.
        apply elem_of_app. right. by left.
  - intros Hnone Hclean. apply Hexited. exists packageVersion.
    unfold rest. rewrite (rest_outcome fs r packageVersion (Hinstalled Hnone)).
    destruct (for_of_outcome fs packageVersion shown distFiles 0 Hshown)
      as [(before & f & after & Hsplit & _ & Hf & _)|[_ [m ->]]]; [|done].
    destruct (Hclean f); [|done]. rewrite Hsplit.
    apply elem_of_app. right. by left.
Qed.

End Faults.

(** ** A manifest that cannot be used *)

(** C6, amended. When the manifest is absent, cannot be read or parsed, or
    lacks one of the two development dependencies, the exception ends the
    run before anything but the opening line is printed, with exit status
    1.  When it lacks only the version, the manifest does not cut the run
    short: the three values are printed, the version as [undefined]; the
    Errors start with the mismatch of both dependencies, each naming its
    dependency and showing the bare constraint and [undefined]; the exit
    status is 1; and the run ends with the printed report of its Errors
    unless one of the later faults ends it first, which are the only
    exceptions left. *)
Theorem manifest_fault_fatal `{Host} (fs : gmap string node) :
  (∀ e, manifest_fault fs e →
     run fs = (Thrown e, State [] [] [banner]) ∧
     exit_status (run fs).1 = 1) ∧
  (∀ react react_dom,
     manifest_declares fs Undefined react react_dom →
     let reactDevDep := strip_range_operator react in
     let reactDomDevDep := strip_range_operator react_dom in
     exit_status (run fs).1 = 1 ∧
     (∃ first second later,
        errors (run fs).2 = first :: second :: later ∧
        first = devDependency_mismatch "react" reactDevDep "undefined" ∧
        second = devDependency_mismatch "react-dom" reactDomDevDep "undefined" ∧
        names_devDependency "react" first = true ∧
        shows_both reactDevDep "undefined" first ∧
        names_devDependency "react-dom" second = true ∧
        shows_both reactDomDevDep "undefined" second) ∧
     (∃ out,
        stdout (run fs).2 =
          banner ::
          "📦 package.json version: undefined" ::
          ("📦 devDependencies.react: " +:+ reactDevDep) ::
          ("📦 devDependencies.react-dom: " +:+ reactDomDevDep +:+ LF) ::
          out) ∧
     (∀ e, (run fs).1 = Thrown e ↔ later_fault fs e) ∧
     ((∀ e, ¬ later_fault fs e) →
      (run fs).1 = Exited 1 ∧
      ∃ out,
        stdout (run fs).2 =
          out ++ separator :: failed_header :: errors (run fs).2)).
Proof.
  split.
  - intros e Hfault.
    assert (run fs = (Thrown e, State [] [] [banner])) as Hrun.
    { unfold run, validateVersions.
      unfold mbind at 1 2 3, M_bind at 1 2 3. simpl.
      unfold mbind at 1, M_bind at 1.
      by rewrite (load_manifest_fault fs e _ Hfault). }
    by rewrite Hrun.
  - intros react react_dom Hdecl r d.
    set (first := devDependency_mismatch "react" r "undefined").
    set (second := devDependency_mismatch "react-dom" d "undefined").
    set (rest := check_installed fs r;; check_dist fs Undefined;;
                 mret (Undefined : value number)).
    pose proof (λ e, proj1 (thrown_after_manifest fs Undefined react react_dom
                              "undefined" e Hdecl eq_refl)) as Hthrown.
    destruct (collected_check_devDependency "react" r "undefined" Undefined eq_refl)
      as (_ & _ & Hr & _).
    destruct (collected_check_devDependency "react-dom" d "undefined" Undefined
                eq_refl) as (_ & _ & Hd & _).
    assert (collected (scan fs) =
      State (first :: second :: errors (collected rest))
        (warnings (collected rest))
        ("📦 package.json version: undefined" ::
         ("📦 devDependencies.react: " +:+ r) ::
         ("📦 devDependencies.react-dom: " +:+ d +:+ LF) ::
         stdout (collected rest))) as Hscan.
    { unfold collected at 1.
      rewrite (scan_declared_state fs Undefined react react_dom "undefined"
                 Hdecl eq_refl).
      fold r d rest. cbn [snd]. by rewrite Hr, Hd. }
    assert (∃ o es ws out,
      run fs =
        (o, State (first :: second :: es) ws
              (banner ::
               "📦 package.json version: undefined" ::
               ("📦 devDependencies.react: " +:+ r) ::
               ("📦 devDependencies.react-dom: " +:+ d +:+ LF) :: out)) ∧
      ((∀ e, o ≠ Thrown e) →
       o = Exited 1 ∧
       ∃ out',
         banner ::
         "📦 package.json version: undefined" ::
         ("📦 devDependencies.react: " +:+ r) ::
         ("📦 devDependencies.react-dom: " +:+ d +:+ LF) :: out =
         out' ++ separator :: failed_header :: first :: second :: es))
      as (o & es & ws & out & Hrun & Hreport).
    { rewrite run_scan, Hscan. destruct (logs_scan fs) as [_ Hexit].
      destruct (scan fs fresh).1 as [pv|e|code] eqn:Ho.
      - rewrite report_failed by done. unfold extend.
        cbn [errors warnings stdout app].
        eexists _, _, _, _. split; [reflexivity|]. intros _. split; [done|].
        by eexists (_ :: _ :: _ :: _ :: _).
      - unfold extend. cbn [errors warnings stdout app].
        eexists _, _, _, _. split; [reflexivity|]. intros Hnot.
        by destruct (Hnot e).
      - by destruct (Hexit code). }
    rewrite Hrun. cbn [fst snd errors stdout].
    rewrite Hrun in Hthrown. cbn [fst] in Hthrown.
    assert (exit_status o = 1) as Hstatus.
    { destruct o as [[]|e|code] eqn:Heq; [|done|].
      - by destruct Hreport as [? _]; [intros e|].
      - destruct Hreport as [[= ->] _]; [by intros e|done]. }
    split; [done|]. split.
    { exists first, second, es. split; [done|]. split; [done|]. split; [done|].
      destruct (devDependency_mismatch_shows "react" r "undefined").
      by destruct (devDependency_mismatch_shows "react-dom" d "undefined"). }
    split; [by exists out|]. split; [done|].
    intros Hnone. apply Hreport. intros e Ho. apply (Hnone e), Hthrown, Ho.
Qed.

(** C7, amended. A run that no exception cuts short has carried out every
    check: its Errors are those of the two constraint checks, of the
    installed package and of the four built files, each as it reports on
    its own, and its Warnings those of the four files and of their
    summary.  The report comes after all of them.  With at least one
    Error it prints the Errors and nothing else, so no collected Warning
    is printed at all, and the exit status is 1; with none it prints the
    Warnings, if any, and the exit status is 0. *)
Theorem report_after_scan `{Host} (fs : gmap string node)
    (packageVersion : value number) (react react_dom : string) (code : nat) :
  manifest_declares fs packageVersion react react_dom →
  (run fs).1 = Exited code →
  let reactDevDep := strip_range_operator react in
  let reactDomDevDep := strip_range_operator react_dom in
  errors (run fs).2 =
    errors (collected (check_devDependency "react" reactDevDep packageVersion)) ++
    errors (collected (check_devDependency "react-dom" reactDomDevDep packageVersion)) ++
    errors (collected (check_installed fs reactDevDep)) ++
    concat (map (λ f, errors (collected (check_distFile fs packageVersion 0 f)))
              distFiles) ∧
  (∃ summary,
     (summary = [] ∨ summary = [no_dist_warning]) ∧
     warnings (run fs).2 =
       concat (map (λ f, warnings (collected (check_distFile fs packageVersion 0 f)))
                 distFiles) ++ summary) ∧
  (∃ scanned,
     Forall (λ line, warning_line line = false) scanned ∧
     stdout (run fs).2 =
       scanned ++ separator ::
         match errors (run fs).2 with
         | [] =>
             match warnings (run fs).2 with
             | [] => []
             | _ :: _ => warnings_header :: warnings (run fs).2
             end ++ [passed_line]
         | _ :: _ => failed_header :: errors (run fs).2
         end) ∧
  (errors (run fs).2 ≠ [] →
   code = 1 ∧ ∀ w, w ∈ warnings (run fs).2 → w ∉ stdout (run fs).2) ∧
  (errors (run fs).2 = [] → code = 0).
Proof.
  intros Hdecl Hexit r d.
  destruct (run_cases fs) as [(e & _ & Hrun)|(pv & Ho & Hrun)];
    [by rewrite Hrun in Hexit|].
  destruct (ToString packageVersion) as [shown|] eqn:Hshown; cycle 1.
  { unfold scan in Ho. unfold mbind at 1, M_bind at 1 in Ho.
    by rewrite (load_manifest_unprintable fs packageVersion react react_dom
                  fresh Hdecl Hshown) in Ho. }
  destruct (scan_declared fs packageVersion react react_dom shown Hdecl Hshown)
    as (_ & Ho' & He & Hw). fold r d in Ho', He, Hw.
  rewrite Ho in Ho'. symmetry in Ho'.
  destruct (rest_collected fs r packageVersion pv Ho')
    as (He' & summary & Hsummary & Hw').
  destruct (emits_scan fs) as (_ & Hne & Hnw & Hno).
  assert (∀ w, w ∈ warnings (run fs).2 → warning_line w = true) as Hwarn.
  { intros w Hin. rewrite run_warnings in Hin.
    by apply (proj1 (Forall_forall _ _) Hnw). }
  remember (extend (State [] [] [banner]) (collected (scan fs))) as st eqn:Hst.
  assert (errors st = errors (collected (scan fs)) ∧
          warnings st = warnings (collected (scan fs)) ∧
          stdout st = banner :: stdout (collected (scan fs)))
    as (Hste & Hstw & Hsto) by by rewrite Hst.
  assert (Forall (λ line, warning_line line = false) (stdout st)) as Hscanned.
  { rewrite Hsto. by apply Forall_cons. }
  split; [by rewrite run_errors, He, He'|].
  split; [exists summary; by rewrite run_warnings, Hw, Hw'|].
  rewrite run_errors, run_warnings, <- Hste, <- Hstw.
  rewrite run_warnings, <- Hstw in Hwarn.
  destruct (errors st) as [|m ms] eqn:Herrors.
  - rewrite (report_passed st Herrors) in Hrun. rewrite Hrun in Hexit |- *.
    cbn [fst snd stdout] in *.
    split; [by exists (stdout st)|]. split; [done|]. intros _. by injection Hexit.
  - rewrite (report_failed st) in Hrun by by rewrite Herrors.
    rewrite Hrun in Hexit |- *. cbn [fst snd stdout] in *.
    split; [exists (stdout st); by rewrite Herrors|]. split; [|done].
    intros _. split; [by injection Hexit|]. intros w Hw1 Hw2.
    apply Hwarn in Hw1.
    assert (Forall (λ line, warning_line line = false)
              (stdout st ++ separator :: failed_header :: errors st)) as Hall.
    { apply Forall_app. split; [done|]. rewrite Herrors, Hste.
      apply Forall_cons. split; [done|]. apply Forall_cons. by split. }
    rewrite Forall_forall in Hall. apply Hall in Hw2. congruence.
Qed.

(** * Further properties *)

(** ** A passing run *)

Section Passing.
Context `{Host}.

#[local] Abbreviation value := (value number).

Lemma Get_returns (v w : value) (key : string) (st st' : state) :
  Get v key st = (Returned w, st') →
  v ≠ Undefined ∧ v ≠ Null ∧ w = own v key ∧ st' = st.
Proof. destruct v; simpl; intros [= <- <-]; by repeat split. Qed.

Lemma replace_returns (v : value) (s : string) (st st' : state) :
  replace_range_operator v st = (Returned s, st') →
  ∃ t, v = Str t ∧ s = strip_range_operator t ∧ st' = st.
Proof. destruct v; simpl; intros [= <- <-]; eauto. Qed.

Lemma load_manifest_returns (fs : gmap string node) (pv : value)
    (r d : string) (st st' : state) :
  load_manifest fs st = (Returned (pv, r, d), st') →
  ∃ react react_dom shown,
    manifest_declares fs pv react react_dom ∧
    ToString pv = Some shown ∧
    r = strip_range_operator react ∧
    d = strip_range_operator react_dom.
Proof.
  unfold load_manifest, readFileSync, parse, template, mbind, M_bind,
    mthrow, M_throw.
  destruct (fs !! "package.json") as [[text|]|] eqn:Hfs; try done.
  cbn [mret M_ret]. destruct (JSON_parse text) as [pkg|] eqn:Hparse; [|done].
  cbn [mret M_ret].
  destruct (Get pkg "version" st) as [[v| |] st1] eqn:Hv; try done.
  apply Get_returns in Hv as (Hu & Hn & -> & ->).
  rewrite (Get_own pkg) by done.
  destruct (Get (own pkg "devDependencies") "react" st)
    as [[react| |] st1] eqn:Hreact; try done.
  apply Get_returns in Hreact as (Hdu & Hdn & -> & ->).
  destruct (replace_range_operator (own (own pkg "devDependencies") "react") st)
    as [[r'| |] st1] eqn:Hr; try done.
  apply replace_returns in Hr as (react & Hreact & -> & ->).
  rewrite (Get_own pkg), (Get_own (own pkg "devDependencies")) by done.
  destruct (replace_range_operator (own (own pkg "devDependencies") "react-dom") st)
    as [[d'| |] st1] eqn:Hd; try done.
  apply replace_returns in Hd as (react_dom & Hreact_dom & -> & ->).
  destruct (ToString (own pkg "version")) as [shown|] eqn:Hshown; [|done].
  cbn. intros [= <- <- <- _]. exists react, react_dom, shown.
  split; [|done]. by exists text, pkg.
Qed.

Lemma concat_map_nil {A B : Type} (g : A → list B) (l : list A) :
  concat (map g l) = [] → ∀ x, x ∈ l → g x = [].
Proof.
  induction l as [|a l IH]; simpl; intros Hnil x Hx.
  - by apply elem_of_nil in Hx.
  - apply app_eq_nil in Hnil as [Ha Hl].
    apply elem_of_cons in Hx as [->|Hx]; auto.
Qed.

Lemma for_of_returns (fs : gmap string node) (pv : value)
    (files : list string) (n m : nat) :
  (for_of (check_distFile fs pv) files n fresh).1 = Returned m →
  ∀ f, f ∈ files → ∃ k, (check_distFile fs pv 0 f fresh).1 = Returned k.
Proof.
  revert n. induction files as [|f files IH]; intros n Hm f' Hf'.
  { by apply elem_of_nil in Hf'. }
  cbn [for_of] in Hm.
  rewrite (logs_then _ _ fresh (logs_check_distFile fs pv n f)) in Hm.
  destruct (check_distFile fs pv n f fresh).1 as [n'| |] eqn:Ho; try done.
  apply elem_of_cons in Hf' as [->|Hf'].
  - destruct (check_distFile_counter fs pv n f) as (_ & _ & Hk). apply Hk.
    by exists n'.
  - assert (logs (for_of (check_distFile fs pv) files n')) as [Hloop _].
    { apply logs_for_of. intros. apply logs_check_distFile. }
    rewrite Hloop in Hm. by apply (IH n').
Qed.

Lemma rest_returns (fs : gmap string node) (r : string) (pv v : value) :
  ((check_installed fs r;; check_dist fs pv;; mret pv) fresh).1 = Returned v →
  (check_installed fs r fresh).1 = Returned () ∧
  ∃ n, (for_of (check_distFile fs pv) distFiles 0 fresh).1 = Returned n.
Proof.
  intros Ho.
  assert (∀ n, logs (for_of (check_distFile fs pv) distFiles n)) as Hloop.
  { intros n. apply logs_for_of. intros. apply logs_check_distFile. }
  assert (logs (check_dist fs pv ≫= λ _, mret pv)) as [Hdist _].
  { apply logs_bind; [apply logs_check_dist|intros; apply logs_ret]. }
  rewrite (logs_then _ _ fresh (logs_check_installed fs r)) in Ho.
  destruct (check_installed fs r fresh).1 as [[]| |] eqn:Ho3; try done.
  split; [done|]. rewrite Hdist in Ho. cbn [fst] in Ho.
  rewrite (logs_then _ _ fresh (logs_check_dist fs pv)) in Ho.
  destruct (check_dist fs pv fresh).1 as [[]| |] eqn:Ho4; try done.
  unfold check_dist in Ho4.
  rewrite (logs_then _ _ fresh (logs_console_log _)) in Ho4. cbn [fst] in Ho4.
  rewrite (logs_then _ _ _ (Hloop 0)) in Ho4.
  destruct (for_of (check_distFile fs pv) distFiles 0 fresh).1
    as [n| |] eqn:Ho5; try done.
  by exists n.
Qed.

Lemma check_installed_clean (fs : gmap string node) (r : string) :
  (check_installed fs r fresh).1 = Returned () →
  errors (collected (check_installed fs r)) = [] →
  installed_agrees fs r.
Proof.
  destruct (fs !! "node_modules/react/package.json") as [[text|]|] eqn:Hfs;
    [| |by left].
  - destruct (JSON_parse text) as [installedReact|] eqn:Hparse.
    + assert (installedReact = Undefined ∨ installedReact = Null ∨
              (installedReact ≠ Undefined ∧ installedReact ≠ Null))
        as [->|[->|[Hu Hn]]] by (destruct installedReact; auto).
      { unfold check_installed, existsSync, readFileSync, parse.
        rewrite Hfs, bool_decide_eq_true_2 by eauto.
        unfold mbind, M_bind. cbn [mret M_ret]. by rewrite Hparse. }
      { unfold check_installed, existsSync, readFileSync, parse.
        rewrite Hfs, bool_decide_eq_true_2 by eauto.
        unfold mbind, M_bind. cbn [mret M_ret]. by rewrite Hparse. }
      destruct (ToString (own installedReact "version")) as [shown|] eqn:Hshown.
      * unfold collected.
        rewrite (check_installed_present fs r text shown installedReact fresh
                   Hfs Hparse Hu Hn Hshown).
        destruct (strict_neq r (own installedReact "version")) eqn:Hneq; [done|].
        apply strict_neq_false in Hneq. intros _ _. right.
        by exists text, installedReact.
      * unfold check_installed, existsSync, readFileSync, parse, template.
        rewrite Hfs, bool_decide_eq_true_2 by eauto.
        unfold mbind, M_bind. cbn [mret M_ret]. rewrite Hparse. cbn [mret M_ret].
        rewrite (Get_own installedReact) by done. by rewrite Hshown.
    + unfold check_installed, existsSync, readFileSync, parse.
      rewrite Hfs, bool_decide_eq_true_2 by eauto.
      unfold mbind, M_bind. cbn [mret M_ret]. by rewrite Hparse.
  - unfold check_installed, existsSync, readFileSync.
    by rewrite Hfs, bool_decide_eq_true_2 by eauto.
Qed.

Lemma check_distFile_clean (fs : gmap string node) (pv : value)
    (distFile : string) (k : nat) :
  (check_distFile fs pv 0 distFile fresh).1 = Returned k →
  errors (collected (check_distFile fs pv 0 distFile)) = [] →
  fs !! distFile ≠ Some Directory ∧
  ∀ ev, embedded_version fs distFile = Some ev → pv = Str ev.
Proof.
  unfold embedded_version, collected, check_distFile, existsSync, readFileSync,
    template, mbind, M_bind.
  destruct (fs !! distFile) as [[content|]|] eqn:Hfs.
  - rewrite bool_decide_eq_true_2 by eauto. cbn [mret M_ret]. cbv zeta.
    destruct (match_version (first_line content)) as [ev|]; [|done].
    cbn [console_log]. destruct (strict_neq ev pv) eqn:Hneq.
    + by destruct (ToString pv).
    + apply strict_neq_false in Hneq. intros _ _. split; [done|].
      by intros ? [= <-].
  - by rewrite bool_decide_eq_true_2 by eauto.
  - done.
Qed.

Lemma bind_clean {A B : Type} (step : M A) (next : A → M B) (a : A) :
  logs step → (∀ a', logs (next a')) →
  (step fresh).1 = Returned a →
  errors (collected step) = [] →
  (∃ b, (next a fresh).1 = Returned b ∧ errors (collected (next a)) = []) →
  ∃ b, ((step ≫= next) fresh).1 = Returned b ∧
       errors (collected (step ≫= next)) = [].
Proof.
  intros Hstep Hnext Ho He (b & Hb & He').
  exists b. rewrite collected_bind, logs_then by done. rewrite Ho.
  destruct (Hnext a) as [Ha _]. rewrite Ha. cbn [fst].
  split; [done|]. unfold extend. cbn [errors]. by rewrite He, He'.
Qed.

Lemma check_installed_agrees (fs : gmap string node) (r : string) :
  installed_agrees fs r →
  (check_installed fs r fresh).1 = Returned () ∧
  errors (collected (check_installed fs r)) = [].
Proof.
  intros [Hfs|(text & installedReact & Hfs & Hparse & Hu & Hn & Hv)].
  - unfold collected. by rewrite check_installed_absent.
  - unfold collected.
    rewrite (check_installed_present fs r text r installedReact fresh
               Hfs Hparse Hu Hn) by by rewrite Hv.
    assert (strict_neq r (own installedReact "version") = false) as ->
      by by apply strict_neq_false.
    done.
Qed.

Lemma check_distFile_agrees (fs : gmap string node) (version : string)
    (distFile : string) (n : nat) :
  fs !! distFile ≠ Some Directory →
  (∀ ev, embedded_version fs distFile = Some ev → ev = version) →
  ∃ k, (check_distFile fs (Str version) n distFile fresh).1 = Returned k ∧
       errors (collected (check_distFile fs (Str version) n distFile)) = [].
Proof.
  unfold embedded_version, collected. intros Hdir Hev.
  destruct (fs !! distFile) as [[content|]|] eqn:Hfs; [|done|].
  - rewrite (check_distFile_present fs (Str version) n distFile content version
               fresh Hfs eq_refl).
    destruct (match_version (first_line content)) as [ev|]; [|by eexists].
    rewrite (Hev ev eq_refl).
    assert (strict_neq version (Str version : value) = false) as ->
      by by apply strict_neq_false.
    by eexists.
  - rewrite check_distFile_absent by done. by eexists.
Qed.

Lemma for_of_agrees (fs : gmap string node) (version : string)
    (files : list string) (n : nat) :
  (∀ f, f ∈ files → fs !! f ≠ Some Directory) →
  (∀ f ev, f ∈ files → embedded_version fs f = Some ev → ev = version) →
  ∃ m, (for_of (check_distFile fs (Str version)) files n fresh).1 = Returned m ∧
       errors (collected (for_of (check_distFile fs (Str version)) files n)) = [].
Proof.
  revert n. induction files as [|f files IH]; intros n Hdir Hev.
  { by exists n. }
  cbn [for_of].
  destruct (check_distFile_agrees fs version f n) as (k & Hk & He).
  { apply Hdir. by left. }
  { intros ev. apply Hev. by left. }
  apply (bind_clean _ _ k); try done.
  - apply logs_check_distFile.
  - intros. apply logs_for_of. intros. apply logs_check_distFile.
  - apply IH.
    + intros f' Hf'. apply Hdir. by right.
    + intros f' ev Hf'. apply Hev. by right.
Qed.

End Passing.

(** X1. A run that ends with exit status 0 has compared everything and
    found it equal: the manifest declares a version that is a string, both
    constraints without their operator are that version, the installed
    package, if there is one, is at that version, and every built file
    that carries a version carries that one. *)
Theorem passing_run_agrees `{Host} (fs : gmap string node) :
  exit_status (run fs).1 = 0 →
  ∃ version react react_dom,
    manifest_declares fs (Str version) react react_dom ∧
    strip_range_operator react = version ∧
    strip_range_operator react_dom = version ∧
    installed_agrees fs version ∧
    (∀ distFile, distFile ∈ distFiles → fs !! distFile ≠ Some Directory) ∧
    (∀ distFile ev,
       distFile ∈ distFiles → embedded_version fs distFile = Some ev →
       ev = version).
Proof.
  intros Hexit. rewrite run_exit_status in Hexit.
  destruct (scan fs fresh).1 as [v| |] eqn:Ho; try done.
  destruct (errors (run fs).2) as [|m ms] eqn:He; [clear Hexit|done].
  rewrite run_errors in He.
  assert (∃ pv r d st, load_manifest fs fresh = (Returned (pv, r, d), st))
    as (pv & r & d & st & Hload).
  { unfold scan in Ho. unfold mbind at 1, M_bind at 1 in Ho.
    destruct (load_manifest fs fresh) as [[[[pv r] d]| |] st]; try done.
    by exists pv, r, d, st. }
  apply load_manifest_returns
    in Hload as (react & react_dom & shown & Hdecl & Hshown & -> & ->).
  destruct (scan_declared fs pv react react_dom shown Hdecl Hshown)
    as (_ & Ho' & He' & _).
  rewrite Ho in Ho'. symmetry in Ho'.
  destruct (rest_collected fs _ pv v Ho') as [Hrest _].
  destruct (rest_returns fs _ pv v Ho') as [Ho3 [n Hloop]].
  rewrite He, Hrest in He'. symmetry in He'.
  apply app_eq_nil in He' as [He1 He'].
  apply app_eq_nil in He' as [He2 He'].
  apply app_eq_nil in He' as [He3 He4].
  destruct (collected_check_devDependency "react"
              (strip_range_operator react) shown pv Hshown) as (_ & _ & Hr & _).
  destruct (collected_check_devDependency "react-dom"
              (strip_range_operator react_dom) shown pv Hshown) as (_ & _ & Hd & _).
  assert (pv = Str (strip_range_operator react)) as Hpv.
  { apply strict_neq_false.
    destruct (strict_neq (strip_range_operator react) pv) eqn:Hneq; [|done].
    apply strict_neq_true in Hneq. by rewrite (Hr Hneq) in He1. }
  assert (pv = Str (strip_range_operator react_dom)) as Hpv'.
  { apply strict_neq_false.
    destruct (strict_neq (strip_range_operator react_dom) pv) eqn:Hneq; [|done].
    apply strict_neq_true in Hneq. by rewrite (Hd Hneq) in He2. }
  exists (strip_range_operator react), react, react_dom.
  split; [by rewrite <- Hpv|]. split; [done|].
  split; [rewrite Hpv in Hpv'; by injection Hpv'|].
  split; [by apply check_installed_clean|].
  assert (∀ distFile, distFile ∈ distFiles →
    fs !! distFile ≠ Some Directory ∧
    ∀ ev, embedded_version fs distFile = Some ev → pv = Str ev) as Hfiles.
  { intros distFile Hin.
    destruct (for_of_returns fs pv distFiles 0 n Hloop distFile Hin) as [k Hk].
    apply (check_distFile_clean fs pv distFile k Hk).
    by apply (concat_map_nil _ _ He4). }
  split.
  - intros distFile Hin. by apply Hfiles.
  - intros distFile ev Hin Hev. destruct (Hfiles distFile Hin) as [_ Hsame].
    specialize (Hsame ev Hev). rewrite Hpv in Hsame. by injection Hsame.
Qed.

(** X2. Conversely, when the manifest declares a version that both bare
    constraints equal, the installed package is absent or at that version,
    and each of the four built files is absent or a file whose first line
    carries no version or that version, the run collects no Error and ends
    through [process.exit(0)]. *)
Theorem agreeing_files_pass `{Host} (fs : gmap string node)
    (version react react_dom : string) :
  manifest_declares fs (Str version) react react_dom →
  strip_range_operator react = version →
  strip_range_operator react_dom = version →
  installed_agrees fs version →
  (∀ distFile, distFile ∈ distFiles → fs !! distFile ≠ Some Directory) →
  (∀ distFile ev,
     distFile ∈ distFiles → embedded_version fs distFile = Some ev →
     ev = version) →
  (run fs).1 = Exited 0 ∧ errors (run fs).2 = [].
Proof.
  intros Hdecl Hr Hd Hinstalled Hdir Hev.
  destruct (scan_declared fs (Str version) react react_dom version Hdecl eq_refl)
    as (_ & Ho & He & _).
  cbv zeta in Ho, He. rewrite Hr in Ho, He. rewrite Hd in He.
  destruct (collected_check_devDependency "react" version version
              (Str version) eq_refl) as (_ & _ & _ & Hr').
  destruct (collected_check_devDependency "react-dom" version version
              (Str version) eq_refl) as (_ & _ & _ & Hd').
  rewrite Hr', Hd' in He by done. cbn [errors app] in He.
  destruct (check_installed_agrees fs version Hinstalled) as [Ho3 He3].
  destruct (for_of_agrees fs version distFiles 0 Hdir Hev) as (n & Hn & Hen).
  destruct (dist_summary_collected n) as (Hos & Hes & _).
  assert (∃ v, ((check_installed fs version;; check_dist fs (Str version);;
                 mret (Str version : value number)) fresh).1 = Returned v ∧
               errors (collected (check_installed fs version;;
                 check_dist fs (Str version);;
                 mret (Str version : value number))) = [])
    as (v & Hv & Hclean).
  { apply (bind_clean _ _ ()); try done.
    - apply logs_check_installed.
    - intros. apply logs_bind; [apply logs_check_dist|intros; apply logs_ret].
    - apply (bind_clean _ _ ()).
      + apply logs_check_dist.
      + intros. apply logs_ret.
      + unfold check_dist.
        rewrite (logs_then _ _ fresh (logs_console_log _)). cbn [fst].
        rewrite logs_then
          by (apply logs_for_of; intros; apply logs_check_distFile).
        rewrite Hn. destruct (logs_dist_summary n) as [Hsum _].
        rewrite Hsum. exact Hos.
      + unfold check_dist.
        rewrite collected_bind;
          [|apply logs_console_log
           |intros; apply logs_bind;
              [apply logs_for_of; intros; apply logs_check_distFile
              |apply logs_dist_summary]].
        cbn [fst console_log].
        rewrite collected_bind;
          [|apply logs_for_of; intros; apply logs_check_distFile
           |apply logs_dist_summary].
        rewrite Hn. unfold extend. cbn [errors]. by rewrite Hen, Hes.
      + by eexists. }
  rewrite Hv in Ho. rewrite Hclean in He.
  destruct (run_cases fs) as [(e & Ho' & _)|(pv & _ & Hrun)];
    [by rewrite Ho in Ho'|].
  assert (errors (run fs).2 = []) as Herr by by rewrite run_errors.
  split; [|done]. rewrite Hrun, report_passed; [done|]. exact He.
Qed.

(** ** Runs cut short after the manifest *)

(** X3. When the manifest loads but the installed-package descriptor is a
    directory, does not parse, parses to [null], or has a version that
    cannot be printed, the exception ends the run right after the two
    constraint checks: exit status 1, nothing printed beyond their lines,
    and the Errors they collected are not printed at all. *)
Theorem installed_fault_fatal `{Host} (fs : gmap string node)
    (packageVersion : value number) (react react_dom shown : string) (e : exn) :
  manifest_declares fs packageVersion react react_dom →
  ToString packageVersion = Some shown →
  installed_fault fs e →
  let reactDevDep := strip_range_operator react in
  let reactDomDevDep := strip_range_operator react_dom in
  let first := collected (check_devDependency "react" reactDevDep packageVersion) in
  let second :=
    collected (check_devDependency "react-dom" reactDomDevDep packageVersion) in
  run fs =
    (Thrown e,
     State (errors first ++ errors second) []
       ([ banner;
          "📦 package.json version: " +:+ shown;
          "📦 devDependencies.react: " +:+ reactDevDep;
          "📦 devDependencies.react-dom: " +:+ reactDomDevDep +:+ LF ]
          ++ stdout first ++ stdout second)) ∧
  exit_status (run fs).1 = 1 ∧
  (∀ m, m ∈ errors (run fs).2 → m ∉ stdout (run fs).2).
Proof.
  intros Hdecl Hshown Hfault r d first second.
  assert (((check_installed fs r;; check_dist fs packageVersion;;
            mret packageVersion) fresh) = (Thrown e, fresh)) as Hrest.
  { unfold mbind at 1, M_bind at 1.
    by rewrite (check_installed_fault fs r e fresh Hfault). }
  destruct (collected_check_devDependency "react" r shown packageVersion Hshown)
    as (_ & Hw1 & Hr & Hr').
  destruct (collected_check_devDependency "react-dom" d shown packageVersion Hshown)
    as (_ & Hw2 & Hd & Hd').
  assert (run fs =
    (Thrown e,
     State (errors first ++ errors second) []
       ([ banner;
          "📦 package.json version: " +:+ shown;
          "📦 devDependencies.react: " +:+ r;
          "📦 devDependencies.react-dom: " +:+ d +:+ LF ]
          ++ stdout first ++ stdout second))) as Hrun.
  { assert (collected (check_installed fs r;; check_dist fs packageVersion;;
                       mret packageVersion) = fresh) as Hcol
      by (unfold collected; by rewrite Hrest).
    rewrite run_scan. unfold collected at 1 2.
    rewrite (scan_declared_state fs packageVersion react react_dom shown
               Hdecl Hshown).
    fold r d. rewrite Hcol, Hrest. cbn [fst snd].
    fold first second. unfold extend. cbn [errors warnings stdout app fresh].
    fold first second in Hw1, Hw2.
    by rewrite Hw1, Hw2, !app_nil_r. }
  split; [done|]. rewrite Hrun. cbn [fst snd errors stdout exit_status].
  split; [done|]. intros m Hm Hout.
  assert (Forall (λ m, has_prefix "❌" m = true) (errors first ++ errors second))
    as Herr.
  { apply Forall_app. unfold first, second. split.
    - destruct (strict_neq r packageVersion) eqn:Hneq.
      + apply strict_neq_true in Hneq. rewrite (Hr Hneq).
        by apply Forall_singleton.
      + apply strict_neq_false in Hneq. by rewrite (Hr' Hneq).
    - destruct (strict_neq d packageVersion) eqn:Hneq.
      + apply strict_neq_true in Hneq. rewrite (Hd Hneq).
        by apply Forall_singleton.
      + apply strict_neq_false in Hneq. by rewrite (Hd' Hneq). }
  assert (Forall (λ l, has_prefix "❌" l = false)
            ([ banner;
               "📦 package.json version: " +:+ shown;
               "📦 devDependencies.react: " +:+ r;
               "📦 devDependencies.react-dom: " +:+ d +:+ LF ]
               ++ stdout first ++ stdout second)) as Hlines.
  { apply Forall_app. split.
    { repeat (apply Forall_cons; split; [reflexivity|]). constructor. }
    apply Forall_app. unfold first, second. split.
    - destruct (strict_neq r packageVersion) eqn:Hneq.
      + apply strict_neq_true in Hneq. by rewrite (Hr Hneq).
      + apply strict_neq_false in Hneq. rewrite (Hr' Hneq).
        by apply Forall_singleton.
    - destruct (strict_neq d packageVersion) eqn:Hneq.
      + apply strict_neq_true in Hneq. by rewrite (Hd Hneq).
      + apply strict_neq_false in Hneq. rewrite (Hd' Hneq).
        by apply Forall_singleton. }
  rewrite Forall_forall in Herr, Hlines.
  specialize (Herr m Hm). specialize (Hlines m Hout). congruence.
Qed.

(** X4. Once the manifest loads, exactly two things can still cut a run
    short: an unusable installed-package descriptor, or, failing that, a
    built-file path that is a directory, the first such path in the order
    of the loop giving the exception.  With neither, the run reaches the
    report and ends through [process.exit]. *)
Theorem fatal_causes `{Host} (fs : gmap string node)
    (packageVersion : value number) (react react_dom shown : string) (e : exn) :
  manifest_declares fs packageVersion react react_dom →
  ToString packageVersion = Some shown →
  ((run fs).1 = Thrown e ↔
   installed_fault fs e ∨
   ((∀ e', ¬ installed_fault fs e') ∧
    ∃ before distFile after,
      distFiles = before ++ distFile :: after ∧
      (∀ f, f ∈ before → fs !! f ≠ Some Directory) ∧
      fs !! distFile = Some Directory ∧
      e = EISDIR distFile)) ∧
  ((∀ e', ¬ installed_fault fs e') →
   (∀ f, f ∈ distFiles → fs !! f ≠ Some Directory) →
   ∃ code, (run fs).1 = Exited code).
Proof.
  exact (thrown_after_manifest fs packageVersion react react_dom shown e).
Qed.

(** ** How many diagnostics, and in what shape *)

Lemma well_paired_app (es es' : list string) :
  well_paired es → well_paired es' → well_paired (es ++ es').
Proof.
  intros Hes Hes'. induction Hes; cbn [app]; [done| | |].
  - by apply paired_devDependency.
  - by apply paired_installed.
  - by apply paired_dist.
Qed.

(** A line that starts in one way does not start in another. *)
Lemma has_prefix_exclusive (p q line : string) :
  has_prefix p q = false → has_prefix q p = false →
  has_prefix p line = true → has_prefix q line = false.
Proof.
  intros Hpq Hqp Hp. destruct (has_prefix q line) eqn:Hq; [|done].
  destruct (has_prefix_comparable p q line Hp Hq); congruence.
Qed.

Lemma hint_follows_alone (hint : string) (mismatch : string → bool)
    (msg : string) (es : list string) :
  msg ≠ hint → mismatch msg = false →
  hint_follows hint mismatch es → hint_follows hint mismatch (msg :: es).
Proof.
  intros Hne Hkind [Hback Hforth]. split.
  - intros [|i] Hi; cbn in Hi; [by injection Hi|].
    destruct (Hback i Hi) as (j & m & -> & Hj & Hm). by exists (S j), m.
  - intros [|j] m Hj Hm; cbn in Hj.
    + injection Hj as <-. congruence.
    + by apply (Hforth j m).
Qed.

Lemma hint_follows_pair (hint : string) (mismatch : string → bool)
    (msg : string) (es : list string) :
  mismatch msg = true → mismatch hint = false →
  hint_follows hint mismatch es →
  hint_follows hint mismatch (msg :: hint :: es).
Proof.
  intros Hkind Hhint [Hback Hforth]. split.
  - intros [|[|i]] Hi; cbn in Hi.
    + injection Hi as ->. congruence.
    + by exists 0, msg.
    + destruct (Hback i Hi) as (j & m & -> & Hj & Hm). by exists (S (S j)), m.
  - intros [|[|j]] m Hj Hm; cbn in Hj.
    + done.
    + injection Hj as <-. congruence.
    + by apply (Hforth j m).
Qed.

(** In a well-paired list the hints stand where they belong. *)
Lemma well_paired_hints (es : list string) :
  well_paired es →
  hint_follows "   💡 Run: npm install" installed_line es ∧
  hint_follows "   💡 Run: npm run build" dist_line es.
Proof.
  assert (∀ hint mismatch, hint_follows hint mismatch []) as Hnil.
  { intros hint mismatch. split; [by intros i Hi|by intros j m Hj]. }
  assert (∀ (kind : string → bool) msg hint,
    kind msg = true → kind hint = false → msg ≠ hint) as Hne.
  { intros kind msg hint Hmsg Hhint ->. congruence. }
  induction 1 as [|msg rest Hmsg _ [IHi IHb]|msg rest Hmsg _ [IHi IHb]
                 |msg rest Hmsg _ [IHi IHb]]; [by split|split..].
  - apply hint_follows_alone; [by apply (Hne devDependency_line)| |done].
    revert Hmsg. by apply has_prefix_exclusive.
  - apply hint_follows_alone; [by apply (Hne devDependency_line)| |done].
    revert Hmsg. by apply has_prefix_exclusive.
  - by apply hint_follows_pair.
  - apply hint_follows_alone; [by apply (Hne installed_line)| |].
    { revert Hmsg. by apply has_prefix_exclusive. }
    by apply hint_follows_alone.
  - apply hint_follows_alone; [by apply (Hne dist_line)| |].
    { revert Hmsg. by apply has_prefix_exclusive. }
    by apply hint_follows_alone.
  - by apply hint_follows_pair.
Qed.

(** The hint to rebuild behind an installed-package mismatch is no
    pairing. *)
Example wrong_hint_not_paired (shown devDep : string) :
  ¬ well_paired [installed_mismatch shown devDep; npm_build_hint].
Proof.
  intros [_ [Hbehind _]]%well_paired_hints.
  destruct (Hbehind 1 eq_refl) as (j & m & [= <-] & [= <-] & Hkind).
  discriminate.
Qed.

Section Bounds.
Context `{Host}.

#[local] Abbreviation value := (value number).

Lemma bounded_weaken {A : Type} (ke kw ke' kw' : nat) (step : M A) :
  bounded ke kw step → ke ≤ ke' → kw ≤ kw' → bounded ke' kw' step.
Proof.
  intros (? & ? & ? & ?) ? ?. split; [done|]. split; [done|]. split; lia.
Qed.

Lemma bounded_ret {A : Type} (a : A) : bounded 0 0 (mret a : M A).
Proof. split; [apply logs_ret|]. repeat split; by try constructor. Qed.

Lemma bounded_throw {A : Type} (e : exn) : bounded 0 0 (mthrow e : M A).
Proof. split; [apply logs_throw|]. repeat split; by try constructor. Qed.

Lemma bounded_console_log (line : string) : bounded 0 0 (console_log line).
Proof. split; [apply logs_console_log|]. repeat split; by try constructor. Qed.

Lemma bounded_warnings_push (msg : string) : bounded 0 1 (warnings_push msg).
Proof. split; [apply logs_warnings_push|]. repeat split; by try constructor. Qed.

Lemma bounded_bind {A B : Type} (ke1 kw1 ke2 kw2 : nat)
    (step : M A) (next : A → M B) :
  bounded ke1 kw1 step → (∀ a, bounded ke2 kw2 (next a)) →
  bounded (ke1 + ke2) (kw1 + kw2) (step ≫= next).
Proof.
  intros (Hlogs & Hp & He & Hw) Hnext.
  assert (∀ a, logs (next a)) as Hlogs' by (intros a; apply Hnext).
  split; [by apply logs_bind|]. rewrite collected_bind by done.
  destruct (step fresh).1 as [a| |]; [|split; [done|split; lia]..].
  destruct (Hnext a) as (_ & Hp' & He' & Hw'). unfold extend.
  cbn [errors warnings]. rewrite !length_app.
  split; [by apply well_paired_app|]. split; lia.
Qed.

Lemma bounded_quiet {A B : Type} (ke kw : nat) (step : M A) (next : A → M B) :
  bounded 0 0 step → (∀ a, bounded ke kw (next a)) →
  bounded ke kw (step ≫= next).
Proof. intros Hstep Hnext. by apply (bounded_bind 0 0 ke kw). Qed.

Lemma bounded_then_quiet {A B : Type} (ke kw : nat) (step : M A)
    (next : A → M B) :
  bounded ke kw step → (∀ a, bounded 0 0 (next a)) →
  bounded ke kw (step ≫= next).
Proof.
  intros Hstep Hnext.
  apply (bounded_weaken (ke + 0) (kw + 0)); [|lia..].
  by apply (bounded_bind ke kw 0 0).
Qed.

Lemma bounded_for_of {A B : Type} (ke kw : nat) (body : B → A → M B)
    (xs : list A) (acc : B) :
  (∀ b x, x ∈ xs → bounded ke kw (body b x)) →
  bounded (length xs * ke) (length xs * kw) (for_of body xs acc).
Proof.
  revert acc. induction xs as [|x xs IH]; intros acc Hbody.
  - apply bounded_ret.
  - cbn [for_of length Nat.mul]. apply bounded_bind.
    + apply Hbody. by left.
    + intros b. apply IH. intros b' x' Hx'. apply Hbody. by right.
Qed.

Lemma bounded_push_devDependency (name devDep shown : string) :
  bounded 1 0 (errors_push (devDependency_mismatch name devDep shown)).
Proof.
  split; [apply logs_errors_push|]. repeat split; try done.
  apply paired_devDependency; [reflexivity|apply paired_nil].
Qed.

Lemma bounded_push_installed (shown devDep : string) :
  bounded 2 0
    (errors_push (installed_mismatch shown devDep);; errors_push npm_install_hint).
Proof.
  split; [apply logs_bind; [|intros]; apply logs_errors_push|].
  repeat split; try done.
  apply (paired_installed (installed_mismatch shown devDep));
    [reflexivity|apply paired_nil].
Qed.

Lemma bounded_push_dist (distFile ev shown : string) :
  distFile ∈ distFiles →
  bounded 2 0
    (errors_push (dist_mismatch distFile ev shown);; errors_push npm_build_hint).
Proof.
  intros Hin.
  split; [apply logs_bind; [|intros]; apply logs_errors_push|].
  repeat split; try done.
  apply (paired_dist (dist_mismatch distFile ev shown)); [|apply paired_nil].
  revert ev shown. revert distFile Hin.
  by apply (elem_of_distFiles
    (λ f, ∀ ev shown, dist_line (dist_mismatch f ev shown) = true)).
Qed.

Lemma bounded_readFileSync (fs : gmap string node) (path : string) :
  bounded 0 0 (readFileSync fs path).
Proof.
  unfold readFileSync.
  destruct (fs !! path) as [[|]|]; (apply bounded_ret || apply bounded_throw).
Qed.

Lemma bounded_parse (text : string) : bounded 0 0 (parse text).
Proof.
  unfold parse.
  destruct (JSON_parse text); (apply bounded_ret || apply bounded_throw).
Qed.

Lemma bounded_template (v : value) : bounded 0 0 (template v).
Proof.
  unfold template.
  destruct (ToString v); (apply bounded_ret || apply bounded_throw).
Qed.

Lemma bounded_Get (v : value) (key : string) : bounded 0 0 (Get v key).
Proof. destruct v; (apply bounded_ret || apply bounded_throw). Qed.

Lemma bounded_replace_range_operator (v : value) :
  bounded 0 0 (replace_range_operator v).
Proof. destruct v; (apply bounded_ret || apply bounded_throw). Qed.

Ltac quiet :=
  repeat first
    [ apply bounded_readFileSync
    | apply bounded_parse
    | apply bounded_template
    | apply bounded_Get
    | apply bounded_replace_range_operator
    | apply bounded_console_log
    | apply bounded_ret
    | apply bounded_quiet; [|intros] ].

Lemma bounded_load_manifest (fs : gmap string node) :
  bounded 0 0 (load_manifest fs).
Proof. unfold load_manifest. quiet. Qed.

Lemma bounded_check_devDependency (name devDep : string) (pv : value) :
  bounded 1 0 (check_devDependency name devDep pv).
Proof.
  unfold check_devDependency. destruct (strict_neq devDep pv).
  - apply bounded_quiet; [apply bounded_template|intros shown].
    apply bounded_push_devDependency.
  - apply (bounded_weaken 0 0); [apply bounded_console_log|lia..].
Qed.

Lemma bounded_check_installed (fs : gmap string node) (r : string) :
  bounded 2 0 (check_installed fs r).
Proof.
  unfold check_installed. cbv zeta.
  destruct (existsSync fs "node_modules/react/package.json");
    [|apply (bounded_weaken 0 0); [apply bounded_ret|lia..]].
  apply bounded_quiet; [apply bounded_readFileSync|intros text].
  apply bounded_quiet; [apply bounded_parse|intros installedReact].
  apply bounded_quiet; [apply bounded_Get|intros installedVersion].
  apply bounded_quiet; [apply bounded_template|intros shown].
  apply bounded_quiet; [apply bounded_console_log|intros _].
  destruct (strict_neq r installedVersion).
  - apply bounded_quiet; [apply bounded_template|intros shown'].
    apply bounded_push_installed.
  - apply (bounded_weaken 0 0); [apply bounded_console_log|lia..].
Qed.

Lemma bounded_check_distFile (fs : gmap string node) (pv : value) (n : nat)
    (distFile : string) :
  distFile ∈ distFiles →
  bounded 2 1 (check_distFile fs pv n distFile).
Proof.
  intros Hin. unfold check_distFile.
  destruct (existsSync fs distFile);
    [|apply (bounded_weaken 0 0); [apply bounded_ret|lia..]].
  apply bounded_quiet; [apply bounded_readFileSync|intros content]. cbv zeta.
  destruct (match_version (first_line content)) as [ev|].
  - apply bounded_quiet; [apply bounded_console_log|intros _].
    apply bounded_then_quiet; [|intros; apply bounded_ret].
    destruct (strict_neq ev pv).
    + apply bounded_quiet; [apply bounded_template|intros shown].
      apply (bounded_weaken 2 0); [by apply bounded_push_dist|lia..].
    + apply (bounded_weaken 0 0); [apply bounded_ret|lia..].
  - apply bounded_then_quiet; [|intros; apply bounded_ret].
    apply (bounded_weaken 0 1); [apply bounded_warnings_push|lia..].
Qed.

Lemma bounded_dist_summary (n : nat) : bounded 0 1 (dist_summary n).
Proof.
  unfold dist_summary. destruct (Nat.eqb n (length distFiles)).
  - apply (bounded_weaken 0 0); [apply bounded_console_log|lia..].
  - destruct (Nat.eqb n 0); [apply bounded_warnings_push|].
    apply (bounded_weaken 0 0); [apply bounded_ret|lia..].
Qed.

Lemma bounded_check_dist (fs : gmap string node) (pv : value) :
  bounded 8 5 (check_dist fs pv).
Proof.
  unfold check_dist.
  apply bounded_quiet; [apply bounded_console_log|intros _].
  apply (bounded_bind (length distFiles * 2) (length distFiles * 1) 0 1).
  - apply bounded_for_of. intros n distFile Hin.
    by apply bounded_check_distFile.
  - apply bounded_dist_summary.
Qed.

Lemma bounded_scan (fs : gmap string node) : bounded 12 5 (scan fs).
Proof.
  unfold scan. apply bounded_quiet; [apply bounded_load_manifest|].
  intros [[pv r] d].
  apply (bounded_bind 1 0 11 5); [apply bounded_check_devDependency|intros _].
  apply (bounded_bind 1 0 10 5); [apply bounded_check_devDependency|intros _].
  apply (bounded_bind 2 0 8 5); [apply bounded_check_installed|intros _].
  apply bounded_then_quiet; [apply bounded_check_dist|intros; apply bounded_ret].
Qed.

End Bounds.

(** X5. Whatever the files, and however the run ends, it collects at most
    twelve Errors and five Warnings, and its Errors are dependency
    mismatches standing alone, installed-package mismatches each followed
    by the hint to reinstall, and built-file mismatches each followed by
    the hint to rebuild.  By position: [npm install] stands only right
    behind an installed-package mismatch and [npm run build] only right
    behind a built-file mismatch, and each such mismatch has its hint
    right behind. *)
Theorem diagnostics_well_paired `{Host} (fs : gmap string node) :
  well_paired (errors (run fs).2) ∧
  hint_follows "   💡 Run: npm install" installed_line (errors (run fs).2) ∧
  hint_follows "   💡 Run: npm run build" dist_line (errors (run fs).2) ∧
  length (errors (run fs).2) ≤ 12 ∧
  length (warnings (run fs).2) ≤ 5.
Proof.
  rewrite run_errors, run_warnings.
  destruct (bounded_scan fs) as (_ & Hpaired & ? & ?).
  destruct (well_paired_hints _ Hpaired) as [Hinstall Hbuild].
  split; [done|]. split; [done|]. split; [done|]. by split.
Qed.

(** ** The Warnings of a run *)

Section Warnings.
Context `{Host}.

#[local] Abbreviation value := (value number).

Lemma check_distFile_count (fs : gmap string node) (pv : value) (n n' : nat)
    (distFile : string) :
  (check_distFile fs pv n distFile fresh).1 = Returned n' →
  n' = n + length (versioned_files fs [distFile]) ∧
  warnings (collected (check_distFile fs pv n distFile)) =
    map no_version_warning (filter (λ f, unversioned fs f) [distFile]).
Proof.
  unfold versioned_files. rewrite !filter_cons, !filter_nil.
  assert (embedded_version fs distFile =
            match fs !! distFile with
            | Some (File content) => match_version (first_line content)
            | _ => None
            end) as Hev by done.
  assert (unversioned fs distFile =
            match fs !! distFile with
            | Some (File content) =>
                match match_version (first_line content) with
                | Some _ => false
                | None => true
                end
            | _ => false
            end) as Hun by done.
  unfold collected, check_distFile, existsSync, readFileSync, template,
    mbind, M_bind.
  destruct (fs !! distFile) as [[content|]|] eqn:Hfs.
  - rewrite bool_decide_eq_true_2 by eauto. cbn [mret M_ret]. cbv zeta.
    destruct (match_version (first_line content)) as [ev|].
    + cbn [console_log]. rewrite decide_True by (rewrite Hev; eauto).
      rewrite decide_False by (rewrite Hun; by intros []).
      destruct (strict_neq ev pv); [destruct (ToString pv)|];
        cbn; try done; intros [= <-]; (split; [lia|done]).
    + rewrite decide_False by (rewrite Hev; by intros [? ?]).
      rewrite decide_True by (by rewrite Hun).
      cbn. intros [= <-]. split; [lia|done].
  - by rewrite bool_decide_eq_true_2 by eauto.
  - rewrite bool_decide_eq_false_2 by by intros [? ?].
    rewrite decide_False by (rewrite Hev; by intros [? ?]).
    rewrite decide_False by (rewrite Hun; by intros []).
    cbn. intros [= <-]. split; [lia|done].
Qed.

Lemma for_of_count (fs : gmap string node) (pv : value) (files : list string)
    (n m : nat) :
  (for_of (check_distFile fs pv) files n fresh).1 = Returned m →
  m = n + length (versioned_files fs files) ∧
  warnings (collected (for_of (check_distFile fs pv) files n)) =
    map no_version_warning (filter (λ f, unversioned fs f) files).
Proof.
  revert n. induction files as [|f files IH]; intros n Hm.
  { cbn in Hm. injection Hm as <-. split; [cbn; lia|done]. }
  cbn [for_of] in *.
  assert (∀ b, logs (for_of (check_distFile fs pv) files b)) as Hloop.
  { intros b. apply logs_for_of. intros. apply logs_check_distFile. }
  rewrite collected_bind by (done || apply logs_check_distFile).
  rewrite (logs_then _ _ fresh (logs_check_distFile fs pv n f)) in Hm.
  destruct (check_distFile fs pv n f fresh).1 as [n'| |] eqn:Ho; try done.
  destruct (check_distFile_count fs pv n n' f Ho) as [-> Hw].
  destruct (Hloop (n + length (versioned_files fs [f]))) as [Hn' _].
  rewrite Hn' in Hm. cbn [fst] in Hm.
  destruct (IH _ Hm) as [-> Hws].
  unfold extend. cbn [warnings]. rewrite Hw, Hws.
  change (f :: files) with ([f] ++ files).
  unfold versioned_files. rewrite !filter_app, map_app, length_app.
  split; [|done]. unfold versioned_files. lia.
Qed.

End Warnings.

(** X6. On a run that reaches the report the Warnings are exactly these:
    one "could not extract version" for each of the four built files that
    is there without a version in its first line, in the order of the
    loop, and after them "no dist files found" when no built file yielded
    a version. *)
Theorem warnings_of_run `{Host} (fs : gmap string node) (code : nat) :
  (run fs).1 = Exited code →
  warnings (run fs).2 =
    map no_version_warning (filter (λ f, unversioned fs f) distFiles) ++
    (if decide (versioned_files fs distFiles = []) then [no_dist_warning] else []).
Proof.
  intros Hexit. rewrite run_warnings.
  assert (∃ v, (scan fs fresh).1 = Returned v) as [v Ho].
  { rewrite run_scan in Hexit. destruct (logs_scan fs) as [_ Hne].
    destruct (scan fs fresh).1 as [v|e|code'];
      [by exists v|by cbn [fst] in Hexit|by destruct (Hne code')]. }
  assert (∃ pv r d st, load_manifest fs fresh = (Returned (pv, r, d), st))
    as (pv & r & d & st & Hload).
  { unfold scan in Ho. unfold mbind at 1, M_bind at 1 in Ho.
    destruct (load_manifest fs fresh) as [[[[pv r] d]| |] st]; try done.
    by exists pv, r, d, st. }
  apply load_manifest_returns
    in Hload as (react & react_dom & shown & Hdecl & Hshown & -> & ->).
  destruct (scan_declared fs pv react react_dom shown Hdecl Hshown)
    as (_ & Ho' & _ & Hw).
  rewrite Hw. rewrite Ho in Ho'. symmetry in Ho'. clear Hw.
  set (r := strip_range_operator react) in *.
  destruct (rest_returns fs r pv v Ho') as [Ho3 [n Hn]].
  destruct (for_of_count fs pv distFiles 0 n Hn) as [-> Hws].
  assert (∀ k, logs (for_of (check_distFile fs pv) distFiles k)) as Hloop.
  { intros k. apply logs_for_of. intros. apply logs_check_distFile. }
  rewrite collected_bind
    by (apply logs_check_installed ||
        (intros; apply logs_bind; [apply logs_check_dist|intros; apply logs_ret])).
  rewrite Ho3.
  rewrite collected_bind by (apply logs_check_dist || (intros; apply logs_ret)).
  assert ((check_dist fs pv fresh).1 = Returned ()) as Ho4.
  { unfold check_dist.
    rewrite (logs_then _ _ fresh (logs_console_log _)). cbn [fst].
    rewrite (logs_then _ _ _ (Hloop 0)), Hn.
    destruct (logs_dist_summary (0 + length (versioned_files fs distFiles)))
      as [Hsum _].
    rewrite Hsum. by destruct (dist_summary_collected
      (0 + length (versioned_files fs distFiles))) as (-> & _). }
  rewrite Ho4. unfold check_dist.
  rewrite collected_bind
    by (apply logs_console_log ||
        (intros; apply logs_bind; [apply Hloop|apply logs_dist_summary])).
  cbn [fst console_log].
  rewrite collected_bind by (apply Hloop || apply logs_dist_summary).
  rewrite Hn. unfold extend. cbn [warnings].
  rewrite check_installed_no_warning, Hws.
  change (warnings (collected (mret pv))) with ([] : list string).
  cbn [app collected console_log warnings snd fresh]. rewrite app_nil_r.
  f_equal.
  assert (length (versioned_files fs distFiles) ≤ 4) as Hle.
  { unfold versioned_files.
    etrans; [apply length_filter|]. done. }
  unfold collected, dist_summary. cbn [Nat.add].
  destruct (versioned_files fs distFiles) as [|f fl] eqn:Hv.
  - by rewrite decide_True.
  - rewrite decide_False by done. cbn [length] in *.
    destruct (Nat.eqb_spec (S (length fl)) (length distFiles)); [done|].
    done.
Qed.

(** ** A declared version that is not a string *)

(** X7. A manifest whose [version] is anything but a string never passes;
    what happens depends on whether a template literal can print the
    value.  When it can (no [version] at all, [null], a boolean, a number,
    an object without a [toString] of its own, an array of such values),
    both constraint checks fail whatever the constraints are: the Errors
    of the run start with the two mismatches, each naming its dependency
    and showing the bare constraint and the printed version.  When it
    cannot, as for an object with a [toString] property of its own, the
    [TypeError] ends the run where the version is first printed: only the
    opening line is out and nothing is collected.  The exit status is 1
    either way. *)
Theorem nonstring_version_fails `{Host} (fs : gmap string node)
    (packageVersion : value number) (react react_dom : string) :
  manifest_declares fs packageVersion react react_dom →
  (∀ s, packageVersion ≠ Str s) →
  let reactDevDep := strip_range_operator react in
  let reactDomDevDep := strip_range_operator react_dom in
  exit_status (run fs).1 = 1 ∧
  match ToString packageVersion with
  | Some shown =>
      ∃ first second later,
        errors (run fs).2 = first :: second :: later ∧
        first = "❌ devDependencies.react (" +:+ reactDevDep
                  +:+ ") doesn't match package version (" +:+ shown +:+ ")" ∧
        second = "❌ devDependencies.react-dom (" +:+ reactDomDevDep
                   +:+ ") doesn't match package version (" +:+ shown +:+ ")" ∧
        names_devDependency "react" first = true ∧
        shows_both reactDevDep shown first ∧
        names_devDependency "react-dom" second = true ∧
        shows_both reactDomDevDep shown second
  | None => run fs = (Thrown TypeError, State [] [] [banner])
  end ∧
  (∀ properties,
     packageVersion = Obj properties →
     (is_Some (properties !! "toString") →
      run fs = (Thrown TypeError, State [] [] [banner])) ∧
     (properties !! "toString" = None →
      ∃ later,
        errors (run fs).2 =
          ("❌ devDependencies.react (" +:+ reactDevDep
             +:+ ") doesn't match package version ([object Object])") ::
          ("❌ devDependencies.react-dom (" +:+ reactDomDevDep
             +:+ ") doesn't match package version ([object Object])") ::
          later)).
Proof.
  intros Hdecl Hnot r d.
  assert (match ToString packageVersion with
          | Some shown =>
              ∃ later,
                errors (run fs).2 =
                  devDependency_mismatch "react" r shown ::
                  devDependency_mismatch "react-dom" d shown :: later
          | None => run fs = (Thrown TypeError, State [] [] [banner])
          end) as Hrun.
  { destruct (ToString packageVersion) as [shown|] eqn:Hshown.
    - destruct (scan_declared fs packageVersion react react_dom shown Hdecl Hshown)
        as (_ & _ & He & _).
      destruct (collected_check_devDependency "react" r shown packageVersion Hshown)
        as (_ & _ & Hr & _).
      destruct (collected_check_devDependency "react-dom" d shown packageVersion
                  Hshown) as (_ & _ & Hd & _).
      fold r d in He. rewrite Hr, Hd in He by apply Hnot. cbn [errors app] in He.
      rewrite run_errors, He. eauto.
    - unfold run, validateVersions.
      unfold mbind at 1 2 3, M_bind at 1 2 3. simpl.
      unfold mbind at 1, M_bind at 1.
      by rewrite (load_manifest_unprintable fs packageVersion react react_dom). }
  split; [|split].
  - destruct (ToString packageVersion) as [shown|].
    + destruct Hrun as [later He]. apply run_failure. by rewrite He.
    + by rewrite Hrun.
  - destruct (ToString packageVersion) as [shown|]; [|done].
    destruct Hrun as [later He].
    exists (devDependency_mismatch "react" r shown),
      (devDependency_mismatch "react-dom" d shown), later.
    split; [done|]. split; [done|]. split; [done|].
    destruct (devDependency_mismatch_shows "react" r shown).
    by destruct (devDependency_mismatch_shows "react-dom" d shown).
  - intros properties ->. cbn [ToString] in Hrun. split.
    + intros [v Hv]. by rewrite Hv in Hrun.
    + intros Hv. by rewrite Hv in Hrun.
Qed.

(** ** The leftmost, longest match *)

(** X8. The version taken from a line is that of the leftmost place where
    [v] is followed by three dot-separated groups of digits, with the last
    group as long as it can be: [match_version] answers [ver] exactly when
    the line reads [pre v ver post] with [ver] such a version, no digit at
    the start of [post], and no earlier [v] in the line followed by such a
    version. *)
Theorem match_version_leftmost (line ver : string) :
  match_version line = Some ver ↔
  ∃ pre post,
    line = pre +:+ "v" +:+ ver +:+ post ∧
    semver ver ∧
    no_digit_ahead post ∧
    ∀ pre' rest,
      line = pre' +:+ "v" +:+ rest →
      String.length pre' < String.length pre →
      ¬ semver_at rest.
Proof.
  split; [apply match_version_first|apply match_version_of_leftmost].
Qed.

(** ** The confirmation of the built files *)

Lemma length_filter_all {A : Type} (P : A → Prop) `{∀ x, Decision (P x)}
    (l : list A) :
  length (filter P l) = length l ↔ ∀ x, x ∈ l → P x.
Proof.
  split.
  - intros Hlen x Hx. destruct (decide (P x)) as [|Hnot]; [done|].
    pose proof (length_filter_lt P l x Hx Hnot). lia.
  - intros Hall. induction l as [|a l IH]; [done|].
    rewrite filter_cons_True by (apply Hall; by left). cbn [length].
    f_equal. apply IH. intros x Hx. apply Hall. by right.
Qed.

Section Confirmation.
Context `{Host}.

#[local] Abbreviation value := (value number).

Lemma emits_scan_other (fs : gmap string node) :
  emits other_line other_line (λ _, True) (scan fs).
Proof.
  unfold scan. apply emits_bind.
  { unfold load_manifest. emits_script; done. }
  intros [[pv r] d].
  apply emits_bind; [by apply emits_check_devDependency|intros _].
  apply emits_bind; [by apply emits_check_devDependency|intros _].
  apply emits_bind; [by apply emits_check_installed|intros _].
  apply emits_bind; [|intros _; apply emits_ret].
  by apply emits_check_dist.
Qed.

Lemma dist_summary_stdout (n : nat) :
  n ≤ length distFiles →
  (dist_confirmation ∈ stdout (collected (dist_summary n)) ↔
   n = length distFiles) ∧
  ∀ line, line ∈ stdout (collected (dist_summary n)) → line = dist_confirmation.
Proof.
  intros Hn. unfold collected, dist_summary.
  destruct (Nat.eqb_spec n (length distFiles)) as [->|Hne].
  - cbn. split; [split; [done|intros _; by left]|].
    by intros line ->%list_elem_of_singleton.
  - destruct (Nat.eqb n 0); cbn;
      (split; [split; [by intros ?%elem_of_nil|done]|by intros ? ?%elem_of_nil]).
Qed.

(** What is printed before the summary of the built files is never the
    confirmation. *)
Lemma scan_stdout (fs : gmap string node) (pv v : value)
    (react react_dom shown : string) :
  manifest_declares fs pv react react_dom →
  ToString pv = Some shown →
  (scan fs fresh).1 = Returned v →
  ∃ before,
    Forall other_line before ∧
    stdout (collected (scan fs)) =
      before ++
      stdout (collected (dist_summary (length (versioned_files fs distFiles)))).
Proof.
  intros Hdecl Hshown Ho.
  set (r := strip_range_operator react).
  set (d := strip_range_operator react_dom).
  pose proof (scan_declared_state fs pv react react_dom shown Hdecl Hshown)
    as Hscan. cbv zeta in Hscan. fold r d in Hscan.
  assert (((check_installed fs r;; check_dist fs pv;; mret pv) fresh).1
            = Returned v) as Ho' by by rewrite Hscan in Ho.
  destruct (rest_returns fs r pv v Ho') as [Ho3 [n Hn]].
  destruct (for_of_count fs pv distFiles 0 n Hn) as [-> _].
  assert (∀ k, logs (for_of (check_distFile fs pv) distFiles k)) as Hloop.
  { intros k. apply logs_for_of. intros. apply logs_check_distFile. }
  assert ((check_dist fs pv fresh).1 = Returned ()) as Ho4.
  { unfold check_dist.
    rewrite (logs_then _ _ fresh (logs_console_log _)). cbn [fst].
    rewrite (logs_then _ _ _ (Hloop 0)), Hn.
    destruct (logs_dist_summary (0 + length (versioned_files fs distFiles)))
      as [Hsum _].
    rewrite Hsum. by destruct (dist_summary_collected
      (0 + length (versioned_files fs distFiles))) as (-> & _). }
  assert (collected (scan fs) = (scan fs fresh).2) as -> by done.
  rewrite Hscan. cbn [snd].
  rewrite collected_bind
    by (apply logs_check_installed ||
        (intros; apply logs_bind; [apply logs_check_dist|intros; apply logs_ret])).
  rewrite Ho3.
  rewrite collected_bind by (apply logs_check_dist || (intros; apply logs_ret)).
  rewrite Ho4. unfold check_dist.
  rewrite collected_bind
    by (apply logs_console_log ||
        (intros; apply logs_bind; [apply Hloop|apply logs_dist_summary])).
  cbn [fst console_log].
  rewrite collected_bind by (apply Hloop || apply logs_dist_summary).
  rewrite Hn. cbn [Nat.add].
  destruct (emits_check_devDependency (λ _, True) (λ _, True) other_line
              "react" r pv) as (_ & _ & _ & H1); [done..|].
  destruct (emits_check_devDependency (λ _, True) (λ _, True) other_line
              "react-dom" d pv) as (_ & _ & _ & H2); [done..|].
  destruct (emits_check_installed (λ _, True) (λ _, True) other_line fs r)
    as (_ & _ & _ & H3); [done..|].
  assert (emits (λ _, True) (λ _, True) other_line
            (for_of (check_distFile fs pv) distFiles 0)) as (_ & _ & _ & H4).
  { apply emits_for_of. intros k f Hf. by apply emits_check_distFile. }
  unfold extend. cbn [stdout].
  change (stdout (collected (mret pv))) with ([] : list string).
  rewrite app_nil_r, !app_assoc.
  eexists. split; [|reflexivity].
  rewrite !Forall_app. repeat split; try done.
  - repeat (apply Forall_cons; split; [reflexivity|]). constructor.
  - unfold collected. cbn [console_log snd stdout fresh app].
    by apply Forall_singleton.
Qed.

End Confirmation.

(** X9. On a run that reaches the report, the line confirming that all
    dist files have correct versions is printed exactly when each of the
    four built files is there with a version in its first line, whether
    or not those versions are the declared one. *)
Theorem confirmation_printed `{Host} (fs : gmap string node) (code : nat) :
  (run fs).1 = Exited code →
  (dist_confirmation ∈ stdout (run fs).2 ↔
   ∀ distFile, distFile ∈ distFiles → is_Some (embedded_version fs distFile)).
Proof.
  intros Hexit.
  assert (∃ v, (scan fs fresh).1 = Returned v) as [v Ho].
  { rewrite run_scan in Hexit. destruct (logs_scan fs) as [_ Hne].
    destruct (scan fs fresh).1 as [v|e|code'];
      [by exists v|by cbn [fst] in Hexit|by destruct (Hne code')]. }
  assert (∃ pv r d st, load_manifest fs fresh = (Returned (pv, r, d), st))
    as (pv & r & d & st0 & Hload).
  { unfold scan in Ho. unfold mbind at 1, M_bind at 1 in Ho.
    destruct (load_manifest fs fresh) as [[[[pv r] d]| |] st0]; try done.
    by exists pv, r, d, st0. }
  apply load_manifest_returns
    in Hload as (react & react_dom & shown & Hdecl & Hshown & -> & ->).
  destruct (scan_stdout fs pv v react react_dom shown Hdecl Hshown Ho)
    as (before & Hbefore & Hstdout).
  assert (length (versioned_files fs distFiles) ≤ length distFiles) as Hle
    by apply length_filter.
  destruct (dist_summary_stdout _ Hle) as [Hsummary _].
  destruct (emits_scan_other fs) as (_ & Herrors & Hwarnings & _).
  rewrite <- (length_filter_all (λ f, is_Some (embedded_version fs f))).
  fold (versioned_files fs distFiles). rewrite <- Hsummary.
  set (st := extend (State [] [] [banner]) (collected (scan fs))).
  assert (stdout st =
    (banner :: before) ++
    stdout (collected (dist_summary (length (versioned_files fs distFiles)))))
    as Hst by (unfold st, extend; cbn [stdout app]; by rewrite Hstdout).
  assert (∃ after, Forall other_line after ∧
                   stdout (run fs).2 = stdout st ++ after)
    as (after & Hafter & ->).
  { rewrite run_scan, Ho. fold st.
    destruct (errors st) as [|m ms] eqn:He.
    - rewrite (report_passed st He). cbn [snd stdout]. eexists. split; [|done].
      apply Forall_cons. split; [done|]. apply Forall_app. split.
      + destruct (warnings st) eqn:Hw; [done|].
        apply Forall_cons. split; [done|]. rewrite <- Hw. exact Hwarnings.
      + by apply Forall_singleton.
    - rewrite (report_failed st) by by rewrite He.
      cbn [snd stdout]. eexists. split; [|done].
      apply Forall_cons. split; [done|]. apply Forall_cons. split; [done|].
      exact Herrors. }
  rewrite Hst, !elem_of_app, elem_of_cons.
  rewrite Forall_forall in Hbefore, Hafter.
  split; [|by auto].
  intros [[[Hbanner|Hin]|Hin]|Hin]; [by subst| |done|].
  - by specialize (Hbefore _ Hin).
  - by specialize (Hafter _ Hin).
Qed.

(** ** A project that was never installed nor built *)

(** X10. With a manifest whose two constraints, operator stripped, equal
    its version, no [node_modules/react] and none of the four built
    files, the run passes: it prints the three values, the two constraint
    confirmations, and reports the single Warning that no dist files were
    found, with exit status 0. *)
Theorem unbuilt_project_passes `{Host} (fs : gmap string node)
    (version react react_dom : string) :
  manifest_declares fs (Str version) react react_dom →
  strip_range_operator react = version →
  strip_range_operator react_dom = version →
  fs !! "node_modules/react/package.json" = None →
  (∀ distFile, distFile ∈ distFiles → fs !! distFile = None) →
  run fs =
    (Exited 0,
     State [] [no_dist_warning]
       [ banner;
         "📦 package.json version: " +:+ version;
         "📦 devDependencies.react: " +:+ version;
         "📦 devDependencies.react-dom: " +:+ version +:+ LF;
         "✅ devDependencies.react matches package version";
         "✅ devDependencies.react-dom matches package version";
         LF +:+ "📦 Checking built dist files...";
         separator;
         warnings_header;
         no_dist_warning;
         passed_line ]).
Proof.
  intros Hdecl Hr Hd Hinstalled Hdist.
  pose proof (scan_declared_state fs (Str version) react react_dom version
                Hdecl eq_refl) as Hscan.
  cbv zeta in Hscan. rewrite Hr, Hd in Hscan.
  assert ((check_installed fs version;; check_dist fs (Str version);;
           mret (Str version : value number)) fresh =
          (Returned (Str version),
           State [] [no_dist_warning] [LF +:+ "📦 Checking built dist files..."]))
    as Hrest.
  { unfold mbind at 1, M_bind at 1.
    rewrite (check_installed_absent fs version fresh Hinstalled).
    unfold check_dist, distFiles, mbind, M_bind. cbn [console_log for_of].
    unfold mbind, M_bind.
    rewrite !check_distFile_absent
      by (apply Hdist; unfold distFiles; set_solver).
    reflexivity. }
  unfold collected in Hscan at 3. rewrite Hrest in Hscan.
  unfold collected in Hscan.
  rewrite !check_devDependency_match in Hscan.
  rewrite run_scan. unfold collected. rewrite Hscan. cbn [fst snd].
  rewrite report_passed by done. reflexivity.
Qed.

(** * The properties on the sample files *)

Import Fragment Sample.

Ltac declares :=
  eexists _, _; split; [reflexivity|]; split; [vm_compute; reflexivity|];
  repeat split; try discriminate; vm_compute; reflexivity.

Lemma consistent_declares :
  manifest_declares consistent (Str "19.2.0") "^19.2.0" "^19.2.0".
Proof. declares. Defined.

Lemma loose_react_dom_declares :
  manifest_declares loose_react_dom (Str "19.2.0") "^19.2.0" ">=19.2.0".
Proof. declares. Defined.


Lemma versionless_declares :
  manifest_declares versionless Undefined "^19.2.0" "^19.2.0".
Proof. declares. Defined.

(** C1. A built file that exists but carries no version in its first line
    is not counted: the run warns that the version could not be extracted
    and then that no dist files were found. *)
Theorem unversioned_build_counts_as_missing :
  existsSync unversioned_build "dist/react.development.js" = true ∧
  (run unversioned_build).1 = Exited 0 ∧
  errors (run unversioned_build).2 = [] ∧
  warnings (run unversioned_build).2 =
    [ no_version_warning "dist/react.development.js"; no_dist_warning ].
Proof. vm_compute. by repeat split. Qed.

Lemma exit_status_counterexample :
  errors (run empty_project).2 = [] ∧
  exit_status (run empty_project).1 = 1 ∧
  ¬ (exit_status (run empty_project).1 = 0 ↔ errors (run empty_project).2 = []).
Proof.
  split; [done|]. split; [done|]. intros [_ Hzero].
  by specialize (Hzero eq_refl).
Qed.

Lemma exit_status_verdict_witness :
  errors (run loose_react_dom).2 ≠ [] ∧
  exit_status (run loose_react_dom).1 = 1 ∧
  (run empty_project).1 = Thrown (ENOENT "package.json") ∧
  exit_status (run empty_project).1 = 1 ∧
  exit_status (run consistent).1 = 0.
Proof.
  assert (errors (run loose_react_dom).2 ≠ []) as Hne by (vm_compute; discriminate).
  assert ((run empty_project).1 = Thrown (ENOENT "package.json")) as Hthrown
    by reflexivity.
  destruct (exit_status_verdict loose_react_dom) as (_ & Hfail & _).
  destruct (exit_status_verdict empty_project) as (_ & _ & Hfatal & _).
  destruct (exit_status_verdict consistent) as (Hzero & _).
  split; [done|]. split; [by apply Hfail|]. split; [done|].
  split; [by apply (Hfatal _ Hthrown)|].
  apply Hzero. split; [vm_compute; reflexivity|]. intros e. vm_compute. discriminate.
Defined.

Lemma devDependency_compared_witness :
  manifest_declares loose_react_dom (Str "19.2.0") "^19.2.0" ">=19.2.0" ∧
  ToString (Str "19.2.0" : value Z) = Some "19.2.0" ∧
  "❌ devDependencies.react-dom (=19.2.0) doesn't match package version (19.2.0)"
    ∈ errors (run loose_react_dom).2 ∧
  exit_status (run loose_react_dom).1 = 1 ∧
  (∀ msg, msg ∈ errors (run loose_react_dom).2 →
     names_devDependency "react" msg = false).
Proof.
  split; [exact loose_react_dom_declares|]. split; [reflexivity|].
  destruct (@devDependency_compared host loose_react_dom (Str "19.2.0")
              "^19.2.0" ">=19.2.0" "19.2.0" loose_react_dom_declares eq_refl)
    as (_ & Hdom & Hreact & _).
  destruct Hdom as (Hexit & msg & Hin & Hmsg & _); [vm_compute; discriminate|].
  destruct Hreact as (_ & _ & Hnone); [reflexivity|].
  split; [by rewrite Hmsg in Hin|]. split; [exact Hexit|exact Hnone].
Defined.

Lemma strip_range_operator_once_witness :
  is_range_operator ">" = true ∧ is_range_operator "=" = true ∧
  strip_range_operator "19.2.0" = "19.2.0" ∧
  manifest_declares loose_react_dom (Str "19.2.0") "^19.2.0" ">=19.2.0" ∧
  strip_range_operator ">=19.2.0" = "=19.2.0" ∧
  strip_range_operator ">=19.2.0" ≠ "19.2.0" ∧
  devDependency_mismatch "react-dom" "=19.2.0" "19.2.0"
    ∈ errors (run loose_react_dom).2.
Proof.
  destruct strip_range_operator_once as (_ & _ & Hrun).
  destruct (Hrun host loose_react_dom ">"%char "="%char "19.2.0" "^19.2.0" "19.2.0"
              eq_refl eq_refl eq_refl) as (Hstrip & Hneq & _ & Hdom).
  split; [reflexivity|]. split; [reflexivity|]. split; [reflexivity|].
  split; [exact loose_react_dom_declares|]. split; [exact Hstrip|].
  split; [exact Hneq|]. exact (Hdom loose_react_dom_declares).
Defined.

Lemma strip_range_operator_leading_witness :
  ("<"%char ∈ range_operators) ∧
  strip_range_operator "<19.2.0" = "19.2.0" ∧
  ("1"%char ∉ range_operators) ∧
  strip_range_operator "19.2.0" = "19.2.0".
Proof.
  destruct strip_range_operator_leading as (Hstripped & Hkept & _).
  assert ("<"%char ∈ range_operators) as Hin.
  { unfold range_operators.
    repeat first [apply list_elem_of_here | apply list_elem_of_further]. }
  assert ("1"%char ∉ range_operators) as Hout.
  { intros Hone. unfold range_operators in Hone.
    repeat (apply elem_of_cons in Hone as [Heq|Hone]; [discriminate|]).
    by apply elem_of_nil in Hone. }
  split; [exact Hin|]. split; [exact (Hstripped _ "19.2.0" Hin)|].
  split; [exact Hout|exact (Hkept _ "9.2.0" Hout)].
Defined.



Lemma run_deterministic_witness :
  (∀ path, path ∈ input_paths → consistent !! path = with_readme !! path) ∧
  consistent ≠ with_readme ∧
  run consistent = run with_readme.
Proof.
  assert (∀ path, path ∈ input_paths → consistent !! path = with_readme !! path)
    as Hsame.
  { intros path Hin. unfold input_paths, distFiles in Hin.
    repeat (apply elem_of_cons in Hin as [->|Hin]; [by vm_compute|]).
    by apply elem_of_nil in Hin. }
  split; [exact Hsame|]. split.
  - intros Heq. apply (f_equal (λ fs : gmap string node, fs !! "README.md")) in Heq.
    vm_compute in Heq. discriminate.
  - by destruct (run_deterministic consistent with_readme Hsame) as (_ & _ & _ & ?).
Defined.

Lemma manifest_fault_counterexample :
  (∃ text (pkg : value Z),
     versionless !! "package.json" = Some (File text) ∧
     JSON_parse text = Some pkg ∧ own pkg "version" = Undefined) ∧
  run versionless =
    (Exited 1,
     State
       [ devDependency_mismatch "react" "19.2.0" "undefined";
         devDependency_mismatch "react-dom" "19.2.0" "undefined" ]
       [ no_dist_warning ]
       [ banner;
         "📦 package.json version: undefined";
         "📦 devDependencies.react: 19.2.0";
         "📦 devDependencies.react-dom: 19.2.0" +:+ LF;
         LF +:+ "📦 Checking built dist files...";
         separator;
         failed_header;
         devDependency_mismatch "react" "19.2.0" "undefined";
         devDependency_mismatch "react-dom" "19.2.0" "undefined" ]).
Proof.
  split; [|by vm_compute].
  eexists _, _. split; [reflexivity|]. split; by vm_compute.
Qed.

Lemma manifest_fault_fatal_witness :
  manifest_fault empty_project (ENOENT "package.json") ∧
  run empty_project = (Thrown (ENOENT "package.json"), State [] [] [banner]) ∧
  manifest_fault garbled SyntaxError ∧
  run garbled = (Thrown SyntaxError, State [] [] [banner]) ∧
  manifest_fault without_react_dom TypeError ∧
  run without_react_dom = (Thrown TypeError, State [] [] [banner]) ∧
  manifest_declares versionless Undefined "^19.2.0" "^19.2.0" ∧
  exit_status (run versionless).1 = 1 ∧
  (∀ e, ¬ later_fault versionless e) ∧
  (run versionless).1 = Exited 1 ∧
  (∃ out,
     stdout (run versionless).2 =
       out ++ separator :: failed_header :: errors (run versionless).2).
Proof.
  assert (manifest_fault empty_project (ENOENT "package.json")) as Habsent
    by (apply manifest_absent; reflexivity).
  assert (manifest_fault garbled SyntaxError) as Hgarbled
    by (eapply manifest_unparsable; [reflexivity|vm_compute; reflexivity]).
  assert (manifest_fault without_react_dom TypeError) as Hwithout
    by (eapply manifest_without_react_dom;
          [reflexivity|vm_compute; reflexivity|vm_compute; reflexivity]).
  assert (∀ e, ¬ later_fault versionless e) as Hnone.
  { intros e [Hfault|(_ & before & f & after & Hsplit & _ & Hdir & _)].
    - inversion Hfault; discriminate.
    - revert Hdir.
      apply (elem_of_distFiles (λ f, versionless !! f ≠ Some Directory));
        [vm_compute; discriminate..|].
      rewrite Hsplit. apply elem_of_app. right. by left. }
  destruct (manifest_fault_fatal empty_project) as [Hfatal1 _].
  destruct (manifest_fault_fatal garbled) as [Hfatal2 _].
  destruct (manifest_fault_fatal without_react_dom) as [Hfatal3 _].
  destruct (manifest_fault_fatal versionless) as [_ Hversionless].
  destruct (Hfatal1 _ Habsent) as [Hrun1 _].
  destruct (Hfatal2 _ Hgarbled) as [Hrun2 _].
  destruct (Hfatal3 _ Hwithout) as [Hrun3 _].
  destruct (Hversionless _ _ versionless_declares)
    as (Hexit & _ & _ & _ & Hreport).
  destruct (Hreport Hnone) as [Hexited Hprinted].
  split; [exact Habsent|]. split; [exact Hrun1|].
  split; [exact Hgarbled|]. split; [exact Hrun2|].
  split; [exact Hwithout|]. split; [exact Hrun3|].
  split; [exact versionless_declares|]. split; [exact Hexit|].
  split; [exact Hnone|]. split; [exact Hexited|exact Hprinted].
Defined.

Lemma report_after_scan_counterexample :
  (run loose_react_dom).1 = Exited 1 ∧
  warnings (run loose_react_dom).2 = [no_dist_warning] ∧
  stdout (run loose_react_dom).2 =
    [ banner;
      "📦 package.json version: 19.2.0";
      "📦 devDependencies.react: 19.2.0";
      "📦 devDependencies.react-dom: =19.2.0" +:+ LF;
      "✅ devDependencies.react matches package version";
      LF +:+ "📦 Checking built dist files...";
      separator;
      failed_header;
      devDependency_mismatch "react-dom" "=19.2.0" "19.2.0" ] ∧
  no_dist_warning ∉ stdout (run loose_react_dom).2.
Proof.
  split; [by vm_compute|]. split; [by vm_compute|]. split; [by vm_compute|].
  apply (bool_decide_unpack _). by vm_compute.
Qed.

Lemma report_after_scan_witness :
  manifest_declares loose_react_dom (Str "19.2.0") "^19.2.0" ">=19.2.0" ∧
  (run loose_react_dom).1 = Exited 1 ∧
  errors (run loose_react_dom).2 ≠ [] ∧
  (∀ w, w ∈ warnings (run loose_react_dom).2 → w ∉ stdout (run loose_react_dom).2).
Proof.
  assert ((run loose_react_dom).1 = Exited 1) as Hexit by (vm_compute; reflexivity).
  assert (errors (run loose_react_dom).2 ≠ []) as Hne by (vm_compute; discriminate).
  destruct (@report_after_scan host loose_react_dom (Str "19.2.0")
              "^19.2.0" ">=19.2.0" 1
              loose_react_dom_declares Hexit) as (_ & _ & _ & Hfailed & _).
  destruct (Hfailed Hne) as [_ Hsilent].
  split; [exact loose_react_dom_declares|]. split; [exact Hexit|].
  split; [exact Hne|exact Hsilent].
Defined.

(** The manifest at 19.2.0 with both constraints at [^19.2.0], nothing
    installed and nothing built: exit 0, no Error, and the one Warning
    that no dist files were found. *)
Example consistent_run :
  run consistent =
    (Exited 0,
     State [] [no_dist_warning]
       [ banner;
         "📦 package.json version: 19.2.0";
         "📦 devDependencies.react: 19.2.0";
         "📦 devDependencies.react-dom: 19.2.0" +:+ LF;
         "✅ devDependencies.react matches package version";
         "✅ devDependencies.react-dom matches package version";
         LF +:+ "📦 Checking built dist files...";
         separator;
         warnings_header;
         no_dist_warning;
         passed_line ]).
Proof. by vm_compute. Qed.

(** A first line with the version of the manifest brings no Error, one
    with another version the mismatch and the hint. *)
Example banner_versions :
  match_version "/*! react.production.min.js v19.2.0 */" = Some "19.2.0" ∧
  errors (run stale_build).2 =
    [ dist_mismatch "dist/react.development.js" "19.2.1" "19.2.0";
      npm_build_hint ].
Proof. by vm_compute. Qed.

(** ** The further properties on the sample files *)

Ltac each_distFile tac :=
  let f := fresh "f" in
  let Hf := fresh "Hf" in
  intros f Hf; unfold distFiles in Hf;
  repeat (apply elem_of_cons in Hf as [->|Hf]; [tac|]);
  by apply elem_of_nil in Hf.

Lemma built_declares :
  manifest_declares built (Str "19.2.0") "^19.2.0" "^19.2.0".
Proof. declares. Defined.

Lemma broken_install_declares :
  manifest_declares broken_install (Str "19.2.0") "^19.2.0" ">=19.2.0".
Proof. declares. Defined.

Lemma dist_directory_declares :
  manifest_declares dist_directory (Str "19.2.0") "^19.2.0" "^19.2.0".
Proof. declares. Defined.

Lemma numeric_version_declares :
  manifest_declares numeric_version (Num 19%Z) "^19.2.0" "^19.2.0".
Proof. declares. Defined.

Lemma built_installed_agrees : installed_agrees built "19.2.0".
Proof.
  right. eexists _, _. split; [reflexivity|]. split; [vm_compute; reflexivity|].
  split; [discriminate|]. split; [discriminate|]. vm_compute. reflexivity.
Defined.

Lemma passing_run_agrees_witness :
  exit_status (run built).1 = 0 ∧
  ∃ version react react_dom,
    manifest_declares built (Str version) react react_dom ∧
    strip_range_operator react = version ∧
    strip_range_operator react_dom = version ∧
    installed_agrees built version ∧
    (∀ distFile, distFile ∈ distFiles → built !! distFile ≠ Some Directory) ∧
    (∀ distFile ev,
       distFile ∈ distFiles → embedded_version built distFile = Some ev →
       ev = version).
Proof.
  assert (exit_status (run built).1 = 0) as Hexit by (vm_compute; reflexivity).
  split; [exact Hexit|]. exact (passing_run_agrees built Hexit).
Defined.

Lemma agreeing_files_pass_witness :
  manifest_declares built (Str "19.2.0") "^19.2.0" "^19.2.0" ∧
  installed_agrees built "19.2.0" ∧
  (∀ distFile, distFile ∈ distFiles → built !! distFile ≠ Some Directory) ∧
  (∀ distFile ev,
     distFile ∈ distFiles → embedded_version built distFile = Some ev →
     ev = "19.2.0") ∧
  (run built).1 = Exited 0 ∧ errors (run built).2 = [].
Proof.
  assert (∀ distFile, distFile ∈ distFiles → built !! distFile ≠ Some Directory)
    as Hdir by each_distFile ltac:(vm_compute; discriminate).
  assert (∀ distFile, distFile ∈ distFiles →
            ∀ ev, embedded_version built distFile = Some ev → ev = "19.2.0")
    as Hev by each_distFile ltac:(vm_compute; by intros ev [= <-]).
  split; [exact built_declares|]. split; [exact built_installed_agrees|].
  split; [exact Hdir|]. split; [intros f ev Hf; by apply Hev|].
  apply (agreeing_files_pass built "19.2.0" "^19.2.0" "^19.2.0"
           built_declares eq_refl eq_refl built_installed_agrees Hdir).
  intros f ev Hf. by apply Hev.
Defined.

Lemma installed_fault_fatal_witness :
  manifest_declares broken_install (Str "19.2.0") "^19.2.0" ">=19.2.0" ∧
  installed_fault broken_install SyntaxError ∧
  (run broken_install).1 = Thrown SyntaxError ∧
  errors (run broken_install).2 =
    [devDependency_mismatch "react-dom" "=19.2.0" "19.2.0"] ∧
  (∀ m, m ∈ errors (run broken_install).2 → m ∉ stdout (run broken_install).2).
Proof.
  assert (installed_fault broken_install SyntaxError) as Hfault
    by (eapply installed_unparsable; [reflexivity|vm_compute; reflexivity]).
  destruct (@installed_fault_fatal host broken_install (Str "19.2.0")
              "^19.2.0" ">=19.2.0" "19.2.0" SyntaxError
              broken_install_declares eq_refl Hfault) as (Hrun & _ & Hsilent).
  split; [exact broken_install_declares|]. split; [exact Hfault|].
  split; [by rewrite Hrun|]. split; [by rewrite Hrun|exact Hsilent].
Defined.

Lemma fatal_causes_witness :
  manifest_declares dist_directory (Str "19.2.0") "^19.2.0" "^19.2.0" ∧
  (∀ e, ¬ installed_fault dist_directory e) ∧
  dist_directory !! "dist/react.development.js" = Some Directory ∧
  (run dist_directory).1 = Thrown (EISDIR "dist/react.development.js") ∧
  (∃ code, (run consistent).1 = Exited code).
Proof.
  assert (∀ e, ¬ installed_fault dist_directory e) as Hnone
    by (intros e He; inversion He; discriminate).
  assert (∀ e, ¬ installed_fault consistent e) as Hnone'
    by (intros e He; inversion He; discriminate).
  destruct (@fatal_causes host dist_directory (Str "19.2.0") "^19.2.0" "^19.2.0"
              "19.2.0" (EISDIR "dist/react.development.js")
              dist_directory_declares eq_refl) as [[_ Hthrown] _].
  destruct (@fatal_causes host consistent (Str "19.2.0") "^19.2.0" "^19.2.0"
              "19.2.0" TypeError consistent_declares eq_refl) as [_ Hreport].
  split; [exact dist_directory_declares|]. split; [exact Hnone|].
  split; [reflexivity|]. split.
  - apply Hthrown. right. split; [exact Hnone|].
    exists ["dist/react.production.min.js"], "dist/react.development.js",
      ["dist/react-dom.production.min.js"; "dist/react-dom.development.js"].
    split; [reflexivity|]. split; [|by split].
    intros f Hf. apply list_elem_of_singleton in Hf as ->.
    vm_compute. discriminate.
  - apply Hreport; [exact Hnone'|].
    each_distFile ltac:(vm_compute; discriminate).
Defined.

Lemma warnings_of_run_witness :
  (run unversioned_build).1 = Exited 0 ∧
  warnings (run unversioned_build).2 =
    map no_version_warning
      (filter (λ f, unversioned unversioned_build f) distFiles) ++
    (if decide (versioned_files unversioned_build distFiles = [])
     then [no_dist_warning] else []).
Proof.
  assert ((run unversioned_build).1 = Exited 0) as Hexit
    by (vm_compute; reflexivity).
  split; [exact Hexit|]. exact (warnings_of_run unversioned_build 0 Hexit).
Defined.

Lemma object_version_declares :
  manifest_declares object_version (Obj {[ "toString" := Num 1%Z ]})
    "^19.2.0" "^19.2.0".
Proof. declares. Defined.

Lemma nonstring_version_fails_witness :
  manifest_declares numeric_version (Num 19%Z) "^19.2.0" "^19.2.0" ∧
  exit_status (run numeric_version).1 = 1 ∧
  (∃ later,
     errors (run numeric_version).2 =
       "❌ devDependencies.react (19.2.0) doesn't match package version (19)" ::
       "❌ devDependencies.react-dom (19.2.0) doesn't match package version (19)" ::
       later) ∧
  manifest_declares object_version (Obj {[ "toString" := Num 1%Z ]})
    "^19.2.0" "^19.2.0" ∧
  run object_version = (Thrown TypeError, State [] [] [banner]).
Proof.
  destruct (@nonstring_version_fails host numeric_version (Num 19%Z)
              "^19.2.0" "^19.2.0" numeric_version_declares)
    as (Hexit & Herrors & _); [intros s; discriminate|].
  destruct (@nonstring_version_fails host object_version
              (Obj {[ "toString" := Num 1%Z ]})
              "^19.2.0" "^19.2.0" object_version_declares)
    as (_ & _ & Hobject); [intros s; discriminate|].
  destruct (Hobject _ eq_refl) as [Hthrown _].
  cbn [ToString Number_toString host] in Herrors.
  destruct Herrors as (first & second & later & He & Hfirst & Hsecond & _).
  split; [exact numeric_version_declares|]. split; [exact Hexit|].
  split; [exists later; by rewrite Hfirst, Hsecond in He|].
  split; [exact object_version_declares|].
  apply Hthrown. eexists. vm_compute. reflexivity.
Defined.

Lemma confirmation_printed_witness :
  (run built_stale).1 = Exited 1 ∧
  (∀ distFile, distFile ∈ distFiles →
     is_Some (embedded_version built_stale distFile)) ∧
  embedded_version built_stale "dist/react.development.js" = Some "19.2.1" ∧
  dist_confirmation ∈ stdout (run built_stale).2.
Proof.
  assert ((run built_stale).1 = Exited 1) as Hexit by (vm_compute; reflexivity).
  assert (∀ distFile, distFile ∈ distFiles →
            is_Some (embedded_version built_stale distFile)) as Hall
    by (apply (elem_of_distFiles
               (λ f, is_Some (embedded_version built_stale f)));
          vm_compute; eexists; reflexivity).
  split; [exact Hexit|]. split; [exact Hall|]. split; [reflexivity|].
  by apply (confirmation_printed built_stale 1 Hexit).
Defined.

Lemma unbuilt_project_passes_witness :
  manifest_declares consistent (Str "19.2.0") "^19.2.0" "^19.2.0" ∧
  consistent !! "node_modules/react/package.json" = None ∧
  (∀ distFile, distFile ∈ distFiles → consistent !! distFile = None) ∧
  (run consistent).1 = Exited 0 ∧
  warnings (run consistent).2 = [no_dist_warning].
Proof.
  assert (∀ distFile, distFile ∈ distFiles → consistent !! distFile = None)
    as Hdist by each_distFile ltac:(vm_compute; reflexivity).
  pose proof (unbuilt_project_passes consistent "19.2.0" "^19.2.0" "^19.2.0"
                consistent_declares eq_refl eq_refl eq_refl Hdist) as Hrun.
  split; [exact consistent_declares|]. split; [reflexivity|].
  split; [exact Hdist|]. by rewrite Hrun.
Defined.

Lemma diagnostics_well_paired_witness :
  errors (run stale_install).2 !! 1 = Some "   💡 Run: npm install" ∧
  ∃ m, errors (run stale_install).2 !! 0 = Some m ∧ installed_line m = true.
Proof.
  assert (errors (run stale_install).2 !! 1 = Some "   💡 Run: npm install")
    as Hhint by (vm_compute; reflexivity).
  destruct (@diagnostics_well_paired host stale_install)
    as (_ & [Hbehind _] & _).
  destruct (Hbehind 1 Hhint) as (j & m & Hj & Hm & Hkind).
  injection Hj as <-. split; [exact Hhint|].
  exists m. split; [exact Hm|exact Hkind].
Defined.

(** Both bounds on the diagnostics are reached. *)
Example twelve_errors :
  length (errors (run
    (<["package.json" := File (manifest "19.3.0" "^19.2.0" "^19.2.0")]>
       (<["node_modules/react/package.json" := File (descriptor "19.1.0")]>
          built))).2) = 12.
Proof. by vm_compute. Qed.

Example five_warnings :
  length (warnings (run
    (<["dist/react.production.min.js" := File "a"]>
       (<["dist/react.development.js" := File "b"]>
          (<["dist/react-dom.production.min.js" := File "c"]>
             (<["dist/react-dom.development.js" := File "d"]> consistent))))).2)
    = 5.
Proof. by vm_compute. Qed.
